(** * Static analysis core of the code-review agent

    A shallow embedding of [services/code_parser.py] (the structural
    parser and the metrics calculator) and of
    [services/defect_classifier.py] (the rule scan, the classifier step
    and the score fusion), followed by the properties of the
    specification that concern them.

    Conventions of the embedding.
    - A Python [str] is a Rocq [string]; its characters range over the
      code points below 256.
    - A Python [int] is a [Z] (a [nat] where the source can only produce a
      length or an index from [enumerate]).
    - A Python [float] is an IEEE 754 double where a statement depends on
      its arithmetic: module [binary64] has the score fusion of [analyze]
      on Rocq's primitive floats, and the statements about the returned
      risk score and risk level are made there.  The record that
      [analyze] returns carries the score as an exact rational [Q]
      ([0.4] is [4 # 10], [round(x, 3)] rounds to the nearest multiple of
      [1/1000], ties to even); it serves the statements about the flagged
      sections, the issues and the confidence, which the arithmetic does
      not touch.
    - Exceptions are values of [outcome]; a [try ... except] is a match
      on it.  Only exceptions deriving from [Exception] are modelled.
    - The libraries the source calls ([ast], [re], the fitted
      scikit-learn model) are interfaces (type classes or record fields):
      every statement holds for all their implementations, and the
      examples run on small concrete ones. *)

From Stdlib Require Import String Ascii List ZArith QArith Qround Qminmax.
From Stdlib Require Import Lia Lqa Permutation Bool DecimalString Floats.
From stdpp Require Import base option list gmap strings.
Import ListNotations.

Open Scope string_scope.
Open Scope Z_scope.
Open Scope nat_scope.
Open Scope list_scope.

(** ** Exceptions *)

Inductive exn : Type :=
| SyntaxError (lineno : option Z) (msg : string)
| PyException (cls : string) (msg : string).

Inductive outcome (A : Type) : Type :=
| Returns (a : A)
| Raises (e : exn).
Arguments Returns {A} a.
Arguments Raises {A} e.

Definition obind {A B} (m : outcome A) (k : A -> outcome B) : outcome B :=
  match m with
  | Returns a => k a
  | Raises e => Raises e
  end.

Notation "'let*' x := m 'in' k" := (obind m (fun x => k))
  (at level 10, x name, m at level 100, k at level 200).

(** [for x in l: acc = body(acc, x)], leaving at the first exception. *)
Fixpoint ofold {A S} (body : S -> A -> outcome S) (l : list A) (acc : S)
  : outcome S :=
  match l with
  | [] => Returns acc
  | x :: l' => obind (body acc x) (ofold body l')
  end.

Fixpoint omap {A B} (f : A -> outcome B) (l : list A) : outcome (list B) :=
  match l with
  | [] => Returns []
  | x :: l' =>
      obind (f x) (fun y => obind (omap f l') (fun ys => Returns (y :: ys)))
  end.

(** ** The string methods the source uses *)

Module Py.

Definition LF : ascii := "010"%char.

(** [str.isspace] on one character (code points below 256). *)
Definition isspace (c : ascii) : bool :=
  let n := nat_of_ascii c in
  ((9 <=? n) && (n <=? 13)) || ((28 <=? n) && (n <=? 32))
  || (n =? 133) || (n =? 160).

Fixpoint lstrip (s : string) : string :=
  match s with
  | EmptyString => EmptyString
  | String c s' => if isspace c then lstrip s' else s
  end.

Fixpoint rstrip (s : string) : string :=
  match s with
  | EmptyString => EmptyString
  | String c s' =>
      match rstrip s' with
      | EmptyString => if isspace c then EmptyString else String c EmptyString
      | r => String c r
      end
  end.

Definition strip (s : string) : string := lstrip (rstrip s).

(** Truth value of a string: [not s] is [negb (truthy s)]. *)
Definition truthy (s : string) : bool :=
  match s with EmptyString => false | _ => true end.

(** Cut [s] at every character satisfying [p]; the result is never empty. *)
Fixpoint split_at (p : ascii -> bool) (s : string) : list string :=
  match s with
  | EmptyString => [EmptyString]
  | String c s' =>
      if p c then EmptyString :: split_at p s'
      else match split_at p s' with
           | h :: t => String c h :: t
           | [] => [String c EmptyString]
           end
  end.

(** [s.split(sep)] for a one-character separator. *)
Definition split (sep : ascii) (s : string) : list string :=
  split_at (Ascii.eqb sep) s.

(** [s.split()]: cut at runs of white space, no empty pieces. *)
Definition split_ws (s : string) : list string :=
  List.filter truthy (split_at isspace s).

Definition startswith (s p : string) : bool := String.prefix p s.

(** [s.startswith((p1, ..., pn))] *)
Definition startswith_any (s : string) (ps : list string) : bool :=
  existsb (startswith s) ps.

Fixpoint take (n : nat) (s : string) : string :=
  match n, s with
  | S n', String c s' => String c (take n' s')
  | _, _ => EmptyString
  end.

Fixpoint drop (n : nat) (s : string) : string :=
  match n, s with
  | S n', String _ s' => drop n' s'
  | _, _ => s
  end.

(** The scan behind [s.count(sub)] for a non-empty [sub]: occurrences are
    taken left to right and do not overlap; [skip] characters are still
    covered by the occurrence taken last. *)
Fixpoint count_from (sub : string) (skip : nat) (s : string) : nat :=
  match s with
  | EmptyString => 0
  | String _ s' =>
      match skip with
      | S k => count_from sub k s'
      | O =>
          if String.prefix sub s
          then S (count_from sub (String.length sub - 1) s')
          else count_from sub 0 s'
      end
  end.

Definition count (s sub : string) : nat :=
  match sub with
  | EmptyString => S (String.length s)
  | _ => count_from sub 0 s
  end.

(** [sub in s] *)
Fixpoint contains (sub s : string) : bool :=
  String.prefix sub s
  || match s with
     | EmptyString => false
     | String _ s' => contains sub s'
     end.

Fixpoint find_from (sub s : string) (i start : nat) : Z :=
  if (start <=? i) && String.prefix sub s then Z.of_nat i
  else match s with
       | EmptyString => (-1)%Z
       | String _ s' => find_from sub s' (S i) start
       end.

(** [s.find(sub, start)] for [start >= 0] *)
Definition find (s sub : string) (start : nat) : Z := find_from sub s 0 start.

Definition lower_char (c : ascii) : ascii :=
  let n := nat_of_ascii c in
  if ((65 <=? n) && (n <=? 90))
     || ((192 <=? n) && (n <=? 222) && negb (n =? 215))
  then ascii_of_nat (n + 32) else c.

Fixpoint lower (s : string) : string :=
  match s with
  | EmptyString => EmptyString
  | String c s' => String (lower_char c) (lower s')
  end.

(** [sep.join(l)] *)
Definition join (sep : string) (l : list string) : string :=
  String.concat sep l.

(** [str(n)] for an integer *)
Definition str_int (n : Z) : string := NilZero.string_of_int (Z.to_int n).

(** [l[lo:hi]] with Python's treatment of negative and large bounds. *)
Definition slice {A} (l : list A) (lo hi : Z) : list A :=
  let n := Z.of_nat (length l) in
  let norm i := if (i <? 0)%Z then Z.max 0 (i + n) else Z.min i n in
  firstn (Z.to_nat (norm hi - norm lo)) (skipn (Z.to_nat (norm lo)) l).

(** The position [l[i]] denotes, or [IndexError]. *)
Definition index {A} (l : list A) (i : Z) : outcome nat :=
  let n := Z.of_nat (length l) in
  let j := if (i <? 0)%Z then (i + n)%Z else i in
  if (0 <=? j)%Z && (j <? n)%Z then Returns (Z.to_nat j)
  else Raises (PyException "IndexError" "list index out of range").

End Py.

(** ** Syntax trees

    The object model of Python's [ast] module: a node has a class, its
    fields in the order of [_fields], and its integer attributes
    ([lineno], [end_lineno], ...).  A field holds a node, a list, a string,
    an integer or [None]. *)

#[warnings="-register-all"]
Inductive value : Type :=
| VNone
| VStr (s : string)
| VInt (z : Z)
| VList (items : list value)
| VNode (cls : string) (fields : list (string * value))
        (attributes : list (string * Z)).

Fixpoint assoc {A} (k : string) (l : list (string * A)) : option A :=
  match l with
  | [] => None
  | (k', v) :: l' => if String.eqb k k' then Some v else assoc k l'
  end.

Module ast.

Definition is_AST (v : value) : bool :=
  match v with VNode _ _ _ => true | _ => false end.

(** [isinstance(node, ast.<cls>)] *)
Definition isinstance (node : value) (c : string) : bool :=
  match node with VNode cls _ _ => String.eqb cls c | _ => false end.

Definition isinstance_any (node : value) (cs : list string) : bool :=
  existsb (isinstance node) cs.

Definition field_children (field : value) : list value :=
  match field with
  | VNode _ _ _ => [field]
  | VList items => List.filter is_AST items
  | _ => []
  end.

(** [ast.iter_child_nodes]: the fields that are nodes and the nodes inside
    the fields that are lists, in field order. *)
Definition iter_child_nodes (node : value) : list value :=
  match node with
  | VNode _ fields _ => flat_map (fun f => field_children (snd f)) fields
  | _ => []
  end.

(** Number of nodes of a tree. *)
Fixpoint size (v : value) : nat :=
  match v with
  | VNode _ fields _ =>
      S (list_sum
           (map (fun f =>
                   match snd f with
                   | VNode _ _ _ => size (snd f)
                   | VList items =>
                       list_sum
                         (map (fun item =>
                                 match item with
                                 | VNode _ _ _ => size item
                                 | _ => 0
                                 end) items)
                   | _ => 0
                   end) fields))
  | _ => 0
  end.

(** All nodes of a tree, the root first, depth first. *)
Fixpoint subnodes (v : value) : list value :=
  match v with
  | VNode _ fields _ =>
      v :: flat_map
             (fun f =>
                match snd f with
                | VNode _ _ _ => subnodes (snd f)
                | VList items =>
                    flat_map (fun item =>
                                match item with
                                | VNode _ _ _ => subnodes item
                                | _ => []
                                end) items
                | _ => []
                end) fields
  | _ => []
  end.

(** The loop of [ast.walk]: take the first node of the queue, append its
    children to the queue, yield it. *)
Fixpoint walk_queue (fuel : nat) (todo : list value) : list value :=
  match fuel, todo with
  | S fuel', node :: rest =>
      node :: walk_queue fuel' (rest ++ iter_child_nodes node)
  | _, _ => []
  end.

(** [ast.walk(node)], breadth first.  The queue is empty before the fuel
    is used up ([walk_queue_enough] below). *)
Definition walk (node : value) : list value := walk_queue (size node) [node].

Definition no_attribute (node : value) (name : string) : exn :=
  match node with
  | VNode cls _ _ =>
      PyException "AttributeError"
        ("'" +:+ cls +:+ "' object has no attribute '" +:+ name +:+ "'")
  | _ => PyException "AttributeError" ("no attribute '" +:+ name +:+ "'")
  end.

(** [node.<name>] for a field *)
Definition getattr (node : value) (name : string) : outcome value :=
  match node with
  | VNode _ fields _ =>
      match assoc name fields with
      | Some v => Returns v
      | None => Raises (no_attribute node name)
      end
  | _ => Raises (no_attribute node name)
  end.

(** [node.lineno], [node.end_lineno] *)
Definition getpos (node : value) (name : string) : outcome Z :=
  match node with
  | VNode _ _ attributes =>
      match assoc name attributes with
      | Some z => Returns z
      | None => Raises (no_attribute node name)
      end
  | _ => Raises (no_attribute node name)
  end.

(** Iterating over a field ([for x in node.<name>]) *)
Definition as_list (v : value) : outcome (list value) :=
  match v with
  | VList items => Returns items
  | _ => Raises (PyException "TypeError" "object is not iterable")
  end.

(** [len(node.<name>)] *)
Definition len (v : value) : outcome Z :=
  match v with
  | VList items => Returns (Z.of_nat (length items))
  | VStr s => Returns (Z.of_nat (String.length s))
  | _ => Raises (PyException "TypeError" "object has no len()")
  end.

Definition as_str (v : value) : outcome string :=
  match v with
  | VStr s => Returns s
  | _ => Raises (PyException "TypeError" "expected str instance")
  end.

(** Truth value of a field: [None] and the empty list are false, a node
    is true. *)
Definition truthy (v : value) : bool :=
  match v with
  | VNone => false
  | VStr s => Py.truthy s
  | VInt z => negb (z =? 0)%Z
  | VList items => match items with [] => false | _ => true end
  | VNode _ _ _ => true
  end.

(** What the source needs of the [ast] module beyond the tree itself. *)
Class Lib : Type := {
  parse : string -> outcome value;
  unparse : value -> string;
  has_unparse : bool;            (* hasattr(ast, 'unparse') *)
  str_of_node : value -> string; (* str(node) *)
  get_docstring : value -> option string
}.

End ast.

(** ** Regular expressions

    The [re] module is an interface.  A match object gives its start and
    its groups, group 0 first; a group that took no part in the match is
    [None]. *)

Module re.

Record Match : Type := { start : nat; groups : list (option string) }.

(** [m.group(k)] *)
Definition group (m : Match) (k : nat) : option string :=
  match nth_error (groups m) k with
  | Some g => g
  | None => None
  end.

(** [m.group(k)] where the group takes part in every match of the pattern *)
Definition group_str (m : Match) (k : nat) : string :=
  match group m k with Some g => g | None => EmptyString end.

Class Engine : Type := {
  (* re.finditer(pattern, text) *)
  finditer : string -> string -> list Match;
  (* re.findall(pattern, text[, re.IGNORECASE]) for a pattern with at most
     one group *)
  findall : string -> bool -> string -> list string;
  (* re.search(pattern, text, re.IGNORECASE) is not None *)
  search_ignorecase : string -> string -> bool
}.

End re.

(** ** The structural model ([code_parser.py], lines 10-47) *)

(** A parameter record [{'name': ..., 'type': ..., 'default': ...}] *)
Record Param : Type := {
  p_name : string;
  p_type : option string;
  p_default : option string
}.

Definition with_default (d : string) (p : Param) : Param :=
  {| p_name := p_name p; p_type := p_type p; p_default := Some d |}.

Module FunctionInfo.
Record t : Type := {
  name : string;
  start_line : Z;
  end_line : Z;
  signature : string;
  parameters : list Param;
  return_type : option string;
  body : string;
  decorators : list string;
  docstring : option string;
  is_async : bool;
  is_method : bool;
  class_name : option string
}.
End FunctionInfo.

(** A class attribute record [{'name': ..., 'type': ..., 'line': ...}] *)
Record Attribute : Type := {
  a_name : string;
  a_type : option string;
  a_line : Z
}.

Module ClassInfo.
Record t : Type := {
  name : string;
  start_line : Z;
  end_line : Z;
  bases : list string;
  methods : list FunctionInfo.t;
  attributes : list Attribute;
  docstring : option string;
  decorators : list string
}.
End ClassInfo.

(** A global variable record [{'name': ..., 'line': ..., 'value': ...}] *)
Record GlobalVar : Type := {
  g_name : string;
  g_line : Z;
  g_value : string
}.

Module ParseResult.
Record t : Type := {
  language : string;
  functions : list FunctionInfo.t;
  classes : list ClassInfo.t;
  imports : list string;
  global_variables : list GlobalVar;
  errors : list string;
  complexity_score : Z
}.
End ParseResult.

(** Truth value of an optional string ([None] and [''] are false). *)
Definition otruthy (o : option string) : bool :=
  match o with Some s => Py.truthy s | None => false end.

Definition enumerate {A} (l : list A) : list (nat * A) :=
  combine (seq 0 (length l)) l.

(** ** The structural parser ([CodeParser], [code_parser.py]) *)

Section CodeParser.
Context {astlib : ast.Lib} {engine : re.Engine}.

(** *** Python ([_extract_python_function], lines 130-195) *)

Definition param_of_arg (arg : value) : outcome Param :=
  let* a := ast.getattr arg "arg" in
  let* nm := ast.as_str a in
  let* annotation := ast.getattr arg "annotation" in
  Returns {| p_name := nm;
             p_type := if ast.truthy annotation && ast.has_unparse
                       then Some (ast.unparse annotation) else None;
             p_default := None |}.

(** [parameters[offset + i]['default'] = ast.unparse(default)] *)
Definition set_default (offset : Z) (parameters : list Param)
    (item : nat * value) : outcome (list Param) :=
  let (i, default) := item in
  if ast.has_unparse then
    let* k := Py.index parameters (offset + Z.of_nat i) in
    Returns (alter (with_default (ast.unparse default)) k parameters)
  else Returns parameters.

Definition param_str (p : Param) : string :=
  let s := p_name p in
  let s := if otruthy (p_type p)
           then s +:+ ": " +:+ default "" (p_type p) else s in
  if otruthy (p_default p)
  then s +:+ " = " +:+ default "" (p_default p) else s.

Definition unparse_all (l : list value) : list string :=
  if ast.has_unparse then map ast.unparse l else [].

Definition _extract_python_function (node : value) (lines : list string)
    (class_name : option string) : outcome FunctionInfo.t :=
  (* Get parameters *)
  let* args := ast.getattr node "args" in
  let* args_args := ast.getattr args "args" in
  let* arg_list := ast.as_list args_args in
  let* parameters := omap param_of_arg arg_list in
  (* Handle default values *)
  let* defaults := ast.getattr args "defaults" in
  let* parameters :=
    if ast.truthy defaults then
      let* n := ast.len defaults in
      let offset := (Z.of_nat (length parameters) - n)%Z in
      let* default_list := ast.as_list defaults in
      ofold (set_default offset) (enumerate default_list) parameters
    else Returns parameters in
  (* Get return type *)
  let* returns := ast.getattr node "returns" in
  let return_type :=
    if ast.truthy returns
    then Some (if ast.has_unparse then ast.unparse returns
               else ast.str_of_node returns)
    else None in
  (* Build signature *)
  let params_str := map param_str parameters in
  let* nm := ast.getattr node "name" in
  let* name := ast.as_str nm in
  let signature := "def " +:+ name +:+ "(" +:+ Py.join ", " params_str +:+ ")" in
  let signature :=
    if otruthy return_type
    then signature +:+ " -> " +:+ default "" return_type else signature in
  (* Get decorators *)
  let* decorator_list := ast.getattr node "decorator_list" in
  let* decs := ast.as_list decorator_list in
  let decorators := unparse_all decs in
  (* Get docstring *)
  let docstring := ast.get_docstring node in
  (* Get body *)
  let* lineno := ast.getpos node "lineno" in
  let* end_lineno := ast.getpos node "end_lineno" in
  let body := Py.join (String Py.LF "") (Py.slice lines (lineno - 1) end_lineno) in
  Returns {| FunctionInfo.name := name;
             FunctionInfo.start_line := lineno;
             FunctionInfo.end_line := end_lineno;
             FunctionInfo.signature := signature;
             FunctionInfo.parameters := parameters;
             FunctionInfo.return_type := return_type;
             FunctionInfo.body := body;
             FunctionInfo.decorators := decorators;
             FunctionInfo.docstring := docstring;
             FunctionInfo.is_async := ast.isinstance node "AsyncFunctionDef";
             FunctionInfo.is_method := match class_name with
                                       | Some _ => true | None => false end;
             FunctionInfo.class_name := class_name |}.

(** *** [_extract_python_class], lines 197-238 *)

Definition attribute_of (item : value) : outcome (list Attribute) :=
  if ast.isinstance item "AnnAssign" then
    let* target := ast.getattr item "target" in
    if ast.isinstance target "Name" then
      let* id := ast.getattr target "id" in
      let* nm := ast.as_str id in
      let* annotation := ast.getattr item "annotation" in
      let* line := ast.getpos item "lineno" in
      Returns [ {| a_name := nm;
                   a_type := if ast.truthy annotation && ast.has_unparse
                             then Some (ast.unparse annotation) else None;
                   a_line := line |} ]
    else Returns []
  else Returns [].

Definition _extract_python_class (node : value) (lines : list string)
    : outcome ClassInfo.t :=
  (* Get base classes *)
  let* bases_field := ast.getattr node "bases" in
  let* base_list := ast.as_list bases_field in
  let bases := unparse_all base_list in
  (* Get methods *)
  let* body_field := ast.getattr node "body" in
  let* body := ast.as_list body_field in
  let* methods :=
    omap (fun item =>
            let* nm := ast.getattr node "name" in
            let* class_name := ast.as_str nm in
            _extract_python_function item lines (Some class_name))
         (List.filter
            (fun item =>
               ast.isinstance_any item ["FunctionDef"; "AsyncFunctionDef"])
            body) in
  (* Get class attributes *)
  let* attributes := omap attribute_of body in
  (* Get decorators *)
  let* decorator_list := ast.getattr node "decorator_list" in
  let* decs := ast.as_list decorator_list in
  let decorators := unparse_all decs in
  let* nm := ast.getattr node "name" in
  let* name := ast.as_str nm in
  let* lineno := ast.getpos node "lineno" in
  let* end_lineno := ast.getpos node "end_lineno" in
  Returns {| ClassInfo.name := name;
             ClassInfo.start_line := lineno;
             ClassInfo.end_line := end_lineno;
             ClassInfo.bases := bases;
             ClassInfo.methods := methods;
             ClassInfo.attributes := concat attributes;
             ClassInfo.docstring := ast.get_docstring node;
             ClassInfo.decorators := decorators |}.

(** *** [_calculate_complexity], lines 240-254 *)

Definition complexity_step (complexity : Z) (node : value) : outcome Z :=
  if ast.isinstance_any node ["If"; "While"; "For"; "ExceptHandler"] then
    Returns (complexity + 1)%Z
  else if ast.isinstance node "BoolOp" then
    let* values := ast.getattr node "values" in
    let* n := ast.len values in
    Returns (complexity + (n - 1))%Z
  else if ast.isinstance_any node ["And"; "Or"] then
    Returns (complexity + 1)%Z
  else Returns complexity.

Definition _calculate_complexity (tree : value) : outcome Z :=
  let* complexity := ofold complexity_step (ast.walk tree) 1%Z in
  Returns (Z.min 100 (complexity * 5)).

(** *** [_parse_python], lines 70-128

    The four result lists are appended to while the [try] block runs, so
    what was appended before an exception is still there when the handler
    builds the result: the block is a computation over this store. *)

Record store : Type := {
  functions : list FunctionInfo.t;
  classes : list ClassInfo.t;
  imports : list string;
  global_vars : list GlobalVar
}.

Inductive result (A : Type) : Type :=
| Done (a : A) (s : store)
| Failed (e : exn) (s : store).
Arguments Done {A} a s.
Arguments Failed {A} e s.

Definition M (A : Type) : Type := store -> result A.

Definition sbind {A B} (m : M A) (k : A -> M B) : M B :=
  fun s => match m s with
           | Done a s' => k a s'
           | Failed e s' => Failed e s'
           end.

Notation "'let+' x := m 'in' k" := (sbind m (fun x => k))
  (at level 10, x name, m at level 100, k at level 200).

Definition sret {A} (a : A) : M A := fun s => Done a s.

Definition lift {A} (o : outcome A) : M A :=
  fun s => match o with
           | Returns a => Done a s
           | Raises e => Failed e s
           end.

Fixpoint for_each {A} (l : list A) (body : A -> M unit) : M unit :=
  match l with
  | [] => sret tt
  | x :: l' => let+ _ := body x in for_each l' body
  end.

Definition append_function (f : FunctionInfo.t) : M unit :=
  fun s => Done tt {| functions := functions s ++ [f]; classes := classes s;
                      imports := imports s; global_vars := global_vars s |}.

Definition append_class (c : ClassInfo.t) : M unit :=
  fun s => Done tt {| functions := functions s; classes := classes s ++ [c];
                      imports := imports s; global_vars := global_vars s |}.

Definition append_import (i : string) : M unit :=
  fun s => Done tt {| functions := functions s; classes := classes s;
                      imports := imports s ++ [i];
                      global_vars := global_vars s |}.

Definition append_global_var (g : GlobalVar) : M unit :=
  fun s => Done tt {| functions := functions s; classes := classes s;
                      imports := imports s;
                      global_vars := global_vars s ++ [g] |}.

Definition alias_name (alias : value) : outcome string :=
  let* nm := ast.getattr alias "name" in ast.as_str nm.

(** Extract imports: the body of the loop over [ast.walk(tree)] *)
Definition collect_imports (node : value) : M unit :=
  if ast.isinstance node "Import" then
    let+ names := lift (let* f := ast.getattr node "names" in ast.as_list f) in
    for_each names (fun alias =>
      let+ nm := lift (alias_name alias) in append_import nm)
  else if ast.isinstance node "ImportFrom" then
    let+ module_field := lift (ast.getattr node "module") in
    let module := match module_field with
                  | VStr m => m
                  | _ => EmptyString
                  end in
    let+ names := lift (let* f := ast.getattr node "names" in ast.as_list f) in
    for_each names (fun alias =>
      let+ nm := lift (alias_name alias) in
      append_import (module +:+ "." +:+ nm))
  else sret tt.

(** Process top-level nodes: the body of the loop over
    [ast.iter_child_nodes(tree)] *)
Definition top_level (lines : list string) (node : value) : M unit :=
  if ast.isinstance node "FunctionDef" || ast.isinstance node "AsyncFunctionDef"
  then
    let+ func_info := lift (_extract_python_function node lines None) in
    append_function func_info
  else if ast.isinstance node "ClassDef" then
    let+ class_info := lift (_extract_python_class node lines) in
    append_class class_info
  else if ast.isinstance node "Assign" then
    let+ targets := lift (let* f := ast.getattr node "targets" in
                          ast.as_list f) in
    for_each targets (fun target =>
      if ast.isinstance target "Name" then
        let+ nm := lift (let* id := ast.getattr target "id" in ast.as_str id) in
        let+ line := lift (ast.getpos node "lineno") in
        let+ v := lift (ast.getattr node "value") in
        append_global_var
          {| g_name := nm; g_line := line;
             g_value := if ast.has_unparse then ast.unparse v
                        else ast.str_of_node v |}
      else sret tt)
  else sret tt.

(** The [try] block; its value is [complexity]. *)
Definition _parse_python_try (code : string) : M Z :=
  let+ tree := lift (ast.parse code) in
  let lines := Py.split Py.LF code in
  let+ _ := for_each (ast.walk tree) collect_imports in
  let+ _ := for_each (ast.iter_child_nodes tree) (top_level lines) in
  lift (_calculate_complexity tree).

Definition empty_store : store :=
  {| functions := []; classes := []; imports := []; global_vars := [] |}.

(** [f"{e.lineno}"] *)
Definition str_lineno (lineno : option Z) : string :=
  match lineno with Some n => Py.str_int n | None => "None" end.

Definition python_result (s : store) (errors : list string) (complexity : Z)
    : ParseResult.t :=
  {| ParseResult.language := "python";
     ParseResult.functions := functions s;
     ParseResult.classes := classes s;
     ParseResult.imports := imports s;
     ParseResult.global_variables := global_vars s;
     ParseResult.errors := errors;
     ParseResult.complexity_score := complexity |}.

Definition _parse_python (code : string) : ParseResult.t :=
  match _parse_python_try code empty_store with
  | Done complexity s => python_result s [] complexity
  | Failed (SyntaxError lineno msg) s =>
      python_result s
        ["Syntax error at line " +:+ str_lineno lineno +:+ ": " +:+ msg] 0
  | Failed (PyException _ msg) s =>
      python_result s ["Parse error: " +:+ msg] 0
  end.

(** *** Heuristics shared by the regex extractors *)

(** [code[:pos].count('\n') + 1] *)
Definition line_of (code : string) (pos : nat) : Z :=
  (Z.of_nat (Py.count (Py.take pos code) (String Py.LF "")) + 1)%Z.

(** The loop of [_find_matching_brace] over [enumerate(code[start:], start)]:
    the index at which it returns, if it does. *)
Fixpoint brace_scan (s : string) (i : nat) (count : Z) : option nat :=
  match s with
  | EmptyString => None
  | String char s' =>
      if Ascii.eqb char "{" then brace_scan s' (S i) (count + 1)
      else if Ascii.eqb char "}" then
        let count := (count - 1)%Z in
        if (count =? 0)%Z then Some i else brace_scan s' (S i) count
      else brace_scan s' (S i) count
  end.

(** [_find_matching_brace], lines 426-436 *)
Definition _find_matching_brace (code : string) (start : nat)
    : string * nat :=
  match brace_scan (Py.drop start code) start 0 with
  | Some i => (Py.take (i + 1 - start) (Py.drop start code), i)
  | None => (Py.drop start code, String.length code)
  end.

Definition keywords : list string :=
  ["if"; "else"; "for"; "while"; "switch"; "case"; "try"; "catch";
   "&&"; "||"; "?"].

(** [_estimate_complexity], lines 438-447 *)
Definition _estimate_complexity (code : string) : Z :=
  let complexity :=
    fold_left (fun complexity kw =>
                 (complexity + Z.of_nat (Py.count code kw))%Z)
              keywords 1%Z in
  Z.min 100 (complexity * 2).

(** *** JavaScript and TypeScript ([_parse_javascript], lines 256-330) *)

Definition dq : string := String "034"%char "".

Definition js_import_pattern : string :=
  "import\s+(?:{[^}]+}|\*\s+as\s+\w+|\w+)\s+from\s+['\" +:+ dq
  +:+ "]([^'\" +:+ dq +:+ "]+)['\" +:+ dq +:+ "]".

Definition func_patterns : list string :=
  ["(?:async\s+)?function\s+(\w+)\s*\(([^)]*)\)\s*(?::\s*(\w+))?\s*{";
   "(?:const|let|var)\s+(\w+)\s*=\s*(?:async\s+)?\([^)]*\)\s*(?::\s*(\w+))?\s*=>\s*{?";
   "(?:const|let|var)\s+(\w+)\s*=\s*(?:async\s+)?function\s*\([^)]*\)"].

Definition js_class_pattern : string :=
  "class\s+(\w+)(?:\s+extends\s+(\w+))?\s*{".

Definition js_function (code : string) (m : re.Match) : FunctionInfo.t :=
  let name := re.group_str m 1 in
  let line_num := line_of code (re.start m) in
  (* Find function body (simplified) *)
  let start_idx := re.start m in
  let body_start := Py.find code "{" start_idx in
  let '(body, end_line) :=
    if negb (body_start =? -1)%Z then
      let '(body, end_idx) := _find_matching_brace code (Z.to_nat body_start) in
      (body, line_of code end_idx)
    else (EmptyString, line_num) in
  {| FunctionInfo.name := name;
     FunctionInfo.start_line := line_num;
     FunctionInfo.end_line := end_line;
     FunctionInfo.signature := re.group_str m 0;
     FunctionInfo.parameters := [];
     FunctionInfo.return_type := None;
     FunctionInfo.body := body;
     FunctionInfo.decorators := [];
     FunctionInfo.docstring := None;
     FunctionInfo.is_async := Py.contains "async" (re.group_str m 0);
     FunctionInfo.is_method := false;
     FunctionInfo.class_name := None |}.

Definition js_class (code : string) (m : re.Match) : ClassInfo.t :=
  let name := re.group_str m 1 in
  let base := re.group m 2 in
  let line_num := line_of code (re.start m) in
  {| ClassInfo.name := name;
     ClassInfo.start_line := line_num;
     ClassInfo.end_line := line_num;  (* Simplified *)
     ClassInfo.bases := if otruthy base then [default "" base] else [];
     ClassInfo.methods := [];
     ClassInfo.attributes := [];
     ClassInfo.docstring := None;
     ClassInfo.decorators := [] |}.

Definition _parse_javascript (code : string) : ParseResult.t :=
  (* Extract imports *)
  let imports := re.findall js_import_pattern false code in
  (* Extract functions *)
  let functions :=
    flat_map (fun pattern => map (js_function code) (re.finditer pattern code))
             func_patterns in
  (* Extract classes *)
  let classes := map (js_class code) (re.finditer js_class_pattern code) in
  {| ParseResult.language := "javascript";
     ParseResult.functions := functions;
     ParseResult.classes := classes;
     ParseResult.imports := imports;
     ParseResult.global_variables := [];
     ParseResult.errors := [];
     ParseResult.complexity_score := _estimate_complexity code |}.

(** *** Java ([_parse_java], lines 332-412) *)

Definition java_import_pattern : string := "import\s+([\w.]+);".

Definition java_class_pattern : string :=
  "(?:public\s+)?(?:abstract\s+)?class\s+(\w+)(?:\s+extends\s+(\w+))?(?:\s+implements\s+([\w,\s]+))?\s*{".

Definition method_pattern : string :=
  "(?:public|private|protected)?\s*(?:static\s+)?(?:final\s+)?(\w+(?:<[^>]+>)?)\s+(\w+)\s*\(([^)]*)\)\s*(?:throws\s+[\w,\s]+)?\s*{".

Definition java_class (code : string) (m : re.Match) : ClassInfo.t :=
  let name := re.group_str m 1 in
  let base := re.group m 2 in
  let interfaces := re.group m 3 in
  let line_num := line_of code (re.start m) in
  let bases := if otruthy base then [default "" base] else [] in
  let bases :=
    if otruthy interfaces
    then bases ++ map Py.strip (Py.split "," (default "" interfaces))
    else bases in
  {| ClassInfo.name := name;
     ClassInfo.start_line := line_num;
     ClassInfo.end_line := line_num;
     ClassInfo.bases := bases;
     ClassInfo.methods := [];
     ClassInfo.attributes := [];
     ClassInfo.docstring := None;
     ClassInfo.decorators := [] |}.

(** One declarator of a Java parameter list: the record it yields, if
    it has at least two words. *)
Definition java_param (param : string) : list Param :=
  let parts := Py.split_ws (Py.strip param) in
  if (2 <=? length parts)%nat then
    [ {| p_name := List.last parts EmptyString;
         p_type := Some (Py.join " " (removelast parts));
         p_default := None |} ]
  else [].

Definition java_parameters (params : string) : list Param :=
  if Py.truthy (Py.strip params)
  then flat_map java_param (Py.split "," params)
  else [].

Definition java_method (code : string) (m : re.Match)
    : list FunctionInfo.t :=
  let return_type := re.group_str m 1 in
  let name := re.group_str m 2 in
  let params := re.group_str m 3 in
  let line_num := line_of code (re.start m) in
  (* Skip constructors and common keywords *)
  if existsb (String.eqb name) ["if"; "while"; "for"; "switch"; "try"; "catch"]
  then []
  else
    [ {| FunctionInfo.name := name;
         FunctionInfo.start_line := line_num;
         FunctionInfo.end_line := line_num;
         FunctionInfo.signature :=
           return_type +:+ " " +:+ name +:+ "(" +:+ params +:+ ")";
         FunctionInfo.parameters := java_parameters params;
         FunctionInfo.return_type := Some return_type;
         FunctionInfo.body := EmptyString;
         FunctionInfo.decorators := [];
         FunctionInfo.docstring := None;
         FunctionInfo.is_async := false;
         FunctionInfo.is_method := false;
         FunctionInfo.class_name := None |} ].

Definition _parse_java (code : string) : ParseResult.t :=
  (* Extract imports *)
  let imports := re.findall java_import_pattern false code in
  (* Extract classes *)
  let classes := map (java_class code) (re.finditer java_class_pattern code) in
  (* Extract methods *)
  let functions :=
    flat_map (java_method code) (re.finditer method_pattern code) in
  {| ParseResult.language := "java";
     ParseResult.functions := functions;
     ParseResult.classes := classes;
     ParseResult.imports := imports;
     ParseResult.global_variables := [];
     ParseResult.errors := [];
     ParseResult.complexity_score := _estimate_complexity code |}.

(** *** [_parse_generic], lines 414-424 *)

Definition _parse_generic (code language : string) : ParseResult.t :=
  {| ParseResult.language := language;
     ParseResult.functions := [];
     ParseResult.classes := [];
     ParseResult.imports := [];
     ParseResult.global_variables := [];
     ParseResult.errors :=
       ["No specific parser for " +:+ language +:+ ", using generic analysis"];
     ParseResult.complexity_score := _estimate_complexity code |}.

(** *** Dispatch ([__init__] and [parse], lines 52-68) *)

Definition parsers : gmap string (string -> ParseResult.t) :=
  {[ "python" := _parse_python;
     "javascript" := _parse_javascript;
     "typescript" := _parse_javascript;  (* Similar structure *)
     "java" := _parse_java ]}.

Definition parse (code language : string) : ParseResult.t :=
  let language := Py.lower language in
  match parsers !! language with
  | Some parser => parser code
  | None =>
      (* Fallback to regex-based parsing *)
      _parse_generic code language
  end.

(** *** Metrics ([get_code_metrics], lines 449-479) *)

Record Metrics : Type := {
  total_lines : Z;
  code_lines : Z;
  blank_lines : Z;
  comment_lines : Z;
  functions_count : Z;
  classes_count : Z;
  imports_count : Z;
  complexity_score : Z;
  avg_function_length : Q
}.

(** [sum(1 for x in l if p(x))] *)
Definition count_if {A} (p : A -> bool) (l : list A) : Z :=
  Z.of_nat (length (List.filter p l)).

Definition comment_markers : list string := ["#"; "//"; "/*"; "*"].

Definition function_length (f : FunctionInfo.t) : Z :=
  (FunctionInfo.end_line f - FunctionInfo.start_line f + 1)%Z.

(** [sum(l)] for integers *)
Definition zsum (l : list Z) : Z := fold_left Z.add l 0%Z.

Definition _avg_function_length (functions : list FunctionInfo.t) : Q :=
  match functions with
  | [] => 0
  | _ =>
      let lengths := map function_length functions in
      (inject_Z (zsum lengths) / inject_Z (Z.of_nat (length lengths)))%Q
  end.

Definition get_code_metrics (code language : string) : Metrics :=
  let lines := Py.split Py.LF code in
  (* Count lines *)
  let total_lines := Z.of_nat (length lines) in
  let blank_lines :=
    count_if (fun line => negb (Py.truthy (Py.strip line))) lines in
  let comment_lines :=
    count_if (fun line => Py.startswith_any (Py.strip line) comment_markers)
             lines in
  let code_lines := (total_lines - blank_lines - comment_lines)%Z in
  (* Parse structure *)
  let parse_result := parse code language in
  {| total_lines := total_lines;
     code_lines := code_lines;
     blank_lines := blank_lines;
     comment_lines := comment_lines;
     functions_count := Z.of_nat (length (ParseResult.functions parse_result));
     classes_count := Z.of_nat (length (ParseResult.classes parse_result));
     imports_count := Z.of_nat (length (ParseResult.imports parse_result));
     complexity_score := ParseResult.complexity_score parse_result;
     avg_function_length :=
       match ParseResult.functions parse_result with
       | [] => 0
       | fs => _avg_function_length fs
       end |}.

End CodeParser.

Arguments Done {A} a s.
Arguments Failed {A} e s.

(** ** The defect classifier ([defect_classifier.py]) *)

(** A flagged section
    [{"line": ..., "code": ..., "issue": ..., "severity": ..., "pattern": ...}] *)
Record FlaggedSection : Type := {
  line : Z;
  code : string;
  issue : string;
  severity : string;
  pattern : string
}.

Record DefectPrediction : Type := {
  risk_score : Q;
  risk_level : string;
  flagged_sections : list FlaggedSection;
  confidence : Q;
  issues_detected : list string
}.

(** A rule [(pattern, message, severity)] *)
Definition Rule : Type := string * string * string.

(** *** Known anti-patterns by language ([__init__], lines 38-93) *)

Definition python_rules : list Rule :=
  [ ("except\s*:",
     "Bare except clause catches all exceptions", "error");
    ("eval\s*\(",
     "Use of eval() is a security risk", "security");
    ("exec\s*\(",
     "Use of exec() is a security risk", "security");
    ("from\s+\w+\s+import\s+\*",
     "Wildcard import pollutes namespace", "warning");
    ("global\s+\w+",
     "Global variable usage", "warning");
    ("print\s*\(.*\)\s*$",
     "Debug print statement", "info");
    ("#\s*TODO",
     "TODO comment found", "info");
    ("#\s*FIXME",
     "FIXME comment found", "warning");
    ("#\s*HACK",
     "HACK comment found", "warning");
    (("password\s*=\s*['\" +:+ dq +:+ "]"),
     "Hardcoded password detected", "security");
    (("api[_-]?key\s*=\s*['\" +:+ dq +:+ "]"),
     "Hardcoded API key detected", "security");
    ("sleep\s*\(\s*\d+\s*\)",
     "Sleep call may indicate polling anti-pattern", "warning");
    ("except\s+Exception\s*:",
     "Catching generic Exception", "warning");
    ("\.format\(.*\)\s*$",
     "Consider using f-strings for formatting", "suggestion");
    ("^\s*pass\s*$",
     "Empty block with pass", "info");
    ("assert\s+",
     "Assert statement (disabled in optimized mode)", "warning");
    ("os\.system\s*\(",
     "os.system() is vulnerable to command injection", "security") ].

Definition javascript_rules : list Rule :=
  [ ("\bvar\s+",
     "Use let/const instead of var", "warning");
    ("eval\s*\(",
     "Use of eval() is a security risk", "security");
    ("innerHTML\s*=",
     "innerHTML can lead to XSS vulnerabilities", "security");
    ("document\.write\s*\(",
     "document.write() is deprecated", "warning");
    ("==\s*null|null\s*==",
     "Use === for strict equality", "warning");
    ("!=\s*null|null\s*!=",
     "Use !== for strict inequality", "warning");
    ("console\.log\s*\(",
     "Console log statement (debug)", "info");
    ("debugger",
     "Debugger statement found", "warning");
    ("alert\s*\(",
     "Alert statement (debug/bad UX)", "warning");
    ("\.then\s*\(.*\.then\s*\(",
     "Promise chain - consider async/await", "suggestion");
    ("callback.*callback",
     "Nested callbacks - consider async/await", "warning");
    ("new\s+Function\s*\(",
     "Dynamic function creation is risky", "security");
    (("setTimeout\s*\(['\" +:+ dq +:+ "]"),
     "String in setTimeout is like eval", "security") ].

Definition java_rules : list Rule :=
  [ ("catch\s*\(\s*Exception\s+",
     "Catching generic Exception", "warning");
    ("catch\s*\(\s*Throwable\s+",
     "Catching Throwable is too broad", "error");
    ("e\.printStackTrace\s*\(\s*\)",
     "printStackTrace() in production code", "warning");
    ("System\.out\.print",
     "System.out usage (use logger)", "warning");
    ("public\s+\w+\s+\w+\s*;",
     "Public field without getter/setter", "warning");
    (("new\s+String\s*\(\s*['\" +:+ dq +:+ "]"),
     "Unnecessary String object creation", "suggestion");
    (("==\s*\" +:+ dq +:+ "|\" +:+ dq +:+ "\s*=="),
     "String comparison with == instead of equals()", "error");
    ("\.equals\s*\(\s*null\s*\)",
     "null.equals() will throw NPE", "error");
    ("synchronized\s*\(\s*this\s*\)",
     "Synchronizing on 'this' is risky", "warning");
    ("Thread\.sleep\s*\(",
     "Thread.sleep() in production code", "warning");
    ("//\s*TODO",
     "TODO comment found", "info");
    ("//\s*FIXME",
     "FIXME comment found", "warning") ].

Definition general_rules : list Rule :=
  [ ("password|passwd|pwd",
     "Potential password handling", "security");
    ("secret|api[_-]?key|token",
     "Potential secret/token handling", "security");
    ("TODO|FIXME|HACK|XXX",
     "Unfinished code marker", "warning");
    ("[A-Za-z]+\d{3,}",
     "Magic number in identifier", "info") ].

Definition anti_patterns : gmap string (list Rule) :=
  {[ "python" := python_rules;
     "javascript" := javascript_rules;
     "java" := java_rules;
     "general" := general_rules ]}.

(** *** Code smell patterns (lines 96-102) *)

Definition code_smells : gmap string (Z * string) :=
  {[ "long_function" := (50%Z, "Function is too long (> 50 lines)");
     "many_parameters" := (5%Z, "Too many parameters (> 5)");
     "deep_nesting" := (4%Z, "Deep nesting level (> 4)");
     "long_line" := (120%Z, "Line too long (> 120 chars)");
     "complex_condition" := (3%Z, "Complex boolean condition (> 3 operators)") ]}.

(** [self.code_smells[key]]; every key the source uses is in the table. *)
Definition code_smell (key : string) : Z * string :=
  default (0%Z, EmptyString) (code_smells !! key).

(** *** The fitted model

    The vectorizer and the random forest after [_initialize_training]:
    [transform] is [self.vectorizer.transform] and [predict_proba] is
    [self.classifier.predict_proba]; both may raise. *)
Record Model : Type := {
  features : Type;
  transform : list string -> outcome features;
  predict_proba : features -> outcome (list (list Q))
}.

(** The state of a [DefectClassifier] after [__init__]. *)
Record DefectClassifier : Type := {
  model : Model;
  _is_trained : bool
}.

(** [round(x, ndigits)]: the nearest multiple of [10^-ndigits], ties to
    even. *)
Definition round_half_even (x : Q) : Z :=
  let f := Qfloor x in
  match (x - inject_Z f ?= 1 # 2)%Q with
  | Lt => f
  | Gt => (f + 1)%Z
  | Eq => if Z.even f then f else (f + 1)%Z
  end.

Definition round (x : Q) (ndigits : nat) : Q :=
  let scale := inject_Z (10 ^ Z.of_nat ndigits) in
  (inject_Z (round_half_even (x * scale)) / scale)%Q.

(** [xs[i]] for [i >= 0] *)
Definition item {A} (xs : list A) (i : nat) : outcome A :=
  match nth_error xs i with
  | Some x => Returns x
  | None => Raises (PyException "IndexError" "index out of bounds")
  end.

Section DefectClassifier.
Context {engine : re.Engine}.
Variable self : DefectClassifier.

(** [f"Line {i+1}: {message}"] *)
Definition line_issue (i : nat) (message : string) : string :=
  "Line " +:+ Py.str_int (Z.of_nat i + 1) +:+ ": " +:+ message.

(** *** [_detect_code_smells], lines 292-317 *)

Definition complex_pattern : string := "(and|or|\&\&|\|\|)".

Definition _detect_code_smells (code : string) (lines : list string)
    : list string :=
  (* Long lines *)
  let max_line_len := fst (code_smell "long_line") in
  let long :=
    flat_map (fun '(i, line) =>
                if (max_line_len <? Z.of_nat (String.length line))%Z
                then [line_issue i (snd (code_smell "long_line")) +:+ " ("
                      +:+ Py.str_int (Z.of_nat (String.length line))
                      +:+ " chars)"]
                else [])
             (enumerate lines) in
  (* Deep nesting *)
  let max_nesting := fst (code_smell "deep_nesting") in
  let deep :=
    flat_map (fun '(i, line) =>
                let indent := (Z.of_nat (String.length line)
                               - Z.of_nat (String.length (Py.lstrip line)))%Z in
                let nesting := (indent / 4)%Z in
                if (max_nesting <? nesting)%Z
                then [line_issue i (snd (code_smell "deep_nesting"))
                      +:+ " (level " +:+ Py.str_int nesting +:+ ")"]
                else [])
             (enumerate lines) in
  (* Complex conditions *)
  let complex :=
    flat_map (fun '(i, line) =>
                let operators :=
                  Z.of_nat (length (re.findall complex_pattern true line)) in
                if (fst (code_smell "complex_condition") <? operators)%Z
                then [line_issue i (snd (code_smell "complex_condition"))]
                else [])
             (enumerate lines) in
  long ++ deep ++ complex.

(** *** [_ml_classify], lines 319-329 *)

Definition _ml_classify (code : string) : Q :=
  if negb (_is_trained self) then 0.5  (* Neutral score if not trained *)
  else
    match (let* X := transform (model self) [code] in
           let* rows := predict_proba (model self) X in
           let* proba := item rows 0 in
           item proba 1)  (* Probability of being defective *)
    with
    | Returns p => p
    | Raises _ => 0.5
    end.

(** *** [analyze], lines 233-290 *)

Definition severity_weights : gmap string Q :=
  {[ "error" := 1.0%Q; "security" := 0.9%Q; "warning" := 0.5%Q;
     "info" := 0.2%Q; "suggestion" := 0.1%Q ]}.

(** Pattern-based detection (lines 240-253): the sections one rule flags,
    line by line. *)
Definition rule_hits (lines : list string) (rule : Rule)
    : list FlaggedSection :=
  let '(pattern, message, severity) := rule in
  flat_map (fun '(i, line) =>
              if re.search_ignorecase pattern line
              then [ {| line := Z.of_nat i + 1;
                        code := Py.strip line;
                        issue := message;
                        severity := severity;
                        pattern := pattern |} ]
              else [])
           (enumerate lines).

(** [f"Line {i+1}: {message}"] of a flagged section *)
Definition hit_issue (section : FlaggedSection) : string :=
  "Line " +:+ Py.str_int (line section) +:+ ": " +:+ issue section.

(** Lines 262-290: the risk score, the risk level and the result, with the
    arithmetic read on exact rationals; [binary64.fuse] below is the same
    lines on doubles. *)
Definition fuse (flagged_sections : list FlaggedSection)
    (issues : list string) (ml_score : Q) : DefectPrediction :=
  (* Calculate overall risk score *)
  let pattern_score :=
    fold_left (fun pattern_score section =>
                 pattern_score
                 + default 0.2 (severity_weights !! severity section))%Q
              flagged_sections 0%Q in
  (* Normalize pattern score *)
  let pattern_score := Qmin 1.0 (pattern_score / 5) in
  (* Combine scores *)
  let risk_score := (0.4 * ml_score + 0.6 * pattern_score)%Q in
  let risk_score := Qmin 1.0 (Qmax 0.0 risk_score) in
  (* Determine risk level *)
  let risk_level :=
    if Qle_bool 0.7 risk_score then "high"
    else if Qle_bool 0.4 risk_score then "medium"
    else "low" in
  {| risk_score := round risk_score 3;
     risk_level := risk_level;
     flagged_sections := flagged_sections;
     confidence := if _is_trained self then 0.8 else 0.5;
     issues_detected := issues |}.

Definition analyze (code language : string) : DefectPrediction :=
  let lines := Py.split Py.LF code in
  (* Pattern-based detection *)
  let patterns := default [] (anti_patterns !! language)
                  ++ default [] (anti_patterns !! "general") in
  let flagged_sections := flat_map (rule_hits lines) patterns in
  let issues := map hit_issue flagged_sections in
  (* Code smell detection *)
  let smell_issues := _detect_code_smells code lines in
  let issues := issues ++ smell_issues in
  (* ML-based classification *)
  let ml_score := _ml_classify code in
  fuse flagged_sections issues ml_score.

End DefectClassifier.

(** ** The notions of the specification

    A line is blank when it holds white space only (section 4.2). *)
Fixpoint whitespace_only (s : string) : bool :=
  match s with
  | EmptyString => true
  | String c s' => Py.isspace c && whitespace_only s'
  end.

(** [sum(l)] as a right fold, for the statements. *)
Definition sumZ (l : list Z) : Z := fold_right Z.add 0%Z l.

(** The nodes the complexity walk tests for (lines 244-251): [ast.If],
    [ast.While], [ast.For] and [ast.ExceptHandler] add one each,
    [ast.BoolOp] is a boolean combination and its [values] are the
    operands; [ast.And] and [ast.Or] are the operator nodes, one inside
    each [BoolOp]. *)
Definition branching (node : value) : bool :=
  ast.isinstance_any node ["If"; "While"; "For"; "ExceptHandler"].

Definition boolop (node : value) : bool := ast.isinstance node "BoolOp".

Definition operator (node : value) : bool :=
  ast.isinstance_any node ["And"; "Or"].

(** [len(node.values)], 0 where the node has no such list *)
Definition operands (node : value) : Z :=
  match (let* values := ast.getattr node "values" in ast.len values) with
  | Returns n => n
  | Raises _ => 0%Z
  end.

Definition branching_count (tree : value) : Z :=
  count_if branching (ast.subnodes tree).

Definition boolop_nodes (tree : value) : list value :=
  List.filter boolop (ast.subnodes tree).

(** The branching constructs the specification names (section 4.1), by the
    node classes of Python's grammar.  A conditional is an [if]
    statement, a conditional expression or a case of a [match] statement; a
    loop is a [while], a [for] or an [async for] statement or the [for]
    clause of a comprehension; an exception handler is an [except]
    clause. *)
Definition conditional (node : value) : bool :=
  ast.isinstance_any node ["If"; "IfExp"; "match_case"].

Definition loop (node : value) : bool :=
  ast.isinstance_any node ["While"; "For"; "AsyncFor"; "comprehension"].

Definition exception_handler (node : value) : bool :=
  ast.isinstance node "ExceptHandler".

Definition construct (node : value) : bool :=
  conditional node || loop node || exception_handler node.

Definition construct_count (tree : value) : Z :=
  count_if construct (ast.subnodes tree).

(** The constructs among them that the complexity walk does not test
    for. *)
Definition uncounted (node : value) : bool :=
  ast.isinstance_any node ["IfExp"; "match_case"; "AsyncFor"; "comprehension"].

(** The complexity score in the words of the specification: 1, plus 1 for
    every conditional, loop and exception handler, plus N - 1 for every
    boolean combination of N operands, times 5 and capped at 100. *)
Definition spec_complexity (tree : value) : Z :=
  let raw := (1 + construct_count tree
              + sumZ (map (fun b => operands b - 1) (boolop_nodes tree)))%Z in
  Z.min 100 (raw * 5).

(** What the parser guarantees about boolean combinations: a [BoolOp] has
    the fields [op], an [And] or [Or] node, and [values], a list of
    expression nodes; no other node has an operator node as a child. *)
Definition boolop_shape (node : value) : bool :=
  if boolop node then
    match node with
    | VNode _ [(f1, VNode o [] attrs); (f2, VList vs)] _ =>
        String.eqb f1 "op" && String.eqb f2 "values"
        && operator (VNode o [] attrs)
        && forallb (fun v => ast.is_AST v && negb (operator v)) vs
    | _ => false
    end
  else forallb (fun c => negb (operator c)) (ast.iter_child_nodes node).

Definition parsed_shape (tree : value) : bool :=
  ast.is_AST tree && negb (operator tree)
  && forallb boolop_shape (ast.subnodes tree).

(** What one round of the loop of [_calculate_complexity] adds. *)
Definition node_weight (node : value) : Z :=
  if branching node then 1%Z
  else if boolop node then (operands node - 1)%Z
  else if operator node then 1%Z
  else 0%Z.

(** The sum of a measure over the nodes of a tree. *)
Definition tree_sum (g : value -> Z) (tree : value) : Z :=
  sumZ (map g (ast.subnodes tree)).

(** What the whole loop adds to the base complexity. *)
Definition total_weight (tree : value) : Z := tree_sum node_weight tree.

(** A field rewrite that turns a list into a list at least as long. *)
Definition field_grows (f : value -> option value) : Prop :=
  forall v v', f v = Some v' ->
    exists items items',
      v = VList items /\ v' = VList items' /\ length items <= length items'.

(** The round does not raise: a [BoolOp] has a list of [values]. *)
Definition values_ok (node : value) : bool :=
  if branching node then true
  else if boolop node then
    match (let* values := ast.getattr node "values" in ast.len values) with
    | Returns _ => true
    | Raises _ => false
    end
  else true.

(** *** Adding a statement to a tree

    [update_field name f fields] rewrites the first field called [name]
    with [f]. *)
Fixpoint update_field (name : string) (f : value -> option value)
    (fields : list (string * value)) : option (list (string * value)) :=
  match fields with
  | [] => None
  | (k, v) :: rest =>
      if String.eqb name k
      then match f v with
           | Some v' => Some ((k, v') :: rest)
           | None => None
           end
      else match update_field name f rest with
           | Some rest' => Some ((k, v) :: rest')
           | None => None
           end
  end.

(** [insert_statement path field pos stmt tree]: follow [path] from the
    root, each step [(name, i)] going to the [i]-th element of the list
    field [name], and put [stmt] at position [pos] of the list field
    [field] of the node reached. *)
Fixpoint insert_statement (path : list (string * nat)) (field : string)
    (pos : nat) (stmt tree : value) : option value :=
  match tree with
  | VNode cls fields attrs =>
      match path with
      | [] =>
          match update_field field
                  (fun v => match v with
                            | VList items =>
                                Some (VList (firstn pos items
                                             ++ stmt :: skipn pos items))
                            | _ => None
                            end) fields with
          | Some fields' => Some (VNode cls fields' attrs)
          | None => None
          end
      | (name, i) :: path' =>
          match update_field name
                  (fun v => match v with
                            | VList items =>
                                match nth_error items i with
                                | Some item =>
                                    match insert_statement path' field pos
                                            stmt item with
                                    | Some item' =>
                                        Some (VList (firstn i items
                                                     ++ item'
                                                        :: skipn (S i) items))
                                    | None => None
                                    end
                                | None => None
                                end
                            | _ => None
                            end) fields with
          | Some fields' => Some (VNode cls fields' attrs)
          | None => None
          end
      end
  | _ => None
  end.

(** An occurrence of [sub] lies across the cut between [a] and [b]: a
    proper first part of [sub] ends [a] and the rest of it starts [b]. *)
Definition straddles (sub a b : string) : Prop :=
  exists p q a0 b1,
    sub = p +:+ q /\ p <> "" /\ q <> "" /\ a = a0 +:+ p /\ b = q +:+ b1.

(** The ways to cut [sub] in two non-empty parts. *)
Definition proper_splits (sub : string) : list (string * string) :=
  map (fun i => (Py.take i sub, Py.drop i sub))
      (seq 1 (String.length sub - 1)).

Definition ends_with (s p : string) : bool :=
  existsb (fun i => String.eqb (Py.drop i s) p) (seq 0 (S (String.length s))).

(** Two cuts can lie at the same place of one text: the first parts end
    alike and the second parts start alike. *)
Definition compatible (s1 s2 : string * string) : bool :=
  (ends_with (fst s1) (fst s2) || ends_with (fst s2) (fst s1))
  && (String.prefix (snd s1) (snd s2) || String.prefix (snd s2) (snd s1)).

(** No two different keywords of [_estimate_complexity] can lie across
    the same place of a text. *)
Definition keywords_exclusive : bool :=
  forallb (fun kw1 =>
    forallb (fun kw2 =>
      String.eqb kw1 kw2
      || forallb (fun s1 =>
           forallb (fun s2 => negb (compatible s1 s2)) (proper_splits kw2))
           (proper_splits kw1)) keywords) keywords.

(** 0 for a round that returns, -1 for a round that raises. *)
Definition raising (node : value) : Z :=
  if values_ok node then 0%Z else (-1)%Z.

(** *** Entities (section 3)

    A node spans lines in order; the parser guarantees it of every node. *)
Definition span_ok (node : value) : bool :=
  match ast.getpos node "lineno", ast.getpos node "end_lineno" with
  | Returns lineno, Returns end_lineno => (lineno <=? end_lineno)%Z
  | _, _ => true
  end.

Definition positions_ok (tree : value) : bool :=
  forallb span_ok (ast.subnodes tree).

Definition well_spanned (f : FunctionInfo.t) : Prop :=
  (FunctionInfo.start_line f <= FunctionInfo.end_line f)%Z.

(** The parameters a Python definition declares ([node.args.args]), in
    the order of the declaration. *)
Definition declared_names (node : value) : outcome (list string) :=
  let* args := ast.getattr node "args" in
  let* args_args := ast.getattr args "args" in
  let* arg_list := ast.as_list args_args in
  omap (fun arg => let* a := ast.getattr arg "arg" in ast.as_str a) arg_list.

(** The parameters a Java parameter list declares: the last word of every
    declarator of two words or more, in the order of the declaration. *)
Definition java_declared_names (params : string) : list string :=
  flat_map (fun declarator =>
              let words := Py.split_ws (Py.strip declarator) in
              if (2 <=? length words)%nat
              then [List.last words EmptyString] else [])
           (Py.split "," params).

Section Entities.
Context {astlib : ast.Lib} {engine : re.Engine}.

(** The parameters of [f] are those its declaration in [code] lists, in
    the same order.  The JavaScript extractor records no parameter. *)
Definition in_declaration_order (code language : string)
    (f : FunctionInfo.t) : Prop :=
  let names := map p_name (FunctionInfo.parameters f) in
  (Py.lower language = "python"
   /\ exists tree node,
        ast.parse code = Returns tree /\ In node (ast.subnodes tree)
        /\ declared_names node = Returns names)
  \/ (Py.lower language = "java"
      /\ exists m, In m (re.finditer method_pattern code)
                   /\ names = java_declared_names (re.group_str m 3))
  \/ ((Py.lower language = "javascript" \/ Py.lower language = "typescript")
      /\ names = []).

End Entities.

(** The computation keeps the property [I] of the store, whether it
    returns or raises. *)
Definition preserves {A} (I : store -> Prop) (m : M A) : Prop :=
  forall s, I s ->
    match m s with
    | Done _ s' => I s'
    | Failed _ s' => I s'
    end.

(** A method records the class that owns it. *)
Definition owned_by (c : ClassInfo.t) (m : FunctionInfo.t) : Prop :=
  FunctionInfo.is_method m = true
  /\ FunctionInfo.class_name m = Some (ClassInfo.name c).

(** A function record of a Python tree: it spans lines in order and lists
    the parameters of a definition of the tree. *)
Definition python_function (tree : value) (f : FunctionInfo.t) : Prop :=
  well_spanned f
  /\ exists node, In node (ast.subnodes tree)
                  /\ declared_names node
                     = Returns (map p_name (FunctionInfo.parameters f)).

Definition python_class (tree : value) (c : ClassInfo.t) : Prop :=
  List.Forall (fun m => python_function tree m /\ owned_by c m)
              (ClassInfo.methods c).

Definition python_store (tree : value) (s : store) : Prop :=
  List.Forall (python_function tree) (functions s)
  /\ List.Forall (python_class tree) (classes s).

(** The language tags with a dedicated extractor. *)
Definition supported_tags : list string :=
  ["python"; "javascript"; "typescript"; "java"].

(** Two characters are the same letter when they are equal or one is an
    upper-case letter of ASCII and the other its lower-case form; two tags
    are casing variants of each other when they are the same letters, one
    by one. *)
Definition same_letter (a b : ascii) : bool :=
  let m := nat_of_ascii a in
  let n := nat_of_ascii b in
  (m =? n)
  || ((65 <=? m) && (m <=? 90) && (n =? m + 32))
  || ((65 <=? n) && (n <=? 90) && (m =? n + 32)).

Fixpoint casing_variant (s t : string) : bool :=
  match s, t with
  | EmptyString, EmptyString => true
  | String a s', String b t' => same_letter a b && casing_variant s' t'
  | _, _ => false
  end.

(** The occurrences of a non-empty word in a text, counted from the left
    and without overlap: where the word starts the text, it is counted and
    the count goes on behind it; elsewhere the count goes on one character
    further. *)
Fixpoint occurrences_upto (fuel : nat) (text word : string) : nat :=
  match fuel, text with
  | S fuel', String _ rest =>
      if String.prefix word text
      then S (occurrences_upto fuel' (Py.drop (String.length word) text) word)
      else occurrences_upto fuel' rest word
  | _, _ => 0
  end.

Definition occurrences (text word : string) : nat :=
  occurrences_upto (String.length text) text word.

(** The number of control-flow keywords and operators in a text
    (section 4.1, heuristic complexity). *)
Definition keyword_count (code : string) : Z :=
  Z.of_nat (list_sum (map (Py.count code) keywords)).

(** *** Severities and their weights (section 4.5) *)

Inductive Severity : Type := error | security | warning | info | suggestion.

Definition tag (s : Severity) : string :=
  match s with
  | error => "error"
  | security => "security"
  | warning => "warning"
  | info => "info"
  | suggestion => "suggestion"
  end.

Definition weight (s : Severity) : Q :=
  match s with
  | error => 1.0
  | security => 0.9
  | warning => 0.5
  | info => 0.2
  | suggestion => 0.1
  end.

(** The severity a tag of the catalog names. *)
Definition severity_of_tag (s : string) : option Severity :=
  List.find (fun sev => String.eqb s (tag sev))
            [error; security; warning; info; suggestion].

Definition catalog : list Rule :=
  python_rules ++ javascript_rules ++ java_rules ++ general_rules.

(** The thresholds of the risk level, on the rational score of [fuse]. *)
Definition spec_risk_level (r : Q) : string :=
  if Qle_bool 0.7 r then "high"
  else if Qle_bool 0.4 r then "medium"
  else "low".

(** The clamped rational score of [fuse] before it is rounded (line 275). *)
Definition unrounded_risk_score (flagged_sections : list FlaggedSection)
    (ml_score : Q) : Q :=
  let pattern_score :=
    fold_left (fun pattern_score section =>
                 pattern_score
                 + default 0.2 (severity_weights !! severity section))%Q
              flagged_sections 0%Q in
  let pattern_score := Qmin 1.0 (pattern_score / 5) in
  Qmin 1.0 (Qmax 0.0 (0.4 * ml_score + 0.6 * pattern_score)).

(** ** The fusion arithmetic on doubles

    The score fusion of [analyze] (lines 262-285) as the interpreter runs
    it, on IEEE 754 binary64 numbers with round-to-nearest-even: the
    primitive floats of Rocq.  The statements about the returned risk score
    and risk level are about this module. *)

Module binary64.

Definition of_Z (z : Z) : float :=
  if (z <? 0)%Z then PrimFloat.opp (PrimFloat.of_uint63 (Uint63.of_Z (- z)))
  else PrimFloat.of_uint63 (Uint63.of_Z z).

(** The double nearest to a decimal literal: numerator and denominator
    are small integers, and the division rounds correctly. *)
Definition of_Q (q : Q) : float :=
  PrimFloat.div (of_Z (Qnum q)) (of_Z (Zpos (Qden q))).

(** The exact value of a finite double. *)
Definition exact (x : float) : Q :=
  match Prim2SF x with
  | S754_finite s m e =>
      let v := if (0 <=? e)%Z then inject_Z (Zpos m * 2 ^ e)
               else (Zpos m # Z.to_pos (2 ^ (- e)))%Q in
      if s then Qopp v else v
  | _ => 0%Q
  end.

(** [round(x, ndigits)] for [ndigits <= 3] and [x] below [2 ^ 43] in
    absolute value or without fractional bits.  A zero, an infinity and a
    NaN round to themselves, and so does a double without fractional
    bits.  The exact value of any other double is rounded half-even to
    [ndigits] decimals, which gives an integer [k] below [2 ^ 53] over
    [10 ^ ndigits], and the double nearest to that decimal is returned; a
    result that is zero keeps the sign of [x]. *)
Definition round (x : float) (ndigits : nat) : float :=
  match Prim2SF x with
  | S754_finite s _ e =>
      if (0 <=? e)%Z then x
      else
        let scale := (10 ^ Z.of_nat ndigits)%Z in
        let k := round_half_even (exact x * inject_Z scale) in
        let r := PrimFloat.div (of_Z k) (of_Z scale) in
        if s && (k =? 0)%Z then PrimFloat.opp r else r
  | _ => x
  end.

(** [min(a, b)] and [max(a, b)] of two arguments: the second one is
    returned only where it compares strictly below (above) the first. *)
Definition min (a b : float) : float := if PrimFloat.ltb b a then b else a.
Definition max (a b : float) : float := if PrimFloat.ltb a b then b else a.

(** Lines 262-285 of [analyze]: the returned [risk_score] and
    [risk_level]. *)
Definition fuse (flagged_sections : list FlaggedSection) (ml_score : float)
    : float * string :=
  let pattern_score :=
    fold_left (fun pattern_score section =>
                 PrimFloat.add pattern_score
                   (of_Q (default 0.2%Q
                            (severity_weights !! severity section))))
              flagged_sections (of_Q 0) in
  let pattern_score :=
    min (of_Q 1.0) (PrimFloat.div pattern_score (of_Q 5)) in
  let risk_score :=
    PrimFloat.add (PrimFloat.mul (of_Q 0.4) ml_score)
                  (PrimFloat.mul (of_Q 0.6) pattern_score) in
  let risk_score := min (of_Q 1.0) (max (of_Q 0.0) risk_score) in
  let risk_level :=
    if PrimFloat.leb (of_Q 0.7) risk_score then "high"
    else if PrimFloat.leb (of_Q 0.4) risk_score then "medium"
    else "low" in
  (round risk_score 3, risk_level).

(** The value of [risk_score] after line 275, before line 285 rounds
    it. *)
Definition unrounded_risk_score (flagged_sections : list FlaggedSection)
    (ml_score : float) : float :=
  let pattern_score :=
    fold_left (fun pattern_score section =>
                 PrimFloat.add pattern_score
                   (of_Q (default 0.2%Q
                            (severity_weights !! severity section))))
              flagged_sections (of_Q 0) in
  let pattern_score :=
    min (of_Q 1.0) (PrimFloat.div pattern_score (of_Q 5)) in
  min (of_Q 1.0)
      (max (of_Q 0.0)
           (PrimFloat.add (PrimFloat.mul (of_Q 0.4) ml_score)
                          (PrimFloat.mul (of_Q 0.6) pattern_score))).

(** *** The fusion as the specification words it (section 4.5)

    The sum of the weights is accumulated from the left, one addition per
    flagged section. *)
Definition sum (l : list float) : float :=
  fold_left PrimFloat.add l (of_Q 0).

Definition clamp (x lo hi : float) : float := min hi (max lo x).

Definition spec_pattern_score (flagged : list Severity) : float :=
  min (of_Q 1.0)
      (PrimFloat.div (sum (map (fun sev => of_Q (weight sev)) flagged))
                     (of_Q 5)).

Definition spec_risk_score (flagged : list Severity) (ml_probability : float)
    : float :=
  round (clamp (PrimFloat.add
                  (PrimFloat.mul (of_Q 0.4) ml_probability)
                  (PrimFloat.mul (of_Q 0.6) (spec_pattern_score flagged)))
               (of_Q 0.0) (of_Q 1.0))
        3.

(** The multiple of [1/1000] number [k], as a double. *)
Definition thousandth (k : Z) : float := of_Q (k # 1000).

End binary64.

(** *** Doubles by their value

    The numerator of a double that is zero or positive, over [2 ^ 1074]:
    every such double is a multiple of the smallest subnormal. *)
Definition numerator (f : spec_float) : Z :=
  match f with
  | S754_finite false m e => Zpos m * 2 ^ (e + 1074)
  | _ => 0
  end.

(** Zero or a positive finite double. *)
Definition unsigned (f : spec_float) : bool :=
  match f with
  | S754_zero _ | S754_finite false _ _ => true
  | _ => false
  end.

(** A double of the unit interval: 0.0, 1.0, or a positive double below
    1. *)
Definition unit_double (c : float) : Prop :=
  c = binary64.of_Q 0.0 \/ c = binary64.of_Q 1.0
  \/ exists m e, Prim2SF c = S754_finite false m e
                 /\ (binary64.exact c < 1)%Q.

(** Where the multiples of [1/1000] of the unit interval lie, as doubles,
    with respect to 0, 0.4, 0.7 and 1. *)
Definition thousandth_ok (k : nat) : bool :=
  let t := binary64.thousandth (Z.of_nat k) in
  unsigned (Prim2SF t)
  && PrimFloat.leb (binary64.of_Q 0.0) t
  && PrimFloat.leb t (binary64.of_Q 1.0)
  && (if 400 <=? k then PrimFloat.leb (binary64.of_Q 0.4) t else true)
  && (if k <=? 400 then PrimFloat.leb t (binary64.of_Q 0.4) else true)
  && (if 700 <=? k then PrimFloat.leb (binary64.of_Q 0.7) t else true)
  && (if k <=? 700 then PrimFloat.leb t (binary64.of_Q 0.7) else true).

(** ** Small implementations of the interfaces, for the examples *)

(** A model that answers every sample with the same probability row. *)
Definition constant_model (row : list Q) : Model :=
  {| features := list string;
     transform := fun samples => Returns samples;
     predict_proba := fun X => Returns (map (fun _ => row) X) |}.

(** A model whose vectorizer fails. *)
Definition failing_model : Model :=
  {| features := unit;
     transform := fun _ => Raises (PyException "ValueError" "empty vocabulary");
     predict_proba := fun _ => Returns [] |}.

Definition trained (m : Model) : DefectClassifier :=
  {| model := m; _is_trained := true |}.

Definition untrained (m : Model) : DefectClassifier :=
  {| model := m; _is_trained := false |}.

Definition section_of (sev : string) : FlaggedSection :=
  {| line := 1%Z; code := "x"; issue := "issue"; severity := sev;
     pattern := "x" |}.


(** ** Further parts of the services

    *** [get_severity_summary] ([defect_classifier.py], lines 331-337)

    The summary is a dict from severity to count; the five documented
    severities are present from the start, any other severity is added
    when a section carries it.  Every section [analyze] builds has the key
    ["severity"], so the default of [section.get] is never used. *)

Definition severity_tags : list string :=
  ["error"; "security"; "warning"; "info"; "suggestion"].

Definition get_severity_summary (flagged_sections : list FlaggedSection)
    : gmap string Z :=
  let summary : gmap string Z :=
    {[ "error" := 0%Z; "security" := 0%Z; "warning" := 0%Z;
       "info" := 0%Z; "suggestion" := 0%Z ]} in
  fold_left (fun summary section =>
               let sev := severity section in
               <[ sev := (default 0%Z (summary !! sev) + 1)%Z ]> summary)
            flagged_sections summary.

(** The sections carrying the severity [k]. *)
Definition with_severity (k : string) (section : FlaggedSection) : bool :=
  String.eqb (severity section) k.

(** A line starts with at least [n] white-space characters. *)
Definition indented_by (n : nat) (text : string) : bool :=
  (n <=? String.length text) && whitespace_only (Py.take n text).

(** ** Further string methods *)

Module str.

(** [s[lo:hi]] for [0 <= lo <= hi] *)
Definition slice (s : string) (lo hi : nat) : string :=
  Py.take (hi - lo) (Py.drop lo s).

(** [s.endswith(suffix)] *)
Definition endswith (s suffix : string) : bool :=
  (String.length suffix <=? String.length s)
  && String.eqb (Py.drop (String.length s - String.length suffix) s) suffix.

(** [s.lstrip(chars)] for a single character *)
Fixpoint lstrip_char (c : ascii) (s : string) : string :=
  match s with
  | EmptyString => EmptyString
  | String d s' => if Ascii.eqb c d then lstrip_char c s' else s
  end.

(** The scan behind [s.split(sep)] for a non-empty [sep]: separators are
    taken left to right and do not overlap; [skip] characters still belong
    to the separator taken last. *)
Fixpoint split_from (sep : string) (skip : nat) (s : string) : list string :=
  match s with
  | EmptyString => [EmptyString]
  | String c s' =>
      match skip with
      | S k => split_from sep k s'
      | O =>
          if String.prefix sep s
          then EmptyString :: split_from sep (String.length sep - 1) s'
          else match split_from sep 0 s' with
               | h :: t => String c h :: t
               | [] => [String c EmptyString]
               end
      end
  end.

(** [s.split(sep)] for a non-empty [sep] *)
Definition split (s sep : string) : list string := split_from sep 0 s.

End str.

(** The braces of [s] balance: as many [{] as [}]. *)
Definition balanced (s : string) : Prop :=
  Py.count s "{" = Py.count s "}".

(** *** The top-level statements of a Python module

    The definitions and the classes among the first [k] statements of the
    module, in source order. *)
Definition is_def (node : value) : bool :=
  ast.isinstance node "FunctionDef" || ast.isinstance node "AsyncFunctionDef".

Definition is_class (node : value) : bool := ast.isinstance node "ClassDef".

Definition top_defs (tree : value) (k : nat) : list value :=
  List.filter is_def (firstn k (ast.iter_child_nodes tree)).

Definition top_classes (tree : value) (k : nat) : list value :=
  List.filter is_class (firstn k (ast.iter_child_nodes tree)).

(** The function and class records of the store are those of the
    statements [done], read in order. *)
Definition read_from `{astlib : ast.Lib} (lines : list string)
    (done : list value) (s : store) : Prop :=
  omap (fun node => _extract_python_function node lines None)
       (List.filter is_def done) = Returns (functions s)
  /\ omap (fun node => _extract_python_class node lines)
          (List.filter is_class done) = Returns (classes s).

(** ** The GitHub service ([github_service.py])

    *** [_detect_language], lines 59-83

    The dict [extension_map] is read in insertion order. *)

Definition extension_map : list (string * string) :=
  [ (".py", "python");
    (".js", "javascript");
    (".ts", "typescript");
    (".jsx", "javascript");
    (".tsx", "typescript");
    (".java", "java");
    (".cpp", "cpp");
    (".c", "cpp");
    (".h", "cpp");
    (".go", "go");
    (".rs", "rust");
    (".rb", "ruby");
    (".php", "php");
    (".cs", "csharp");
    (".swift", "swift");
    (".kt", "kotlin") ].

Definition _detect_language (filename : string) : string :=
  match List.find (fun '(ext, lang) => str.endswith filename ext)
                  extension_map with
  | Some (_, lang) => lang
  | None => "unknown"
  end.

(** No extension of the table ends another one, and no extension is listed
    twice. *)
Definition extensions_exclusive : bool :=
  forallb (fun '(e1, l1) =>
    forallb (fun '(e2, l2) =>
      negb (str.endswith e2 e1) || (String.eqb e1 e2 && String.eqb l1 l2))
      extension_map) extension_map.

(** *** [parse_diff_to_code], lines 238-256

    The result dict has the keys ["added"], ["removed"] and ["context"]. *)

Record DiffCode : Type := {
  added : string;
  removed : string;
  context : string
}.

Definition is_added (text : string) : bool :=
  Py.startswith text "+" && negb (Py.startswith text "+++").

Definition is_removed (text : string) : bool :=
  Py.startswith text "-" && negb (Py.startswith text "---").

(** One round of the loop over the lines of the patch. *)
Definition diff_step (acc : list string * list string * list string)
    (text : string) : list string * list string * list string :=
  let '(added_lines, removed_lines, context_lines) := acc in
  if is_added text then
    (added_lines ++ [Py.drop 1 text], removed_lines, context_lines)
  else if is_removed text then
    (added_lines, removed_lines ++ [Py.drop 1 text], context_lines)
  else if negb (Py.startswith text "@@") then
    (added_lines, removed_lines, context_lines ++ [text])
  else acc.

Definition parse_diff_to_code (patch : string) : DiffCode :=
  let '(added_lines, removed_lines, context_lines) :=
    fold_left diff_step (Py.split Py.LF patch) ([], [], []) in
  {| added := Py.join (String Py.LF "") added_lines;
     removed := Py.join (String Py.LF "") removed_lines;
     context := Py.join (String Py.LF "") context_lines |}.

(** A line of the patch that is kept as context: neither added nor
    removed nor a hunk header. *)
Definition is_context (text : string) : bool :=
  negb (is_added text) && negb (is_removed text)
  && negb (Py.startswith text "@@").

(** A text without a line break. *)
Fixpoint single_line (s : string) : bool :=
  match s with
  | EmptyString => true
  | String c s' => negb (Ascii.eqb Py.LF c) && single_line s'
  end.

(** ** The review agent ([agents/review_agent.py])

    An issue record
    [{"line", "column", "severity", "category", "message", "suggestion",
      "code_snippet"}]. *)

Record Issue : Type := {
  i_line : option Z;
  i_column : option Z;
  i_severity : string;
  i_category : string;
  i_message : string;
  i_suggestion : option string;
  i_code_snippet : option string
}.

Section ReviewAgent.

(** [str.upper].  It maps some characters out of the range of the
    characters of this development (U+00FF goes to U+0178), so it is a
    parameter: the statements hold for every function in its place. *)
Variable upper : string -> string.

(** *** [_extract_issues], lines 241-277 *)

Definition defect_issue (section : FlaggedSection) : Issue :=
  {| i_line := Some (line section);
     i_column := None;
     i_severity := severity section;
     i_category := "defect";
     i_message := issue section;
     i_suggestion := None;
     i_code_snippet := Some (code section) |}.

(** One line of the critical section: the issue it yields, if any. *)
Definition critical_issue (text : string) : list Issue :=
  if Py.truthy (Py.strip text)
     && negb (Py.startswith_any (Py.strip text) ["WARNING"; "SUGGESTION"])
  then [ {| i_line := None;
            i_column := None;
            i_severity := "error";
            i_category := "critical";
            i_message := Py.strip (str.lstrip_char "-" (Py.strip text));
            i_suggestion := None;
            i_code_snippet := None |} ]
  else [].

Definition _extract_issues (agent_result : gmap string string)
    (defect_result : DefectPrediction) : outcome (list Issue) :=
  (* Add defect classifier issues *)
  let issues := map defect_issue (flagged_sections defect_result) in
  (* Parse issues from LLM output *)
  let output := default "" (agent_result !! "raw_output") in
  (* Look for critical issues section *)
  if Py.contains "CRITICAL" (upper output) then
    let* part := item (str.split (upper output) "CRITICAL") 1 in
    let critical_section := Py.slice (Py.split Py.LF part) 1 5 in
    Returns (issues ++ flat_map critical_issue critical_section)
  else Returns issues.

End ReviewAgent.

(** *** [_count_issues], lines 279-286 *)

Definition _count_issues (issues : list Issue) : gmap string Z :=
  let counts : gmap string Z :=
    {[ "error" := 0%Z; "warning" := 0%Z; "info" := 0%Z;
       "suggestion" := 0%Z; "security" := 0%Z ]} in
  fold_left (fun counts issue =>
               let severity := i_severity issue in
               match counts !! severity with
               | Some n => <[ severity := (n + 1)%Z ]> counts
               | None => counts
               end)
            issues counts.

(** ** The response models ([models/schemas.py], [main.py]) *)

Module schemas.

(** [class Severity(str, Enum)], lines 26-31 *)
Inductive Severity : Type := ERROR | WARNING | INFO | SUGGESTION.

(** [Severity(value)]: the member with that value, or [ValueError].  The
    message quotes the value as [repr] does for a text without quotes,
    backslashes or control characters. *)
Definition Severity_of (value : string) : outcome Severity :=
  if String.eqb value "error" then Returns ERROR
  else if String.eqb value "warning" then Returns WARNING
  else if String.eqb value "info" then Returns INFO
  else if String.eqb value "suggestion" then Returns SUGGESTION
  else Raises (PyException "ValueError"
                 ("'" +:+ value +:+ "' is not a valid Severity")).

(** [class CodeIssue(BaseModel)], lines 67-75 *)
Record CodeIssue : Type := {
  line : option Z;
  column : option Z;
  severity : Severity;
  category : string;
  message : string;
  suggestion : option string;
  code_snippet : option string
}.

End schemas.

(** The conversion of the issues of a review into the response model
    ([review_code], [main.py], lines 166-177). *)
Definition response_issues (issues : list Issue)
    : outcome (list schemas.CodeIssue) :=
  omap (fun issue =>
          let* sev := schemas.Severity_of (i_severity issue) in
          Returns {| schemas.line := i_line issue;
                     schemas.column := i_column issue;
                     schemas.severity := sev;
                     schemas.category := i_category issue;
                     schemas.message := i_message issue;
                     schemas.suggestion := i_suggestion issue;
                     schemas.code_snippet := i_code_snippet issue |})
       issues.

(** *** A table-driven [ast] library and a regex engine without matches *)

Module sample.

Definition at_lines (lineno end_lineno : Z) : list (string * Z) :=
  [("lineno", lineno); ("end_lineno", end_lineno)].

Definition Load : value := VNode "Load" [] [].

Definition Name (id : string) (l : Z) : value :=
  VNode "Name" [("id", VStr id); ("ctx", Load)] (at_lines l l).

Definition Constant (v : value) (l : Z) : value :=
  VNode "Constant" [("value", v); ("kind", VNone)] (at_lines l l).

Definition arg (name : string) (l : Z) : value :=
  VNode "arg" [("arg", VStr name); ("annotation", VNone);
               ("type_comment", VNone)] (at_lines l l).

Definition arguments (posonlyargs args defaults : list value) : value :=
  VNode "arguments"
    [("posonlyargs", VList posonlyargs); ("args", VList args);
     ("vararg", VNone); ("kwonlyargs", VList []); ("kw_defaults", VList []);
     ("kwarg", VNone); ("defaults", VList defaults)] [].

Definition FunctionDef (name : string) (args : value) (body : list value)
    (l e : Z) : value :=
  VNode "FunctionDef"
    [("name", VStr name); ("args", args); ("body", VList body);
     ("decorator_list", VList []); ("returns", VNone);
     ("type_comment", VNone)] (at_lines l e).

Definition ClassDef (name : string) (body : list value) (l e : Z) : value :=
  VNode "ClassDef"
    [("name", VStr name); ("bases", VList []); ("keywords", VList []);
     ("body", VList body); ("decorator_list", VList [])] (at_lines l e).

Definition Module_ (body : list value) : value :=
  VNode "Module" [("body", VList body); ("type_ignores", VList [])] [].

Definition Expr (v : value) (l : Z) : value :=
  VNode "Expr" [("value", v)] (at_lines l l).

Definition BoolOp (op : string) (values : list value) (l : Z) : value :=
  VNode "BoolOp" [("op", VNode op [] []); ("values", VList values)]
        (at_lines l l).

Definition If (test : value) (body orelse : list value) (l e : Z) : value :=
  VNode "If" [("test", test); ("body", VList body); ("orelse", VList orelse)]
        (at_lines l e).

Definition Pass (l : Z) : value := VNode "Pass" [] (at_lines l l).

Definition Return (v : value) (l : Z) : value :=
  VNode "Return" [("value", v)] (at_lines l l).

Definition IfExp (test body orelse : value) (l : Z) : value :=
  VNode "IfExp" [("test", test); ("body", body); ("orelse", orelse)]
        (at_lines l l).

(** [a and b] *)
Definition and_code : string := "a and b".
Definition and_tree : value :=
  Module_ [Expr (BoolOp "And" [Name "a" 1; Name "b" 1] 1) 1].

(** [x if c else y] *)
Definition ifexp_code : string := "x if c else y".
Definition ifexp_tree : value :=
  Module_ [Expr (IfExp (Name "c" 1) (Name "x" 1) (Name "y" 1) 1) 1].

(** A function with a default value and a class with one method. *)
Definition unit_code : string :=
  "def f(x, y=1):" +:+ String Py.LF ""
  +:+ "    return x" +:+ String Py.LF ""
  +:+ "class C:" +:+ String Py.LF ""
  +:+ "    def m(self):" +:+ String Py.LF ""
  +:+ "        pass".
Definition unit_tree : value :=
  Module_
    [FunctionDef "f" (arguments [] [arg "x" 1; arg "y" 1] [Constant (VInt 1) 1])
                 [Return (Name "x" 2) 2] 1 2;
     ClassDef "C"
       [FunctionDef "m" (arguments [] [arg "self" 4] []) [Pass 5] 4 5] 3 5].

(** Positional-only parameters that all have a default value. *)
Definition posonly_code : string := "def f(a=1, b=2, /): pass".
Definition posonly_tree : value :=
  Module_
    [FunctionDef "f"
       (arguments [arg "a" 1; arg "b" 1] []
                  [Constant (VInt 1) 1; Constant (VInt 2) 1])
       [Pass 1] 1 1].

(** [if x: pass], to be added to a tree. *)
Definition if_stmt : value := If (Name "x" 1) [Pass 1] [] 1 1.

(** A statement no parser accepts. *)
Definition broken_code : string := "def f(:".

(** A text with a null byte, which [ast.parse] of Python 3.11 and before
    refuses with a [ValueError]. *)
Definition null_code : string := String "000" "x = 1".

Definition table : list (string * outcome value) :=
  [(and_code, Returns and_tree);
   (unit_code, Returns unit_tree);
   (posonly_code, Returns posonly_tree);
   ("", Returns (Module_ []));
   (ifexp_code, Returns ifexp_tree);
   (null_code,
    Raises (PyException "ValueError"
              "source code string cannot contain null bytes"))].

Definition show (v : value) : string :=
  match v with
  | VNode "Name" (("id", VStr id) :: _) _ => id
  | VNode "Constant" (("value", VInt z) :: _) _ => Py.str_int z
  | _ => "..."
  end.

#[export] Instance astlib : ast.Lib :=
  {| ast.parse := fun code =>
       default (Raises (SyntaxError (Some 1%Z) "invalid syntax"))
               (assoc code table);
     ast.unparse := show;
     ast.has_unparse := true;
     ast.str_of_node := fun _ => "<ast node>";
     ast.get_docstring := fun _ => None |}.

#[export] Instance engine : re.Engine :=
  {| re.finditer := fun _ _ => [];
     re.findall := fun _ _ _ => [];
     re.search_ignorecase := fun _ _ => false |}.

End sample.

(** An engine for the examples that reads a pattern as literal texts
    separated by [|], and answers the searches only. *)
Module literal.

Definition search (pattern text : string) : bool :=
  existsb (fun alt => Py.contains (Py.lower alt) (Py.lower text))
          (Py.split "|" pattern).

#[export] Instance engine : re.Engine :=
  {| re.finditer := fun _ _ => [];
     re.findall := fun _ _ _ => [];
     re.search_ignorecase := search |}.

End literal.

(** An engine that knows the matches of the Java patterns in one text. *)
Module java_sample.

Definition code : string := "class A { int f(int x) { return x; } }".

Definition matches (pattern text : string) : list re.Match :=
  if String.eqb text code then
    if String.eqb pattern method_pattern then
      [ {| re.start := 9;
           re.groups := [Some " int f(int x) {"; Some "int"; Some "f";
                         Some "int x"] |} ]
    else if String.eqb pattern java_class_pattern then
      [ {| re.start := 0;
           re.groups := [Some "class A {"; Some "A"; None; None] |} ]
    else []
  else [].

#[export] Instance engine : re.Engine :=
  {| re.finditer := matches;
     re.findall := fun _ _ _ => [];
     re.search_ignorecase := fun _ _ => false |}.

End java_sample.

(** [str.upper] on texts of ASCII characters. *)
Module ascii_text.

Definition upper_char (c : ascii) : ascii :=
  let n := nat_of_ascii c in
  if (97 <=? n) && (n <=? 122) then ascii_of_nat (n - 32) else c.

Fixpoint upper (s : string) : string :=
  match s with
  | EmptyString => EmptyString
  | String c s' => String (upper_char c) (upper s')
  end.

(** The answer of a model, as [_run_llm_analysis] stores it. *)
Definition agent_result : gmap string string :=
  {[ "raw_output" :=
       "SUMMARY: risky." +:+ String Py.LF ""
       +:+ "Critical issues:" +:+ String Py.LF ""
       +:+ "- eval on user input" +:+ String Py.LF ""
       +:+ String Py.LF ""
       +:+ "Warnings: none" ]}.

End ascii_text.

(** * Properties *)

(** ** Rounding *)


Lemma round_half_even_near (x : Q) :
  (x - (1 # 2) <= inject_Z (round_half_even x) <= x + (1 # 2))%Q.
Proof.
  unfold round_half_even.
  pose proof (Qfloor_le x) as Hlo. pose proof (Qlt_floor x) as Hhi.
  rewrite inject_Z_plus in Hhi. change (inject_Z 1) with 1%Q in Hhi.
  destruct (Qcompare_spec (x - inject_Z (Qfloor x)) (1 # 2)) as [E|L|G].
  - destruct (Z.even (Qfloor x)); [|rewrite inject_Z_plus; change (inject_Z 1) with 1%Q]; lra.
  - lra.
  - rewrite inject_Z_plus; change (inject_Z 1) with 1%Q. lra.
Qed.

Lemma round_half_even_range (x : Q) (n : Z) :
  (0 <= x <= inject_Z n)%Q -> (0 <= round_half_even x <= n)%Z.
Proof.
  intros [H0 Hn]. unfold round_half_even.
  pose proof (Qfloor_le x) as Hlo.
  assert (F0 : (0 <= Qfloor x)%Z).
  { rewrite <- (Qfloor_Z 0). apply Qfloor_resp_le. exact H0. }
  assert (Fn : (Qfloor x <= n)%Z).
  { rewrite <- (Qfloor_Z n). apply Qfloor_resp_le. exact Hn. }
  assert (Fstep : (Qfloor x = n \/ Qfloor x + 1 <= n)%Z) by lia.
  destruct (Qcompare_spec (x - inject_Z (Qfloor x)) (1 # 2)) as [E|L|G].
  - destruct Fstep as [Ef|]; [|destruct (Z.even (Qfloor x)); lia].
    exfalso. rewrite Ef in E. lra.
  - lia.
  - destruct Fstep as [Ef|]; [|lia].
    exfalso. rewrite Ef in G. lra.
Qed.




Lemma round_half_even_mono (x y : Q) :
  (x <= y)%Q -> (round_half_even x <= round_half_even y)%Z.
Proof.
  intros L. unfold round_half_even.
  pose proof (Qfloor_le x) as Lx. pose proof (Qlt_floor x) as Ux.
  pose proof (Qfloor_le y) as Ly. pose proof (Qlt_floor y) as Uy.
  pose proof (Qfloor_resp_le _ _ L) as F.
  assert (S : (Qfloor x = Qfloor y \/ Qfloor x + 1 <= Qfloor y)%Z) by lia.
  destruct S as [E|S].
  - rewrite <- E in *.
    destruct (Qcompare_spec (x - inject_Z (Qfloor x)) (1 # 2)) as [Ex|Lx'|Gx];
      destruct (Qcompare_spec (y - inject_Z (Qfloor x)) (1 # 2))
        as [Ey|Ly'|Gy];
      try lia; try (exfalso; lra);
      destruct (Z.even (Qfloor x)); lia.
  - destruct (Qcompare_spec (x - inject_Z (Qfloor x)) (1 # 2)) as [Ex|Lx'|Gx];
      destruct (Qcompare_spec (y - inject_Z (Qfloor y)) (1 # 2))
        as [Ey|Ly'|Gy];
      repeat match goal with
             | |- context [Z.even ?z] => destruct (Z.even z)
             end; lia.
Qed.

Lemma round_mono (x y : Q) (ndigits : nat) :
  (x <= y)%Q -> (round x ndigits <= round y ndigits)%Q.
Proof.
  intros L. unfold round.
  set (scale := (10 ^ Z.of_nat ndigits)%Z).
  assert (P : (0 < scale)%Z) by (apply Z.pow_pos_nonneg; lia).
  assert (PQ : (0 < inject_Z scale)%Q)
    by (change 0%Q with (inject_Z 0); rewrite <- Zlt_Qlt; exact P).
  apply Qmult_le_compat_r.
  - rewrite <- Zle_Qle. apply round_half_even_mono.
    apply Qmult_le_compat_r; [exact L|apply Qlt_le_weak, PQ].
  - apply Qlt_le_weak, Qinv_lt_0_compat, PQ.
Qed.

(** ** Score fusion *)

Lemma fuse_risk_score (self : DefectClassifier) flagged issues ml :
  risk_score (fuse self flagged issues ml)
  = round (unrounded_risk_score flagged ml) 3.
Proof. reflexivity. Qed.

Lemma fuse_risk_level (self : DefectClassifier) flagged issues ml :
  risk_level (fuse self flagged issues ml)
  = spec_risk_level (unrounded_risk_score flagged ml).
Proof. reflexivity. Qed.

(** *** Doubles and their exact values *)

Lemma digits2_pos_bounds (m : positive) :
  (2 ^ (Zpos (digits2_pos m) - 1) <= Zpos m < 2 ^ Zpos (digits2_pos m))%Z.
Proof.
  assert (P : forall d : Z,
             (0 < d -> 2 ^ d = 2 * 2 ^ (d - 1))%Z).
  { intros d D. rewrite <- Z.pow_succ_r by lia. f_equal. lia. }
  induction m as [m IH|m IH|]; cbn [digits2_pos].
  - rewrite Pos2Z.inj_succ, (Pos2Z.inj_xI m).
    rewrite (P (Z.succ (Zpos (digits2_pos m)))) by lia.
    replace (Z.succ (Zpos (digits2_pos m)) - 1)%Z
      with (Zpos (digits2_pos m)) by lia.
    rewrite (P (Zpos (digits2_pos m))) at 1 by lia. lia.
  - rewrite Pos2Z.inj_succ, (Pos2Z.inj_xO m).
    rewrite (P (Z.succ (Zpos (digits2_pos m)))) by lia.
    replace (Z.succ (Zpos (digits2_pos m)) - 1)%Z
      with (Zpos (digits2_pos m)) by lia.
    rewrite (P (Zpos (digits2_pos m))) at 1 by lia. lia.
  - split; [apply Z.leb_le|apply Z.ltb_lt]; reflexivity.
Qed.

Lemma bounded_spec (m : positive) (e : Z) :
  bounded prec emax m e = true ->
  (-1074 <= e <= 971)%Z
  /\ (Zpos m < 2 ^ 53)%Z
  /\ (-1074 < e -> 2 ^ 52 <= Zpos m)%Z.
Proof.
  unfold bounded, canonical_mantissa, fexp, emin, prec, emax.
  intros H. apply andb_true_iff in H as [C E].
  apply Z.eqb_eq in C. apply Z.leb_le in E.
  pose proof (digits2_pos_bounds m) as [L U].
  set (d := Zpos (digits2_pos m)) in *.
  assert (D : (d <= 53)%Z) by lia.
  split; [lia|]. split.
  - apply Z.lt_le_trans with (2 ^ d)%Z; [exact U|].
    apply Z.pow_le_mono_r; lia.
  - intros N. assert (d = 53)%Z as -> by lia. exact L.
Qed.

Lemma scaled_lt (m n a b : Z) :
  (m < 2 ^ 53 -> 2 ^ 52 <= n -> 0 < a -> 1 <= b -> m * a < n * (2 * a * b))%Z.
Proof.
  intros M N A B.
  apply Z.lt_le_trans with (2 ^ 53 * a)%Z;
    [apply Z.mul_lt_mono_pos_r; assumption|].
  apply Z.le_trans with (n * (2 * a * 1))%Z.
  - change (2 ^ 53)%Z with (2 ^ 52 * 2)%Z.
    replace (n * (2 * a * 1))%Z with (n * 2 * a)%Z by ring.
    apply Z.mul_le_mono_nonneg_r; lia.
  - apply Z.mul_le_mono_nonneg_l; [lia|].
    apply Z.mul_le_mono_nonneg_l; lia.
Qed.

Lemma compare_cont_eq (m1 m2 : positive) :
  Pos.compare_cont Eq m1 m2 = (Zpos m1 ?= Zpos m2)%Z.
Proof. reflexivity. Qed.

(** On doubles that are zero or positive, the comparison of IEEE 754 is the
    comparison of the numerators. *)
Lemma SFcompare_numerator (x y : spec_float) :
  valid_binary x = true -> valid_binary y = true ->
  unsigned x = true -> unsigned y = true ->
  SFcompare x y = Some (numerator x ?= numerator y)%Z.
Proof.
  destruct x as [sx|sx| |sx mx ex]; try discriminate;
    destruct y as [sy|sy| |sy my ey]; try discriminate;
    cbn [valid_binary unsigned numerator SFcompare]; intros Vx Vy Ux Uy.
  - reflexivity.
  - destruct sy; [discriminate|]. f_equal. symmetry.
    apply Z.compare_lt_iff.
    apply bounded_spec in Vy as ([? ?] & _ & _).
    assert (0 < 2 ^ (ey + 1074))%Z by (apply Z.pow_pos_nonneg; lia). nia.
  - destruct sx; [discriminate|]. f_equal. symmetry.
    apply Z.compare_gt_iff.
    apply bounded_spec in Vx as ([? ?] & _ & _).
    assert (0 < 2 ^ (ex + 1074))%Z by (apply Z.pow_pos_nonneg; lia). nia.
  - destruct sx; [discriminate|]. destruct sy; [discriminate|]. f_equal.
    apply bounded_spec in Vx as ([Lx Hx] & Mx & Nx).
    apply bounded_spec in Vy as ([Ly Hy] & My & Ny).
    assert (Px : (0 < 2 ^ (ex + 1074))%Z) by (apply Z.pow_pos_nonneg; lia).
    assert (Py : (0 < 2 ^ (ey + 1074))%Z) by (apply Z.pow_pos_nonneg; lia).
    symmetry. destruct (Z.compare_spec ex ey) as [E|L|G].
    + subst ey. rewrite compare_cont_eq.
      destruct (Z.compare_spec (Zpos mx) (Zpos my)) as [E|L|G].
      * apply Z.compare_eq_iff. congruence.
      * apply Z.compare_lt_iff. nia.
      * apply Z.compare_gt_iff. nia.
    + apply Z.compare_lt_iff.
      replace (ey + 1074)%Z with (Z.succ (ex + 1074) + (ey - ex - 1))%Z by lia.
      rewrite (Z.pow_add_r 2 (Z.succ (ex + 1074))), Z.pow_succ_r by lia.
      assert (B : (1 <= 2 ^ (ey - ex - 1))%Z)
        by (change 1%Z with (2 ^ 0)%Z; apply Z.pow_le_mono_r; lia).
      specialize (Ny ltac:(lia)).
      apply (scaled_lt (Zpos mx) (Zpos my) _ _ Mx Ny Px B).
    + apply Z.compare_gt_iff.
      replace (ex + 1074)%Z with (Z.succ (ey + 1074) + (ex - ey - 1))%Z by lia.
      rewrite (Z.pow_add_r 2 (Z.succ (ey + 1074))), Z.pow_succ_r by lia.
      assert (B : (1 <= 2 ^ (ex - ey - 1))%Z)
        by (change 1%Z with (2 ^ 0)%Z; apply Z.pow_le_mono_r; lia).
      specialize (Nx ltac:(lia)).
      apply (scaled_lt (Zpos my) (Zpos mx) _ _ My Nx Py B).
Qed.

Lemma exact_numerator (x : float) :
  unsigned (Prim2SF x) = true ->
  (binary64.exact x == numerator (Prim2SF x) # Z.to_pos (2 ^ 1074))%Q.
Proof.
  intros U. pose proof (Prim2SF_valid x) as V. unfold binary64.exact.
  destruct (Prim2SF x) as [s|s| |s m e]; try discriminate;
    cbn [numerator]; [reflexivity|].
  destruct s; [discriminate|]. cbn [valid_binary] in V.
  apply bounded_spec in V as ([L H] & _ & _).
  assert (P : forall z, (0 <= z -> Zpos (Z.to_pos (2 ^ z)) = 2 ^ z)%Z).
  { intros z Z. apply Z2Pos.id, Z.pow_pos_nonneg; lia. }
  unfold Qeq. destruct (Z.leb_spec 0 e).
  - cbn [inject_Z Qnum Qden]. rewrite P by lia.
    rewrite (Z.pow_add_r 2 e 1074) by lia. ring.
  - cbn [Qnum Qden]. rewrite !P by lia.
    replace (2 ^ 1074)%Z with (2 ^ (e + 1074) * 2 ^ (- e))%Z; [ring|].
    rewrite <- Z.pow_add_r by lia. f_equal. lia.
Qed.

Lemma compare_exact (x y : float) :
  unsigned (Prim2SF x) = true -> unsigned (Prim2SF y) = true ->
  SFcompare (Prim2SF x) (Prim2SF y)
  = Some (binary64.exact x ?= binary64.exact y)%Q.
Proof.
  intros Ux Uy.
  rewrite (SFcompare_numerator _ _ (Prim2SF_valid x) (Prim2SF_valid y) Ux Uy).
  f_equal.
  rewrite (Qcompare_comp _ _ (exact_numerator x Ux) _ _ (exact_numerator y Uy)).
  unfold Qcompare. cbn [Qnum Qden].
  apply Zmult_compare_compat_r. reflexivity.
Qed.

Lemma ltb_exact (x y : float) :
  unsigned (Prim2SF x) = true -> unsigned (Prim2SF y) = true ->
  PrimFloat.ltb x y = true <-> (binary64.exact x < binary64.exact y)%Q.
Proof.
  intros Ux Uy. rewrite ltb_spec. unfold SFltb.
  rewrite (compare_exact x y Ux Uy), Qlt_alt.
  destruct (_ ?= _)%Q; split; congruence.
Qed.

Lemma leb_exact (x y : float) :
  unsigned (Prim2SF x) = true -> unsigned (Prim2SF y) = true ->
  PrimFloat.leb x y = true <-> (binary64.exact x <= binary64.exact y)%Q.
Proof.
  intros Ux Uy. rewrite leb_spec. unfold SFleb.
  rewrite (compare_exact x y Ux Uy), Qle_alt.
  destruct (_ ?= _)%Q; split; congruence.
Qed.

Lemma clamp_unit (x : float) :
  unit_double (binary64.min (binary64.of_Q 1.0)
                            (binary64.max (binary64.of_Q 0.0) x)).
Proof.
  unfold binary64.min, binary64.max.
  destruct (PrimFloat.ltb (binary64.of_Q 0.0) x) eqn:P.
  - destruct (PrimFloat.ltb x (binary64.of_Q 1.0)) eqn:L;
      [|right; left; reflexivity].
    right; right.
    pose proof P as P'. pose proof L as L'.
    rewrite ltb_spec in P', L'.
    change (Prim2SF (binary64.of_Q 0.0)) with (S754_zero false) in P'.
    change (Prim2SF (binary64.of_Q 1.0))
      with (S754_finite false 4503599627370496 (-52)) in L'.
    destruct (Prim2SF x) as [s|s| |s m e] eqn:E; try discriminate;
      destruct s; try discriminate.
    exists m, e. split; [reflexivity|].
    apply (ltb_exact x (binary64.of_Q 1.0)) in L;
      [|rewrite E; reflexivity|reflexivity].
    apply (Qlt_le_trans _ _ _ L). vm_compute. discriminate.
  - change (PrimFloat.ltb (binary64.of_Q 0.0) (binary64.of_Q 1.0)) with true.
    left. reflexivity.
Qed.

Lemma unit_double_exact (c : float) :
  unit_double c ->
  unsigned (Prim2SF c) = true /\ (0 <= binary64.exact c <= 1)%Q.
Proof.
  intros [->|[->|(m & e & E & L)]].
  - split; [reflexivity|]. split; vm_compute; discriminate.
  - split; [reflexivity|]. split; vm_compute; discriminate.
  - assert (U : unsigned (Prim2SF c) = true) by (rewrite E; reflexivity).
    split; [exact U|]. split; [|apply Qlt_le_weak, L].
    rewrite (exact_numerator c U), E. cbn [numerator].
    unfold Qle. cbn [Qnum Qden].
    assert (0 <= 2 ^ (e + 1074))%Z by (apply Z.pow_nonneg; lia). nia.
Qed.

Lemma unit_double_round (c : float) :
  unit_double c ->
  exists k,
    (0 <= k <= 1000)%Z
    /\ k = round_half_even (binary64.exact c * 1000)
    /\ binary64.round c 3 = binary64.thousandth k.
Proof.
  intros C. pose proof (unit_double_exact c C) as (_ & L0 & L1).
  destruct C as [->|[->|(m & e & E & L)]].
  - exists 0%Z. split; [lia|]. split; reflexivity.
  - exists 1000%Z. split; [lia|]. split; vm_compute; reflexivity.
  - exists (round_half_even (binary64.exact c * 1000)).
    split; [|split; [reflexivity|]].
    + apply round_half_even_range.
      change (inject_Z 1000) with 1000%Q. lra.
    + assert (N : (e < 0)%Z).
      { destruct (Z.ltb_spec e 0) as [N|N]; [exact N|exfalso].
        unfold binary64.exact in L. rewrite E in L.
        apply Z.leb_le in N. rewrite N in L.
        unfold Qlt in L. cbn [inject_Z Qnum Qden] in L.
        apply Z.leb_le in N.
        assert (0 < 2 ^ e)%Z by (apply Z.pow_pos_nonneg; lia). nia. }
      unfold binary64.round. rewrite E.
      apply Z.leb_gt in N. rewrite N. reflexivity.
Qed.

Lemma thousandth_table : forallb thousandth_ok (seq 0 1001) = true.
Proof. vm_compute. reflexivity. Qed.

Lemma thousandth_spec (k : Z) :
  (0 <= k <= 1000)%Z ->
  thousandth_ok (Z.to_nat k) = true.
Proof.
  intros K. pose proof thousandth_table as T.
  rewrite forallb_forall in T. apply T, in_seq. lia.
Qed.

(** *** The fusion on doubles *)

Lemma weight_lookup (s : Severity) :
  default 0.2%Q (severity_weights !! tag s) = weight s.
Proof. destruct s; reflexivity. Qed.

Lemma pattern_sum_fold (flagged : list FlaggedSection) (sevs : list Severity)
    (acc : float) :
  map severity flagged = map tag sevs ->
  fold_left (fun pattern_score section =>
               PrimFloat.add pattern_score
                 (binary64.of_Q
                    (default 0.2%Q (severity_weights !! severity section))))
            flagged acc
  = fold_left PrimFloat.add
              (map (fun sev => binary64.of_Q (weight sev)) sevs) acc.
Proof.
  revert sevs acc.
  induction flagged as [|sec flagged IH]; intros [|sev sevs] acc E;
    try discriminate; [reflexivity|].
  injection E as E1 E2. cbn [fold_left map].
  rewrite (IH sevs _ E2), E1, weight_lookup. reflexivity.
Qed.

Lemma fuse_risk_score_double (flagged : list FlaggedSection) (ml : float) :
  fst (binary64.fuse flagged ml)
  = binary64.round (binary64.unrounded_risk_score flagged ml) 3.
Proof. reflexivity. Qed.

Lemma fuse_risk_level_double (flagged : list FlaggedSection) (ml : float) :
  snd (binary64.fuse flagged ml)
  = let risk_score := binary64.unrounded_risk_score flagged ml in
    if PrimFloat.leb (binary64.of_Q 0.7) risk_score then "high"
    else if PrimFloat.leb (binary64.of_Q 0.4) risk_score then "medium"
    else "low".
Proof. reflexivity. Qed.

Lemma unrounded_unit_double (flagged : list FlaggedSection) (ml : float) :
  unit_double (binary64.unrounded_risk_score flagged ml).
Proof. apply clamp_unit. Qed.

(** C1.  For every sequence of flagged sections tagged with the five
    severities and every classifier probability (in [0, 1] or not, a NaN
    included), the risk score [analyze] computes on doubles is
    [round(clamp(0.4 * ml + 0.6 * pattern_score, 0.0, 1.0), 3)] with
    [pattern_score = min(1.0, (sum of the severity weights) / 5)]; it is
    the double of a multiple of [1/1000] and lies in [0.0, 1.0]. *)
Theorem fuse_risk_score_formula (flagged : list FlaggedSection) (ml : float)
    (sevs : list Severity) :
  map severity flagged = map tag sevs ->
  let score := fst (binary64.fuse flagged ml) in
  score = binary64.spec_risk_score sevs ml
  /\ PrimFloat.leb (binary64.of_Q 0.0) score = true
  /\ PrimFloat.leb score (binary64.of_Q 1.0) = true
  /\ (0 <= binary64.exact score <= 1)%Q
  /\ exists k, (0 <= k <= 1000)%Z /\ score = binary64.thousandth k.
Proof.
  intros E score. subst score. split.
  - unfold binary64.fuse, binary64.spec_risk_score, binary64.clamp,
      binary64.spec_pattern_score, binary64.sum. cbn [fst].
    rewrite (pattern_sum_fold flagged sevs _ E). reflexivity.
  - rewrite fuse_risk_score_double.
    destruct (unit_double_round _ (unrounded_unit_double flagged ml))
      as (k & K & _ & ->).
    pose proof (thousandth_spec k K) as T. unfold thousandth_ok in T.
    rewrite Z2Nat.id in T by lia.
    rewrite !andb_true_iff in T.
    destruct T as ((((((U & L0) & L1) & _) & _) & _) & _).
    split; [exact L0|]. split; [exact L1|]. split; [|eauto].
    apply (leb_exact (binary64.of_Q 0.0) _ eq_refl U) in L0.
    apply (leb_exact _ (binary64.of_Q 1.0) U eq_refl) in L1.
    split.
    + apply (Qle_trans _ (binary64.exact (binary64.of_Q 0.0)));
        [vm_compute; discriminate|exact L0].
    + apply (Qle_trans _ (binary64.exact (binary64.of_Q 1.0)));
        [exact L1|vm_compute; discriminate].
Qed.

Lemma fuse_risk_score_formula_witness :
  map severity (map section_of ["error"; "security"; "info"])
  = map tag [error; security; info]
  /\ fst (binary64.fuse (map section_of ["error"; "security"; "info"])
                        (binary64.of_Q 0.5))
     = binary64.of_Q 0.452.
Proof.
  split; [reflexivity|].
  transitivity (binary64.spec_risk_score [error; security; info]
                                         (binary64.of_Q 0.5));
    [|vm_compute; reflexivity].
  apply (fuse_risk_score_formula _ (binary64.of_Q 0.5)
           [error; security; info]).
  reflexivity.
Defined.

Lemma threshold_consistent (u : float) (k : Z) :
  unit_double u ->
  (0 <= k <= 1000)%Z ->
  k = round_half_even (binary64.exact u * 1000) ->
  let t := binary64.thousandth k in
  (PrimFloat.leb (binary64.of_Q 0.7) u = true ->
     PrimFloat.leb (binary64.of_Q 0.7) t = true)
  /\ (PrimFloat.leb (binary64.of_Q 0.7) u = false ->
        PrimFloat.leb t (binary64.of_Q 0.7) = true)
  /\ (PrimFloat.leb (binary64.of_Q 0.4) u = true ->
        PrimFloat.leb (binary64.of_Q 0.4) t = true)
  /\ (PrimFloat.leb (binary64.of_Q 0.4) u = false ->
        PrimFloat.leb t (binary64.of_Q 0.4) = true).
Proof.
  intros C K R t. pose proof (unit_double_exact u C) as (U & _).
  pose proof (thousandth_spec k K) as T. unfold thousandth_ok in T.
  rewrite Z2Nat.id in T by lia. fold t in T.
  rewrite !andb_true_iff in T.
  destruct T as ((((((_ & _) & _) & G4) & L4) & G7) & L7).
  assert (M : forall x y : Q,
             (x <= y)%Q ->
             (round_half_even (x * 1000) <= round_half_even (y * 1000))%Z).
  { intros x y L. apply round_half_even_mono. lra. }
  assert (Up : forall c : float,
             unsigned (Prim2SF c) = true ->
             PrimFloat.leb c u = true ->
             (round_half_even (binary64.exact c * 1000) <= k)%Z).
  { intros c Uc L. rewrite R. apply M. apply (leb_exact c u Uc U), L. }
  assert (Down : forall c : float,
             unsigned (Prim2SF c) = true ->
             PrimFloat.leb c u = false ->
             (k <= round_half_even (binary64.exact c * 1000))%Z).
  { intros c Uc L. rewrite R. apply M.
    destruct (Qlt_le_dec (binary64.exact c) (binary64.exact u)) as [G|G];
      [|exact G].
    apply Qlt_le_weak, (leb_exact c u Uc U) in G. congruence. }
  repeat split; intros L.
  - pose proof (Up (binary64.of_Q 0.7) eq_refl L) as B.
    change (round_half_even (binary64.exact (binary64.of_Q 0.7) * 1000))
      with 700%Z in B.
    destruct (Nat.leb_spec 700 (Z.to_nat k)); [exact G7|lia].
  - pose proof (Down (binary64.of_Q 0.7) eq_refl L) as B.
    change (round_half_even (binary64.exact (binary64.of_Q 0.7) * 1000))
      with 700%Z in B.
    destruct (Nat.leb_spec (Z.to_nat k) 700); [exact L7|lia].
  - pose proof (Up (binary64.of_Q 0.4) eq_refl L) as B.
    change (round_half_even (binary64.exact (binary64.of_Q 0.4) * 1000))
      with 400%Z in B.
    destruct (Nat.leb_spec 400 (Z.to_nat k)); [exact G4|lia].
  - pose proof (Down (binary64.of_Q 0.4) eq_refl L) as B.
    change (round_half_even (binary64.exact (binary64.of_Q 0.4) * 1000))
      with 400%Z in B.
    destruct (Nat.leb_spec (Z.to_nat k) 400); [exact L4|lia].
Qed.

Lemma leb_false_ltb (c u : float) :
  unsigned (Prim2SF c) = true -> unsigned (Prim2SF u) = true ->
  PrimFloat.leb c u = false <-> PrimFloat.ltb u c = true.
Proof.
  intros Uc Uu. rewrite (ltb_exact u c Uu Uc).
  pose proof (leb_exact c u Uc Uu) as L. split.
  - intros F. apply Qnot_le_lt. rewrite <- L. congruence.
  - intros G. destruct (PrimFloat.leb c u); [|reflexivity].
    apply Qlt_not_le in G. destruct G. apply L. reflexivity.
Qed.

(** C2, as the code has it.  The returned risk score is the double of a
    multiple of [1/1000] and lies in [0.0, 1.0]; the risk level follows the
    0.7 / 0.4 thresholds on the clamped score before it is rounded; the
    returned score is that score rounded to three decimals, so it lies on
    the same side of a threshold or on the threshold itself. *)
Theorem risk_level_thresholds (flagged : list FlaggedSection) (ml : float) :
  let r := binary64.fuse flagged ml in
  let u := binary64.unrounded_risk_score flagged ml in
  (PrimFloat.leb (binary64.of_Q 0.0) (fst r) = true
   /\ PrimFloat.leb (fst r) (binary64.of_Q 1.0) = true)
  /\ fst r = binary64.round u 3
  /\ (exists k,
        (0 <= k <= 1000)%Z /\ fst r = binary64.thousandth k
        /\ (binary64.exact u - (1 # 2000) <= k # 1000
            <= binary64.exact u + (1 # 2000))%Q)
  /\ (snd r = "high" <-> PrimFloat.leb (binary64.of_Q 0.7) u = true)
  /\ (snd r = "medium" <->
      PrimFloat.leb (binary64.of_Q 0.4) u = true
      /\ PrimFloat.ltb u (binary64.of_Q 0.7) = true)
  /\ (snd r = "low" <-> PrimFloat.ltb u (binary64.of_Q 0.4) = true)
  /\ (snd r = "high" -> PrimFloat.leb (binary64.of_Q 0.7) (fst r) = true)
  /\ (snd r = "medium" ->
      PrimFloat.leb (binary64.of_Q 0.4) (fst r) = true
      /\ PrimFloat.leb (fst r) (binary64.of_Q 0.7) = true)
  /\ (snd r = "low" -> PrimFloat.leb (fst r) (binary64.of_Q 0.4) = true).
Proof.
  intros r u. subst r. rewrite fuse_risk_score_double, fuse_risk_level_double.
  fold u. cbv zeta.
  pose proof (unrounded_unit_double flagged ml) as C. fold u in C.
  pose proof (unit_double_exact u C) as (U & _).
  destruct (unit_double_round u C) as (k & K & R & E). rewrite E.
  pose proof (threshold_consistent u k C K R) as (H7 & L7 & H4 & L4).
  pose proof (thousandth_spec k K) as T. unfold thousandth_ok in T.
  rewrite Z2Nat.id in T by lia. rewrite !andb_true_iff in T.
  destruct T as ((((((_ & T0) & T1) & _) & _) & _) & _).
  pose proof (leb_false_ltb (binary64.of_Q 0.7) u eq_refl U) as F7.
  pose proof (leb_false_ltb (binary64.of_Q 0.4) u eq_refl U) as F4.
  split; [split; assumption|]. split; [reflexivity|]. split.
  { exists k. split; [exact K|]. split; [reflexivity|].
    pose proof (round_half_even_near (binary64.exact u * 1000)) as [A B].
    rewrite <- R in A, B.
    assert (Q : (k # 1000 == inject_Z k * (1 # 1000))%Q).
    { unfold Qeq. cbn [inject_Z Qnum Qden Qmult]. lia. }
    rewrite Q. lra. }
  destruct (PrimFloat.leb (binary64.of_Q 0.7) u) eqn:G7;
    [|destruct (PrimFloat.leb (binary64.of_Q 0.4) u) eqn:G4].
  - assert (N7 : PrimFloat.ltb u (binary64.of_Q 0.7) <> true)
      by (rewrite <- F7; discriminate).
    assert (N4 : PrimFloat.ltb u (binary64.of_Q 0.4) <> true).
    { intros G. apply (ltb_exact u (binary64.of_Q 0.4) U eq_refl) in G.
      apply (leb_exact (binary64.of_Q 0.7) u eq_refl U) in G7.
      assert (binary64.exact (binary64.of_Q 0.4)
              < binary64.exact (binary64.of_Q 0.7))%Q
        by (vm_compute; reflexivity).
      lra. }
    repeat split; try tauto; try discriminate; auto.
  - assert (N4 : PrimFloat.ltb u (binary64.of_Q 0.4) <> true)
      by (rewrite <- F4; congruence).
    assert (P7 : PrimFloat.ltb u (binary64.of_Q 0.7) = true)
      by (apply F7; reflexivity).
    repeat split; try tauto; try discriminate; auto.
  - assert (P4 : PrimFloat.ltb u (binary64.of_Q 0.4) = true)
      by (apply F4; reflexivity).
    repeat split; try tauto; try discriminate; auto.
    intros [? _]. discriminate.
Qed.

(** C2 as stated fails: with no flagged section and probability 0.999 the
    score before rounding is just below 0.4, so the level is "low", while
    the returned score is 0.4, which the thresholds call "medium". *)
Lemma risk_level_rounding_counterexample :
  let r := binary64.fuse [] (binary64.of_Q 0.999) in
  fst r = binary64.of_Q 0.4
  /\ snd r = "low"
  /\ ~ (snd r = "medium" <->
        PrimFloat.leb (binary64.of_Q 0.4) (fst r) = true
        /\ PrimFloat.ltb (fst r) (binary64.of_Q 0.7) = true).
Proof.
  intros r. split; [vm_compute; reflexivity|].
  split; [vm_compute; reflexivity|].
  intros [_ H].
  assert (E : snd r = "medium") by (apply H; split; vm_compute; reflexivity).
  vm_compute in E. discriminate E.
Qed.

(** *** The fusion inside [analyze] *)

Lemma severity_of_tag_sound (s : string) (sev : Severity) :
  severity_of_tag s = Some sev -> s = tag sev.
Proof.
  unfold severity_of_tag. intros H. apply List.find_some in H as [_ H].
  apply String.eqb_eq, H.
Qed.

Lemma catalog_severities :
  forallb (fun rule : Rule =>
             match severity_of_tag (snd rule) with
             | Some _ => true
             | None => false
             end) catalog = true.
Proof. vm_compute. reflexivity. Qed.

Lemma anti_patterns_catalog (language : string) :
  incl (default [] (anti_patterns !! language)) catalog.
Proof.
  unfold anti_patterns, catalog.
  destruct (decide (language = "python")) as [->|N1];
    [rewrite lookup_insert_eq; cbn [default]; intros r I;
     apply in_or_app; tauto|rewrite lookup_insert_ne by congruence].
  destruct (decide (language = "javascript")) as [->|N2];
    [rewrite lookup_insert_eq; cbn [default]; intros r I;
     apply in_or_app; right; apply in_or_app; tauto
    |rewrite lookup_insert_ne by congruence].
  destruct (decide (language = "java")) as [->|N3];
    [rewrite lookup_insert_eq; cbn [default]; intros r I;
     apply in_or_app; right; apply in_or_app; right; apply in_or_app; tauto
    |rewrite lookup_insert_ne by congruence].
  destruct (decide (language = "general")) as [->|N4];
    [rewrite lookup_singleton_eq; cbn [default]; intros r I;
     apply in_or_app; right; apply in_or_app; right; apply in_or_app; tauto
    |rewrite lookup_singleton_ne by congruence].
  intros r [].
Qed.


Section AnalyzeFusion.
Context {engine : re.Engine}.

Lemma rule_hits_severity (lines : list string) (rule : Rule)
    (section : FlaggedSection) :
  In section (rule_hits lines rule) -> severity section = snd rule.
Proof.
  destruct rule as [[p m] s]. unfold rule_hits. intros I.
  apply in_flat_map in I as ([i l] & _ & I).
  destruct (re.search_ignorecase p l); [|contradiction].
  destruct I as [<-|[]]. reflexivity.
Qed.

End AnalyzeFusion.

(** ** The classifier step *)

Lemma ml_classify_untrained (self : DefectClassifier) (code : string) :
  _is_trained self = false -> _ml_classify self code = 0.5%Q.
Proof. intros E. unfold _ml_classify. rewrite E. reflexivity. Qed.

Lemma ml_classify_trained (self : DefectClassifier) (code : string) :
  _is_trained self = true ->
  _ml_classify self code =
  match (let* X := transform (model self) [code] in
         let* rows := predict_proba (model self) X in
         let* proba := item rows 0 in
         item proba 1) with
  | Returns p => p
  | Raises _ => 0.5%Q
  end.
Proof. intros E. unfold _ml_classify. rewrite E. reflexivity. Qed.

(** C7.  The classifier step is a total function: untrained it returns 0.5
    and the confidence of the prediction is 0.5; trained it returns the
    class-1 probability of the model and the confidence is 0.8; an exception
    of the vectorizer or of the forest is caught and answered with 0.5. *)
Theorem ml_classify_never_raises `{engine : re.Engine}
    (self : DefectClassifier) (code language : string) :
  (_is_trained self = false ->
     _ml_classify self code = 0.5%Q
     /\ confidence (analyze self code language) = 0.5%Q)
  /\ (_is_trained self = true ->
        confidence (analyze self code language) = 0.8%Q
        /\ (forall X p0 p1 rest rows,
              transform (model self) [code] = Returns X ->
              predict_proba (model self) X = Returns ((p0 :: p1 :: rest) :: rows) ->
              _ml_classify self code = p1)
        /\ (forall e, transform (model self) [code] = Raises e ->
              _ml_classify self code = 0.5%Q)
        /\ (forall X e,
              transform (model self) [code] = Returns X ->
              predict_proba (model self) X = Raises e ->
              _ml_classify self code = 0.5%Q)).
Proof.
  split; intros T.
  - split; [apply ml_classify_untrained, T|].
    unfold analyze, fuse; simpl. rewrite T. reflexivity.
  - split; [unfold analyze, fuse; simpl; rewrite T; reflexivity|].
    rewrite (ml_classify_trained _ _ T).
    repeat split.
    + intros X p0 p1 rest rows -> ; simpl. intros ->. reflexivity.
    + intros e ->. reflexivity.
    + intros X e -> ; simpl. intros ->. reflexivity.
Qed.

(** ** Line metrics *)

Lemma rstrip_empty (s : string) :
  Py.rstrip s = EmptyString <-> whitespace_only s = true.
Proof.
  induction s as [|c s IH]; simpl; [tauto|].
  destruct (Py.rstrip s) eqn:R.
  - destruct (Py.isspace c); simpl; [tauto|].
    split; discriminate.
  - split; [discriminate|].
    intros W. apply andb_true_iff in W as [_ W].
    apply IH in W. discriminate.
Qed.

Lemma lstrip_empty (s : string) :
  Py.lstrip s = EmptyString <-> whitespace_only s = true.
Proof.
  induction s as [|c s IH]; simpl; [tauto|].
  destruct (Py.isspace c); simpl; [exact IH|].
  split; discriminate.
Qed.

Lemma rstrip_whitespace_only (s : string) :
  whitespace_only (Py.rstrip s) = whitespace_only s.
Proof.
  induction s as [|c s IH]; simpl; [reflexivity|].
  destruct (Py.rstrip s) eqn:R; simpl in *.
  - rewrite <- IH, andb_true_r.
    destruct (Py.isspace c) eqn:E; simpl; rewrite ?E; reflexivity.
  - rewrite <- IH. reflexivity.
Qed.

Lemma strip_blank (s : string) :
  negb (Py.truthy (Py.strip s)) = whitespace_only s.
Proof.
  unfold Py.strip.
  destruct (whitespace_only s) eqn:W.
  - apply rstrip_empty in W. rewrite W. reflexivity.
  - destruct (Py.lstrip (Py.rstrip s)) eqn:L; [|reflexivity].
    apply lstrip_empty in L. rewrite rstrip_whitespace_only in L. congruence.
Qed.

Lemma count_if_ext {A} (p q : A -> bool) (l : list A) :
  (forall x, p x = q x) -> count_if p l = count_if q l.
Proof.
  intros E. unfold count_if. rewrite (List.filter_ext p q E). reflexivity.
Qed.

Lemma count_if_disjoint {A} (p q : A -> bool) (l : list A) :
  (forall x, p x = true -> q x = false) ->
  (count_if p l + count_if q l <= Z.of_nat (length l))%Z.
Proof.
  intros D. unfold count_if.
  induction l as [|x l IH]; simpl; [lia|].
  destruct (p x) eqn:P; [rewrite (D x P)|destruct (q x)]; simpl; lia.
Qed.

Lemma blank_not_comment (s : string) :
  negb (Py.truthy (Py.strip s)) = true ->
  Py.startswith_any (Py.strip s) comment_markers = false.
Proof.
  destruct (Py.strip s); [reflexivity|discriminate].
Qed.

Lemma split_at_length (p : ascii -> bool) (s : string) :
  1 <= length (Py.split_at p s).
Proof.
  induction s as [|c s IH]; simpl; [lia|].
  destruct (p c); simpl; [lia|].
  destruct (Py.split_at p s); simpl; lia.
Qed.

(** C4, as the code has it.  For every text and language the line counts
    add up: [code_lines + blank_lines + comment_lines = total_lines], with
    blank lines the lines of white space only, comment lines the lines whose
    trimmed form starts with a comment marker, and no count negative.  The
    empty text is one blank line: [total_lines = blank_lines = 1] and
    [comment_lines = code_lines = 0]. *)
Theorem metrics_line_counts `{astlib : ast.Lib} `{engine : re.Engine}
    (code language : string) :
  let m := get_code_metrics code language in
  let lines := Py.split Py.LF code in
  (code_lines m + blank_lines m + comment_lines m = total_lines m)%Z
  /\ total_lines m = Z.of_nat (length lines)
  /\ blank_lines m = count_if whitespace_only lines
  /\ comment_lines m
     = count_if (fun line =>
                   Py.startswith_any (Py.strip line) comment_markers) lines
  /\ (1 <= total_lines m)%Z /\ (0 <= code_lines m)%Z
  /\ (0 <= blank_lines m)%Z /\ (0 <= comment_lines m)%Z
  /\ (let m0 := get_code_metrics "" language in
      total_lines m0 = 1%Z /\ blank_lines m0 = 1%Z
      /\ comment_lines m0 = 0%Z /\ code_lines m0 = 0%Z).
Proof.
  intros m lines. subst m. unfold get_code_metrics.
  cbn [total_lines code_lines blank_lines comment_lines]. fold lines.
  pose proof (count_if_disjoint
                (fun line => negb (Py.truthy (Py.strip line)))
                (fun line => Py.startswith_any (Py.strip line) comment_markers)
                lines blank_not_comment) as D.
  pose proof (split_at_length (Ascii.eqb Py.LF) code) as L.
  fold (Py.split Py.LF code) in L. fold lines in L.
  repeat split; try reflexivity; try lia.
  - apply count_if_ext, strip_blank.
  - unfold count_if; lia.
  - unfold count_if; lia.
Qed.

(** C4 as stated fails on the empty text: [''.split('\n')] is [['']], one
    line, and that line is blank. *)
Lemma metrics_empty_counterexample :
  let m := get_code_metrics (astlib := sample.astlib) (engine := sample.engine)
             "" "python" in
  ~ (total_lines m = 0 /\ code_lines m = 0 /\ blank_lines m = 0
     /\ comment_lines m = 0)%Z.
Proof. intros m [H _]. vm_compute in H. discriminate H. Qed.

(** ** Dispatch on the language tag *)

Section Dispatch.
Context {astlib : ast.Lib} {engine : re.Engine}.

Lemma parsers_unsupported (l : string) :
  ~ In l supported_tags -> parsers !! l = None.
Proof.
  intros N. unfold parsers.
  rewrite !lookup_insert_ne by (intros <-; apply N; simpl; tauto).
  apply lookup_singleton_ne. intros <-; apply N; simpl; tauto.
Qed.

Lemma parsers_python : parsers !! "python" = Some _parse_python.
Proof. reflexivity. Qed.

Lemma parsers_javascript : parsers !! "javascript" = Some _parse_javascript.
Proof. reflexivity. Qed.

Lemma parsers_typescript : parsers !! "typescript" = Some _parse_javascript.
Proof. reflexivity. Qed.

Lemma parsers_java : parsers !! "java" = Some _parse_java.
Proof. reflexivity. Qed.

Lemma lower_char_idempotent (c : ascii) :
  Py.lower_char (Py.lower_char c) = Py.lower_char c.
Proof. destruct c as [[] [] [] [] [] [] [] []]; reflexivity. Qed.

Lemma lower_idempotent (s : string) : Py.lower (Py.lower s) = Py.lower s.
Proof.
  induction s as [|c s IH]; simpl; [reflexivity|].
  rewrite lower_char_idempotent, IH. reflexivity.
Qed.

Lemma keyword_fold (code : string) (kws : list string) (acc : Z) :
  fold_left (fun complexity kw =>
               (complexity + Z.of_nat (Py.count code kw))%Z) kws acc
  = (acc + Z.of_nat (list_sum (map (Py.count code) kws)))%Z.
Proof.
  revert acc. induction kws as [|kw kws IH]; intros acc; simpl; [lia|].
  rewrite IH. lia.
Qed.

Lemma estimate_complexity_spec (code : string) :
  _estimate_complexity code = Z.min 100 ((1 + keyword_count code) * 2).
Proof. unfold _estimate_complexity. rewrite keyword_fold. reflexivity. Qed.

(** ** Syntax errors *)

Lemma parse_python_try_raises (code : string) (e : exn) :
  ast.parse code = Raises e ->
  _parse_python_try code empty_store = Failed e empty_store.
Proof.
  intros E. unfold _parse_python_try, sbind, lift. rewrite E. reflexivity.
Qed.

End Dispatch.

Lemma ml_classify_never_raises_witness :
  _ml_classify (trained (constant_model [0.001%Q; 0.999%Q])) "eval(x)"
  = 0.999%Q
  /\ confidence (analyze (engine := sample.engine)
                   (trained (constant_model [0.001%Q; 0.999%Q]))
                   "eval(x)" "python") = 0.8%Q
  /\ _ml_classify (trained failing_model) "eval(x)" = 0.5%Q
  /\ confidence (analyze (engine := sample.engine) (untrained failing_model)
                   "eval(x)" "python") = 0.5%Q.
Proof.
  destruct (ml_classify_never_raises (engine := sample.engine)
              (trained (constant_model [0.001%Q; 0.999%Q]))
              "eval(x)" "python") as [_ T].
  destruct (T eq_refl) as (C & P & _).
  destruct (ml_classify_never_raises (engine := sample.engine)
              (trained failing_model) "eval(x)" "python") as [_ F].
  destruct (F eq_refl) as (_ & _ & R & _).
  destruct (ml_classify_never_raises (engine := sample.engine)
              (untrained failing_model) "eval(x)" "python") as [U _].
  destruct (U eq_refl) as [_ C0].
  split; [|split; [exact C|split; [|exact C0]]].
  - eapply P; reflexivity.
  - eapply R; reflexivity.
Defined.

(** ** Syntax trees: the walk visits every node once *)

Lemma iter_child_nodes_AST (node : value) :
  Forall (fun c => ast.is_AST c = true) (ast.iter_child_nodes node).
Proof.
  destruct node as [| | | |cls fields attrs]; simpl; try constructor.
  induction fields as [|[name f] fields IH]; simpl; [constructor|].
  apply List.Forall_app. split; [|exact IH].
  destruct f; simpl; try constructor; try reflexivity; try constructor.
  apply List.Forall_forall. intros x Hx. apply List.filter_In in Hx. tauto.
Qed.

Lemma size_unfold (cls : string) fields attrs :
  ast.size (VNode cls fields attrs)
  = S (list_sum (map ast.size (ast.iter_child_nodes (VNode cls fields attrs)))).
Proof.
  simpl. f_equal.
  induction fields as [|[name f] fields IH]; simpl; [reflexivity|].
  rewrite map_app, list_sum_app, <- IH. f_equal.
  destruct f as [| | |items|c fs a]; simpl; try reflexivity; [|lia].
  induction items as [|item items IHi]; simpl; [reflexivity|].
  destruct item; simpl; rewrite IHi; reflexivity.
Qed.

Lemma subnodes_unfold (cls : string) fields attrs :
  ast.subnodes (VNode cls fields attrs)
  = VNode cls fields attrs
    :: flat_map ast.subnodes (ast.iter_child_nodes (VNode cls fields attrs)).
Proof.
  simpl. f_equal.
  induction fields as [|[name f] fields IH]; simpl; [reflexivity|].
  rewrite flat_map_app, <- IH. f_equal.
  destruct f as [| | |items|c fs a]; simpl; try reflexivity;
    [|rewrite app_nil_r; reflexivity].
  induction items as [|item items IHi]; simpl; [reflexivity|].
  destruct item; simpl; rewrite IHi; reflexivity.
Qed.

Lemma list_sum_cons (a : nat) (l : list nat) :
  list_sum (a :: l) = a + list_sum l.
Proof. reflexivity. Qed.

Lemma walk_queue_perm (fuel : nat) (todo : list value) :
  Forall (fun c => ast.is_AST c = true) todo ->
  list_sum (map ast.size todo) <= fuel ->
  Permutation (ast.walk_queue fuel todo) (flat_map ast.subnodes todo).
Proof.
  revert todo. induction fuel as [|fuel IH]; intros todo A L.
  - destruct todo as [|node rest]; [reflexivity|].
    exfalso. inversion A as [|? ? An Ar]; subst.
    destruct node; try discriminate. rewrite map_cons, size_unfold, list_sum_cons in L.
    lia.
  - destruct todo as [|node rest]; [reflexivity|].
    inversion A as [|? ? An Ar]; subst.
    destruct node as [| | | |cls fields attrs]; try discriminate.
    cbn [ast.walk_queue flat_map]. rewrite subnodes_unfold.
    cbn [app]. apply perm_skip.
    rewrite IH.
    + rewrite flat_map_app. apply Permutation_app_comm.
    + apply List.Forall_app. split; [exact Ar|apply iter_child_nodes_AST].
    + rewrite map_cons, size_unfold, list_sum_cons in L.
      rewrite map_app, list_sum_app. lia.
Qed.

(** The queue is empty before the fuel is used up: more fuel yields the
    same nodes. *)
Lemma walk_queue_enough (fuel extra : nat) (todo : list value) :
  Forall (fun c => ast.is_AST c = true) todo ->
  list_sum (map ast.size todo) <= fuel ->
  ast.walk_queue (fuel + extra) todo = ast.walk_queue fuel todo.
Proof.
  revert todo. induction fuel as [|fuel IH]; intros todo A L.
  - destruct todo as [|node rest]; [destruct extra; reflexivity|].
    exfalso. inversion A as [|? ? An Ar]; subst.
    destruct node; try discriminate. rewrite map_cons, size_unfold, list_sum_cons in L.
    lia.
  - destruct todo as [|node rest]; [reflexivity|].
    inversion A as [|? ? An Ar]; subst.
    destruct node as [| | | |cls fields attrs]; try discriminate.
    cbn [ast.walk_queue Nat.add]. f_equal. apply IH.
    + apply List.Forall_app. split; [exact Ar|apply iter_child_nodes_AST].
    + rewrite map_cons, size_unfold, list_sum_cons in L.
      rewrite map_app, list_sum_app. lia.
Qed.

Lemma walk_perm (node : value) :
  Permutation (ast.walk node) (ast.subnodes node).
Proof.
  destruct node as [| | | |cls fields attrs]; try reflexivity.
  unfold ast.walk. rewrite walk_queue_perm.
  - cbn [flat_map]. rewrite app_nil_r. reflexivity.
  - repeat constructor.
  - rewrite map_cons, list_sum_cons. cbn [map list_sum fold_right]. lia.
Qed.

(** ** The complexity walk *)

Lemma complexity_step_weight (acc : Z) (node : value) :
  values_ok node = true ->
  complexity_step acc node = Returns (acc + node_weight node)%Z.
Proof.
  unfold complexity_step, values_ok, node_weight, operands, branching,
    boolop, operator.
  destruct (ast.isinstance_any node ["If"; "While"; "For"; "ExceptHandler"]);
    [reflexivity|].
  destruct (ast.isinstance node "BoolOp").
  - destruct (ast.getattr node "values") as [values|e]; simpl;
      [|discriminate].
    destruct (ast.len values); simpl; [reflexivity|discriminate].
  - destruct (ast.isinstance_any node ["And"; "Or"]); intros _; f_equal; lia.
Qed.

Lemma complexity_step_raises (acc : Z) (node : value) :
  values_ok node = false -> exists e, complexity_step acc node = Raises e.
Proof.
  unfold complexity_step, values_ok, branching, boolop.
  destruct (ast.isinstance_any node ["If"; "While"; "For"; "ExceptHandler"]);
    [discriminate|].
  destruct (ast.isinstance node "BoolOp"); [|discriminate].
  destruct (ast.getattr node "values") as [values|e]; simpl; [|eauto].
  destruct (ast.len values); simpl; [discriminate|eauto].
Qed.

Lemma complexity_fold (nodes : list value) (acc : Z) :
  forallb values_ok nodes = true ->
  ofold complexity_step nodes acc
  = Returns (acc + sumZ (map node_weight nodes))%Z.
Proof.
  revert acc. induction nodes as [|node nodes IH]; intros acc A; simpl.
  - f_equal. lia.
  - apply andb_true_iff in A as [A1 A2].
    rewrite (complexity_step_weight _ _ A1). simpl.
    rewrite (IH _ A2). f_equal. lia.
Qed.

Lemma complexity_fold_returns (nodes : list value) (acc c : Z) :
  ofold complexity_step nodes acc = Returns c ->
  forallb values_ok nodes = true.
Proof.
  revert acc. induction nodes as [|node nodes IH]; intros acc R; simpl;
    [reflexivity|].
  simpl in R. destruct (values_ok node) eqn:V.
  - rewrite (complexity_step_weight _ _ V) in R. simpl in R.
    simpl. eapply IH, R.
  - destruct (complexity_step_raises acc node V) as [e E].
    rewrite E in R. discriminate R.
Qed.

Lemma forallb_perm {A} (p : A -> bool) (l l' : list A) :
  Permutation l l' -> forallb p l = forallb p l'.
Proof.
  induction 1; simpl; try congruence.
  - destruct (p x), (p y); reflexivity.
Qed.

Lemma sumZ_perm (l l' : list Z) : Permutation l l' -> sumZ l = sumZ l'.
Proof.
  induction 1; simpl; try lia.
Qed.

Lemma sumZ_app (l l' : list Z) : sumZ (l ++ l') = (sumZ l + sumZ l')%Z.
Proof. induction l; simpl; lia. Qed.

Lemma calculate_complexity_total (tree : value) :
  forallb values_ok (ast.subnodes tree) = true ->
  _calculate_complexity tree
  = Returns (Z.min 100 ((1 + total_weight tree) * 5)).
Proof.
  intros V. unfold _calculate_complexity.
  rewrite complexity_fold.
  - simpl. unfold total_weight, tree_sum.
    rewrite (sumZ_perm _ _ (Permutation_map node_weight (walk_perm tree))).
    reflexivity.
  - rewrite (forallb_perm _ _ _ (walk_perm tree)). exact V.
Qed.

Lemma calculate_complexity_returns (tree : value) (c : Z) :
  _calculate_complexity tree = Returns c ->
  forallb values_ok (ast.subnodes tree) = true.
Proof.
  unfold _calculate_complexity. intros R.
  destruct (ofold complexity_step (ast.walk tree) 1%Z) as [c0|e] eqn:F;
    [|discriminate R].
  rewrite <- (forallb_perm _ _ _ (walk_perm tree)).
  eapply complexity_fold_returns, F.
Qed.

Lemma class_exclusive (node : value) :
  (branching node = true -> boolop node = false /\ operator node = false)
  /\ (boolop node = true -> operator node = false).
Proof.
  destruct node as [| | | |cls fields attrs]; try (split; discriminate).
  unfold branching, boolop, operator, ast.isinstance_any, ast.isinstance.
  cbn [existsb].
  split.
  - intros B. rewrite !orb_true_iff in B.
    destruct B as [B|[B|[B|[B|B]]]]; try discriminate B;
      apply String.eqb_eq in B; subst cls; split; reflexivity.
  - intros B. apply String.eqb_eq in B; subst cls. reflexivity.
Qed.

Lemma count_if_cons {A} (p : A -> bool) (x : A) (l : list A) :
  count_if p (x :: l) = ((if p x then 1 else 0) + count_if p l)%Z.
Proof. unfold count_if. simpl. destruct (p x); simpl; lia. Qed.

Lemma count_if_app {A} (p : A -> bool) (l l' : list A) :
  count_if p (l ++ l') = (count_if p l + count_if p l')%Z.
Proof.
  unfold count_if. rewrite List.filter_app, length_app. lia.
Qed.

Lemma count_if_nonneg {A} (p : A -> bool) (l : list A) :
  (0 <= count_if p l)%Z.
Proof. unfold count_if. lia. Qed.

(** The weights, sorted by the kind of node that carries them. *)
Lemma weight_by_kind (nodes : list value) :
  sumZ (map node_weight nodes)
  = (count_if branching nodes
     + sumZ (map (fun b => operands b - 1) (List.filter boolop nodes))
     + count_if operator nodes)%Z.
Proof.
  induction nodes as [|node nodes IH]; [reflexivity|].
  cbn [map sumZ fold_right List.filter]. fold (sumZ (map node_weight nodes)).
  rewrite IH, !count_if_cons. unfold node_weight.
  destruct (class_exclusive node) as [E1 E2].
  destruct (branching node) eqn:B;
    [destruct (E1 eq_refl) as [O P]; rewrite O, P|];
    [|destruct (boolop node) eqn:O; [rewrite (E2 eq_refl)|]];
    [| |destruct (operator node)];
    cbn [map sumZ fold_right];
    fold (sumZ (map (fun b => (operands b - 1)%Z)
                    (List.filter boolop nodes)));
    lia.
Qed.

Lemma child_size (node child : value) :
  In child (ast.iter_child_nodes node) -> ast.size child < ast.size node.
Proof.
  destruct node as [| | | |cls fields attrs]; try contradiction.
  rewrite size_unfold. generalize (ast.iter_child_nodes (VNode cls fields attrs)).
  intros l. induction l as [|c l IH]; [contradiction|].
  intros [->|H]; rewrite map_cons, list_sum_cons; [lia|].
  specialize (IH H). lia.
Qed.

Lemma subnodes_child (node child : value) :
  In child (ast.iter_child_nodes node) ->
  incl (ast.subnodes child) (ast.subnodes node).
Proof.
  destruct node as [| | | |cls fields attrs]; try contradiction.
  intros H x Hx. rewrite subnodes_unfold. right.
  apply in_flat_map. exists child. split; assumption.
Qed.

Lemma forallb_incl {A} (p : A -> bool) (l l' : list A) :
  incl l l' -> forallb p l' = true -> forallb p l = true.
Proof.
  intros I F. rewrite forallb_forall in *. intros x Hx. apply F, I, Hx.
Qed.

Lemma count_if_none {A} (p : A -> bool) (l : list A) :
  forallb (fun x => negb (p x)) l = true -> count_if p l = 0%Z.
Proof.
  induction l as [|x l IH]; [reflexivity|].
  cbn [forallb]. intros H. apply andb_true_iff in H as [H1 H2].
  rewrite count_if_cons, (IH H2). destruct (p x); [discriminate H1|lia].
Qed.

(** The operator children of a node: one for a [BoolOp], none otherwise. *)
Lemma operator_children (node : value) :
  boolop_shape node = true ->
  count_if operator (ast.iter_child_nodes node)
  = if boolop node then 1%Z else 0%Z.
Proof.
  unfold boolop_shape. destruct (boolop node) eqn:B;
    [|apply count_if_none].
  destruct node as [| | | |cls fields attrs]; try discriminate.
  destruct fields as [|[f1 [| | | |o ofs oattrs]] fields]; try discriminate.
  destruct ofs; try discriminate.
  destruct fields as [|[f2 [| | |vs|]] fields]; try discriminate.
  destruct fields; try discriminate.
  intros H. rewrite !andb_true_iff in H. destruct H as [[[_ _] O] V].
  cbn [ast.iter_child_nodes flat_map snd ast.field_children app].
  rewrite app_nil_r, count_if_cons, O.
  rewrite count_if_none; [reflexivity|].
  rewrite forallb_forall in *. intros x Hx.
  apply List.filter_In in Hx as [Hx _].
  specialize (V x Hx). apply andb_true_iff in V. tauto.
Qed.

Lemma boolop_values (node : value) :
  boolop node = true -> boolop_shape node = true -> values_ok node = true.
Proof.
  intros B S. unfold values_ok. rewrite B.
  destruct (branching node); [reflexivity|].
  unfold boolop_shape in S. rewrite B in S.
  destruct node as [| | | |cls fields attrs]; try discriminate.
  destruct fields as [|[f1 [| | | |o ofs oattrs]] fields]; try discriminate.
  destruct ofs; try discriminate.
  destruct fields as [|[f2 [| | |vs|]] fields]; try discriminate.
  destruct fields; try discriminate.
  rewrite !andb_true_iff in S. destruct S as [[[F1 F2] _] _].
  apply String.eqb_eq in F1, F2. subst f1 f2. reflexivity.
Qed.

Lemma shape_values_ok (nodes : list value) :
  forallb boolop_shape nodes = true -> forallb values_ok nodes = true.
Proof.
  rewrite !forallb_forall. intros S x Hx.
  destruct (boolop x) eqn:B; [apply boolop_values; auto|].
  unfold values_ok. rewrite B. destruct (branching x); reflexivity.
Qed.

Lemma operators_under (fuel : nat) (tree : value) :
  ast.size tree <= fuel ->
  ast.is_AST tree = true ->
  forallb boolop_shape (ast.subnodes tree) = true ->
  count_if operator (ast.subnodes tree)
  = ((if operator tree then 1 else 0) + count_if boolop (ast.subnodes tree))%Z.
Proof.
  revert tree. induction fuel as [|fuel IH]; intros tree L A S.
  - destruct tree; try discriminate. rewrite size_unfold in L. lia.
  - destruct tree as [| | | |cls fields attrs]; try discriminate.
    set (node := VNode cls fields attrs) in *.
    assert (Sn : boolop_shape node = true).
    { rewrite forallb_forall in S. apply S. unfold node. simpl. tauto. }
    assert (C : forall l, incl l (ast.iter_child_nodes node) ->
              count_if operator (flat_map ast.subnodes l)
              = (count_if operator l
                 + count_if boolop (flat_map ast.subnodes l))%Z).
    { induction l as [|c l IHl]; intros I; [reflexivity|].
      cbn [flat_map]. rewrite !count_if_app, count_if_cons.
      assert (Ic : In c (ast.iter_child_nodes node)) by (apply I; simpl; tauto).
      rewrite IHl by (intros x Hx; apply I; simpl; tauto).
      rewrite (IH c).
      - lia.
      - pose proof (child_size node c Ic). lia.
      - pose proof (iter_child_nodes_AST node) as F.
        rewrite List.Forall_forall in F. apply F, Ic.
      - eapply forallb_incl; [apply subnodes_child, Ic|exact S]. }
    unfold node at 1 3. rewrite subnodes_unfold. fold node.
    rewrite !count_if_cons, (C _ (incl_refl _)), (operator_children _ Sn).
    lia.
Qed.

Lemma sumZ_pred (f : value -> Z) (l : list value) :
  (sumZ (map (fun b => f b - 1) l) + Z.of_nat (length l) = sumZ (map f l))%Z.
Proof. induction l as [|x l IH]; simpl; lia. Qed.

(** For a tree as the parser builds it, a boolean combination of N operands
    weighs N: N - 1 for the [BoolOp] and 1 for its operator node. *)
Lemma total_weight_parsed (tree : value) :
  parsed_shape tree = true ->
  total_weight tree
  = (branching_count tree + sumZ (map operands (boolop_nodes tree)))%Z.
Proof.
  unfold parsed_shape. rewrite !andb_true_iff, negb_true_iff.
  intros [[A O] S]. unfold total_weight, tree_sum. rewrite weight_by_kind.
  rewrite (operators_under _ tree (Nat.le_refl _) A S), O.
  unfold branching_count, boolop_nodes.
  rewrite <- (sumZ_pred operands). unfold count_if. lia.
Qed.

Lemma count_if_or {A} (p q : A -> bool) (l : list A) :
  (forall x, p x = true -> q x = false) ->
  count_if (fun x => p x || q x) l = (count_if p l + count_if q l)%Z.
Proof.
  intros D. induction l as [|x l IH]; [reflexivity|].
  rewrite !count_if_cons, IH.
  destruct (p x) eqn:P; [rewrite (D x P)|destruct (q x)]; cbn [orb]; lia.
Qed.

(** The constructs of the specification are those the walk tests for and
    the four it leaves out. *)
Lemma construct_split (node : value) :
  construct node = branching node || uncounted node
  /\ (branching node = true -> uncounted node = false).
Proof.
  destruct node as [| | | |cls fields attrs];
    try (split; [reflexivity|discriminate]).
  unfold construct, conditional, loop, exception_handler, branching,
    uncounted, ast.isinstance_any, ast.isinstance.
  cbn [existsb]. rewrite !orb_false_r. split.
  - repeat match goal with
           | |- context [String.eqb cls ?c] => destruct (String.eqb cls c)
           end; reflexivity.
  - intros B. rewrite !orb_true_iff in B.
    destruct B as [B|[B|[B|B]]]; apply String.eqb_eq in B; subst cls;
      reflexivity.
Qed.

Lemma construct_count_split (tree : value) :
  construct_count tree
  = (branching_count tree + count_if uncounted (ast.subnodes tree))%Z.
Proof.
  unfold construct_count, branching_count.
  rewrite <- (count_if_or branching uncounted)
    by (intros x; apply construct_split).
  apply count_if_ext. intros x. apply construct_split.
Qed.

Section ComplexityScore.
Context {astlib : ast.Lib} {engine : re.Engine}.

Lemma parse_python_no_error (code : string) :
  ParseResult.errors (parse code "python") = [] ->
  exists c s, _parse_python_try code empty_store = Done c s
              /\ ParseResult.complexity_score (parse code "python") = c.
Proof.
  change (parse code "python") with (_parse_python code).
  unfold _parse_python.
  destruct (_parse_python_try code empty_store) as [c s|[l m|k m] s];
    try discriminate.
  intros _. exists c, s. split; reflexivity.
Qed.

Lemma parse_python_try_complexity (code : string) (tree : value) (c : Z)
    (s0 s : store) :
  ast.parse code = Returns tree ->
  _parse_python_try code s0 = Done c s ->
  _calculate_complexity tree = Returns c.
Proof.
  intros P. unfold _parse_python_try, sbind, lift. rewrite P.
  destruct (for_each (ast.walk tree) collect_imports s0) as [[] s1|];
    [|discriminate].
  destruct (for_each (ast.iter_child_nodes tree) _ s1) as [[] s2|];
    [|discriminate].
  destruct (_calculate_complexity tree); [|discriminate].
  congruence.
Qed.

(** C3, as the code has it.  For a tree as the parser builds it the score
    is [min(100, raw * 5)], where [raw] starts at 1, adds 1 for every
    [If], [While], [For] and [ExceptHandler] node of the tree and adds N for
    every boolean combination of N operands (N - 1 for the [BoolOp] node and
    1 for its [And] or [Or] operator node), and nothing else.  Of the
    conditionals, loops and exception handlers of the tree these are all
    but the conditional expressions, the cases of a [match], the
    [async for] loops and the comprehensions.  This is the complexity
    score of the parse result whenever the parse reports no error. *)
Theorem complexity_score_counts (tree : value) :
  parsed_shape tree = true ->
  let raw := (1 + branching_count tree
              + sumZ (map operands (boolop_nodes tree)))%Z in
  _calculate_complexity tree = Returns (Z.min 100 (raw * 5))
  /\ branching_count tree
     = (construct_count tree - count_if uncounted (ast.subnodes tree))%Z
  /\ (forall code,
        ast.parse code = Returns tree ->
        ParseResult.errors (parse code "python") = [] ->
        ParseResult.complexity_score (parse code "python")
        = Z.min 100 (raw * 5)).
Proof.
  intros S raw.
  assert (C : _calculate_complexity tree = Returns (Z.min 100 (raw * 5))).
  { rewrite calculate_complexity_total.
    - rewrite (total_weight_parsed _ S). subst raw. do 3 f_equal. lia.
    - apply shape_values_ok. unfold parsed_shape in S.
      apply andb_true_iff in S. tauto. }
  split; [exact C|]. split; [rewrite construct_count_split; lia|].
  intros code P E.
  destruct (parse_python_no_error code E) as (c & s & T & ->).
  pose proof (parse_python_try_complexity _ _ _ _ _ P T) as C'.
  congruence.
Qed.

End ComplexityScore.

(** C3 as stated fails twice.  On [a and b] the walk also visits the [And]
    node of the combination, so the two operands add 2, not 1, and the
    score is 15 where the stated formula gives 10.  On [x if c else y] the
    walk has no test for the conditional expression, so the score is 5
    where the stated formula gives 10. *)
Lemma complexity_operator_counterexample :
  (@ast.parse sample.astlib sample.and_code = Returns sample.and_tree
   /\ ParseResult.complexity_score
        (parse (astlib := sample.astlib) (engine := sample.engine)
               sample.and_code "python") = 15%Z
   /\ spec_complexity sample.and_tree = 10%Z)
  /\ (@ast.parse sample.astlib sample.ifexp_code = Returns sample.ifexp_tree
      /\ ParseResult.complexity_score
           (parse (astlib := sample.astlib) (engine := sample.engine)
                  sample.ifexp_code "python") = 5%Z
      /\ spec_complexity sample.ifexp_tree = 10%Z).
Proof. repeat split; vm_compute; reflexivity. Qed.

Lemma complexity_score_counts_witness :
  (parsed_shape sample.and_tree = true
   /\ ParseResult.complexity_score
        (parse (astlib := sample.astlib) (engine := sample.engine)
               sample.and_code "python")
      = Z.min 100 ((1 + 0 + 2) * 5))
  /\ (parsed_shape sample.ifexp_tree = true
      /\ ParseResult.complexity_score
           (parse (astlib := sample.astlib) (engine := sample.engine)
                  sample.ifexp_code "python")
         = Z.min 100 ((1 + 0 + 0) * 5)
      /\ construct_count sample.ifexp_tree = 1%Z).
Proof.
  split.
  - split; [reflexivity|].
    destruct (complexity_score_counts (astlib := sample.astlib)
                (engine := sample.engine) sample.and_tree eq_refl)
      as (_ & _ & H).
    apply (H sample.and_code); reflexivity.
  - split; [reflexivity|].
    destruct (complexity_score_counts (astlib := sample.astlib)
                (engine := sample.engine) sample.ifexp_tree eq_refl)
      as (_ & _ & H).
    split; [apply (H sample.ifexp_code); reflexivity|reflexivity].
Defined.

(** ** Strings: counting occurrences *)

#[local] Arguments String.append : simpl nomatch.

Lemma append_nil_r (s : string) : s +:+ "" = s.
Proof. induction s as [|c s IH]; simpl; congruence. Qed.

Lemma append_assoc (s t u : string) : (s +:+ t) +:+ u = s +:+ t +:+ u.
Proof. induction s as [|c s IH]; simpl; congruence. Qed.

Lemma length_append (s t : string) :
  String.length (s +:+ t) = String.length s + String.length t.
Proof. induction s as [|c s IH]; simpl; congruence. Qed.

Lemma prefix_iff (p s : string) :
  String.prefix p s = true <-> exists r, s = p +:+ r.
Proof.
  revert s. induction p as [|c p IH]; intros [|d s]; simpl.
  - split; [eauto|reflexivity].
  - split; [eauto|reflexivity].
  - split; [discriminate|intros [r R]; discriminate].
  - destruct (ascii_dec c d) as [->|N].
    + rewrite IH. split; intros [r R]; exists r; congruence.
    + split; [discriminate|]. intros [r R]. congruence.
Qed.

Lemma prefix_length (p s : string) :
  String.prefix p s = true -> String.length p <= String.length s.
Proof.
  rewrite prefix_iff. intros [r ->]. rewrite length_append. lia.
Qed.

Lemma prefix_append (p s t : string) :
  String.prefix p s = true -> String.prefix p (s +:+ t) = true.
Proof.
  rewrite !prefix_iff. intros [r ->]. exists (r +:+ t).
  apply append_assoc.
Qed.

(** Two ways to cut the same string. *)
Lemma append_split (a b s r : string) :
  a +:+ b = s +:+ r -> String.length a <= String.length s ->
  exists q, s = a +:+ q /\ b = q +:+ r.
Proof.
  revert s. induction a as [|c a IH]; intros s E L; simpl in *.
  - exists s. split; [reflexivity|exact E].
  - destruct s as [|d s]; simpl in *; [lia|].
    injection E as -> E. destruct (IH s E) as (q & -> & ->); [lia|].
    exists q. split; reflexivity.
Qed.

Lemma prefix_append_long (p s t : string) :
  String.length p <= String.length s ->
  String.prefix p (s +:+ t) = String.prefix p s.
Proof.
  intros L. destruct (String.prefix p s) eqn:P.
  - apply prefix_append, P.
  - destruct (String.prefix p (s +:+ t)) eqn:Q; [|reflexivity].
    apply prefix_iff in Q as [r R].
    destruct (append_split p r s t (eq_sym R) L) as (q & -> & _).
    assert (String.prefix p (p +:+ q) = true) by (apply prefix_iff; eauto).
    congruence.
Qed.

Section Count.
Variable sub : string.
Hypothesis sub_nonempty : 1 <= String.length sub.

Local Abbreviation cnt := (Py.count_from sub).
Local Abbreviation n := (String.length sub).
Local Abbreviation straddles := (straddles sub).

Lemma count_from_later (s : string) :
  (forall j k, k <= j -> cnt j s <= cnt k s)
  /\ (forall j k, k < n -> cnt j s <= S (cnt k s)).
Proof.
  induction s as [|c s [IH1 IH2]]; [split; intros; simpl; lia|].
  assert (P1 : forall j k, k <= j -> cnt j (String c s) <= cnt k (String c s)).
  { intros [|j] [|k] L; try lia; cbn [Py.count_from].
    - destruct (String.prefix sub (String c s)).
      + apply IH2. lia.
      + apply IH1. lia.
    - apply IH1. lia. }
  split; [exact P1|].
  intros j [|k] L.
  - specialize (P1 j 0). lia.
  - destruct j as [|j]; cbn [Py.count_from].
    + destruct (String.prefix sub (String c s)).
      * apply le_n_S, IH1. lia.
      * apply IH2. lia.
    + apply IH2. lia.
Qed.

Lemma count_from_short (s : string) (k : nat) :
  String.length s < n -> cnt k s = 0.
Proof.
  revert k. induction s as [|c s IH]; intros k L; [reflexivity|].
  simpl in L. destruct k as [|k]; cbn [Py.count_from].
  - destruct (String.prefix sub (String c s)) eqn:P.
    + apply prefix_length in P. simpl in P. lia.
    + apply IH. lia.
  - apply IH. lia.
Qed.

Lemma count_from_skip (a b : string) (k : nat) :
  String.length a <= k ->
  cnt k (a +:+ b) = cnt (k - String.length a) b.
Proof.
  revert k. induction a as [|c a IH]; intros k L; simpl in *.
  - f_equal. lia.
  - destruct k as [|k]; [lia|]. apply IH. lia.
Qed.

(** Occurrences in the two parts of a text are occurrences in the text. *)
Lemma count_from_append_ge (a b : string) (k : nat) :
  k <= String.length a ->
  cnt k a + cnt 0 b <= cnt k (a +:+ b).
Proof.
  revert k. induction a as [|c a IH]; intros k L.
  - simpl in *. assert (k = 0) as -> by lia. lia.
  - simpl in L. destruct k as [|k]; cbn [Py.count_from String.append];
      [|apply IH; lia].
    destruct (String.prefix sub (String c a)) eqn:P.
    + change (String c (a +:+ b)) with (String c a +:+ b).
      rewrite (prefix_append _ _ b P).
      apply prefix_length in P. simpl in P.
      specialize (IH (n - 1)). lia.
    + destruct (String.prefix sub (String c (a +:+ b))) eqn:Q;
        [|apply IH; lia].
      change (String c (a +:+ b)) with (String c a +:+ b) in Q.
      assert (S (String.length a) < n) as La.
      { destruct (le_lt_dec n (S (String.length a))) as [G|G]; [|exact G].
        rewrite prefix_append_long in Q by (simpl; exact G). congruence. }
      rewrite (count_from_short a 0) by lia.
      rewrite count_from_skip by lia.
      pose proof (proj2 (count_from_later b) 0 (n - 1 - String.length a)).
      lia.
Qed.

Lemma straddles_cons (c : ascii) (a b : string) :
  straddles a b -> straddles (String c a) b.
Proof.
  intros (p & q & a0 & b1 & E & Np & Nq & -> & ->).
  exists p, q, (String c a0), b1. repeat split; assumption.
Qed.

(** Joining two texts adds at most the occurrence across the cut. *)
Lemma count_from_append_le (a b : string) (k : nat) :
  cnt k (a +:+ b) <= cnt k a + cnt 0 b
  \/ (straddles a b /\ cnt k (a +:+ b) <= S (cnt k a + cnt 0 b)).
Proof.
  revert k. induction a as [|c a IH]; intros k.
  - left. simpl. apply (proj1 (count_from_later b)). lia.
  - assert (Lift : forall k', 
              cnt k' (a +:+ b) <= cnt k' a + cnt 0 b
              \/ straddles (String c a) b
                 /\ cnt k' (a +:+ b) <= S (cnt k' a + cnt 0 b)).
    { intros k'. destruct (IH k') as [H|[H1 H2]]; [left; exact H|right].
      split; [apply straddles_cons, H1|exact H2]. }
    destruct k as [|k]; cbn [Py.count_from String.append]; [|apply Lift].
    destruct (String.prefix sub (String c a)) eqn:P.
    + change (String c (a +:+ b)) with (String c a +:+ b).
      rewrite (prefix_append _ _ b P).
      destruct (Lift (n - 1)) as [H|[H1 H2]]; [left; lia|right; split; [exact H1|lia]].
    + destruct (String.prefix sub (String c (a +:+ b))) eqn:Q; [|apply Lift].
      change (String c (a +:+ b)) with (String c a +:+ b) in Q.
      assert (S (String.length a) < n) as La.
      { destruct (le_lt_dec n (S (String.length a))) as [G|G]; [|exact G].
        rewrite prefix_append_long in Q by (simpl; exact G). congruence. }
      right. split.
      * apply prefix_iff in Q as [r R].
        destruct (append_split (String c a) b sub r R) as (q & E1 & E2);
          [simpl; lia|].
        exists (String c a), q, "", r.
        repeat split; try assumption; try discriminate.
        intros ->. rewrite E1, append_nil_r in La. simpl in La. lia.
      * rewrite count_from_skip by lia.
        pose proof (proj1 (count_from_later b) (n - 1 - String.length a) 0).
        rewrite (count_from_short a 0) by lia. lia.
Qed.

End Count.

Lemma take_append (p q : string) : Py.take (String.length p) (p +:+ q) = p.
Proof. induction p as [|c p IH]; simpl; [destruct q; reflexivity|congruence]. Qed.

Lemma drop_append (p q : string) : Py.drop (String.length p) (p +:+ q) = q.
Proof. induction p as [|c p IH]; simpl; [destruct q; reflexivity|congruence]. Qed.

Lemma length_nonempty (s : string) : s <> "" -> 1 <= String.length s.
Proof. destruct s; [congruence|simpl; lia]. Qed.

Lemma in_proper_splits (p q : string) :
  p <> "" -> q <> "" -> In (p, q) (proper_splits (p +:+ q)).
Proof.
  intros Np Nq. unfold proper_splits. apply in_map_iff.
  exists (String.length p). rewrite take_append, drop_append.
  split; [reflexivity|]. apply in_seq. rewrite length_append.
  apply length_nonempty in Np, Nq. lia.
Qed.

Lemma ends_with_complete (k p : string) : ends_with (k +:+ p) p = true.
Proof.
  unfold ends_with. apply existsb_exists. exists (String.length k).
  rewrite drop_append, String.eqb_refl. split; [|reflexivity].
  apply in_seq. rewrite length_append. lia.
Qed.

Lemma ends_total (a0 p1 a0' p2 : string) :
  a0 +:+ p1 = a0' +:+ p2 ->
  ends_with p1 p2 || ends_with p2 p1 = true.
Proof.
  intros E. apply orb_true_iff.
  destruct (le_lt_dec (String.length a0) (String.length a0')) as [L|L].
  - destruct (append_split _ _ _ _ E L) as (q & _ & ->).
    left. apply ends_with_complete.
  - symmetry in E.
    destruct (append_split _ _ _ _ E) as (q & _ & ->); [lia|].
    right. apply ends_with_complete.
Qed.

Lemma starts_total (q1 b1 q2 b2 : string) :
  q1 +:+ b1 = q2 +:+ b2 ->
  String.prefix q1 q2 || String.prefix q2 q1 = true.
Proof.
  intros E. apply orb_true_iff.
  destruct (le_lt_dec (String.length q1) (String.length q2)) as [L|L].
  - destruct (append_split _ _ _ _ E L) as (q & -> & _).
    left. apply prefix_iff. eauto.
  - symmetry in E.
    destruct (append_split _ _ _ _ E) as (q & -> & _); [lia|].
    right. apply prefix_iff. eauto.
Qed.

Lemma straddles_exclusive (kw1 kw2 a b : string) :
  In kw1 keywords -> In kw2 keywords -> kw1 <> kw2 ->
  straddles kw1 a b -> straddles kw2 a b -> False.
Proof.
  intros I1 I2 N (p1 & q1 & a1 & b1 & -> & Np1 & Nq1 & Ea & Eb)
         (p2 & q2 & a2 & b2 & -> & Np2 & Nq2 & Ea' & Eb').
  assert (X : keywords_exclusive = true) by (vm_compute; reflexivity).
  unfold keywords_exclusive in X. rewrite forallb_forall in X.
  specialize (X _ I1). rewrite forallb_forall in X. specialize (X _ I2).
  apply orb_true_iff in X as [X|X]; [apply String.eqb_eq in X; congruence|].
  rewrite forallb_forall in X.
  specialize (X _ (in_proper_splits p1 q1 Np1 Nq1)).
  rewrite forallb_forall in X.
  specialize (X _ (in_proper_splits p2 q2 Np2 Nq2)).
  apply negb_true_iff in X. unfold compatible in X. cbn [fst snd] in X.
  rewrite (ends_total a1 p1 a2 p2) in X by congruence.
  rewrite (starts_total q1 b1 q2 b2) in X by congruence.
  discriminate X.
Qed.

Lemma count_nonempty (s kw : string) :
  kw <> "" -> Py.count s kw = Py.count_from kw 0 s.
Proof. destruct kw; [congruence|reflexivity]. Qed.

Lemma keywords_nonempty (kw : string) : In kw keywords -> kw <> "".
Proof.
  intros I ->. revert I. unfold keywords. simpl.
  intuition discriminate.
Qed.

(** Every keyword occurrence of the parts of a text is one of the text. *)
Lemma keyword_sum_append_ge (kws : list string) (a b : string) :
  incl kws keywords ->
  list_sum (map (Py.count a) kws) + list_sum (map (Py.count b) kws)
  <= list_sum (map (Py.count (a +:+ b)) kws).
Proof.
  induction kws as [|kw kws IH]; intros I; [simpl; lia|].
  rewrite !map_cons, !list_sum_cons.
  assert (N : kw <> "") by (apply keywords_nonempty, I; simpl; tauto).
  rewrite !(count_nonempty _ _ N).
  pose proof (count_from_append_ge kw (length_nonempty _ N) a b 0).
  specialize (IH (fun x Hx => I x (or_intror Hx))). lia.
Qed.

(** Joining two texts adds at most one keyword occurrence, the one across
    the cut. *)
Lemma keyword_sum_append_le (kws : list string) (a b : string) :
  List.NoDup kws -> incl kws keywords ->
  list_sum (map (Py.count (a +:+ b)) kws)
  <= list_sum (map (Py.count a) kws) + list_sum (map (Py.count b) kws)
  \/ ((exists kw, In kw kws /\ straddles kw a b)
      /\ list_sum (map (Py.count (a +:+ b)) kws)
         <= S (list_sum (map (Py.count a) kws)
               + list_sum (map (Py.count b) kws))).
Proof.
  induction kws as [|kw kws IH]; intros D I; [left; simpl; lia|].
  rewrite !map_cons, !list_sum_cons.
  assert (K : In kw keywords) by (apply I; simpl; tauto).
  assert (N : kw <> "") by (apply keywords_nonempty, K).
  rewrite !(count_nonempty _ _ N).
  apply List.NoDup_cons_iff in D as [Dk D].
  specialize (IH D (fun x Hx => I x (or_intror Hx))).
  destruct (count_from_append_le kw (length_nonempty _ N) a b 0)
    as [H|[S1 H]];
    destruct IH as [H'|[(kw' & I' & S2) H']].
  - left. lia.
  - right. split; [exists kw'; simpl; tauto|lia].
  - right. split; [exists kw; simpl; tauto|lia].
  - exfalso. apply (straddles_exclusive kw kw' a b); auto.
    + apply I. simpl. tauto.
    + intros ->. contradiction.
Qed.

Lemma keywords_nodup : List.NoDup keywords.
Proof.
  unfold keywords. repeat (apply List.NoDup_cons; [simpl; intuition discriminate|]).
  apply List.NoDup_nil.
Qed.

(** The heuristic complexity does not drop when a text that holds a counted
    keyword is inserted anywhere into a text. *)
Lemma estimate_complexity_insert (a x b : string) :
  (1 <= keyword_count x)%Z ->
  (_estimate_complexity (a +:+ b) <= _estimate_complexity (a +:+ x +:+ b))%Z.
Proof.
  intros X. rewrite !estimate_complexity_spec. unfold keyword_count in *.
  pose proof (keyword_sum_append_ge keywords a (x +:+ b) (incl_refl _)) as G1.
  pose proof (keyword_sum_append_ge keywords x b (incl_refl _)) as G2.
  destruct (keyword_sum_append_le keywords a b keywords_nodup (incl_refl _))
    as [H|[_ H]]; lia.
Qed.

Lemma keyword_count_if (x : string) :
  1 <= Py.count x "if" -> (1 <= keyword_count x)%Z.
Proof.
  intros X. unfold keyword_count, keywords.
  rewrite map_cons, list_sum_cons. lia.
Qed.

(** ** Adding a statement to a tree *)

Lemma sumZ_flat_map {A} (g : value -> Z) (f : A -> list value) (l : list A) :
  sumZ (map g (flat_map f l)) = sumZ (map (fun x => sumZ (map g (f x))) l).
Proof.
  induction l as [|x l IH]; [reflexivity|].
  cbn [flat_map map]. rewrite map_app, sumZ_app, IH. reflexivity.
Qed.

Lemma tree_sum_unfold (g : value -> Z) cls fields attrs :
  tree_sum g (VNode cls fields attrs)
  = (g (VNode cls fields attrs)
     + sumZ (map (tree_sum g)
                 (flat_map (fun f => ast.field_children (snd f)) fields)))%Z.
Proof.
  unfold tree_sum at 1. rewrite subnodes_unfold, map_cons.
  cbn [sumZ fold_right]. f_equal.
  rewrite sumZ_flat_map. reflexivity.
Qed.

Lemma update_field_split name f fields fields' :
  update_field name f fields = Some fields' ->
  exists pre v v' post,
    fields = pre ++ (name, v) :: post
    /\ fields' = pre ++ (name, v') :: post
    /\ f v = Some v'.
Proof.
  revert fields'. induction fields as [|[k v] rest IH]; intros fields' U;
    [discriminate|].
  cbn [update_field] in U. destruct (String.eqb_spec name k) as [->|N].
  - destruct (f v) as [v'|] eqn:F; [|discriminate]. injection U as <-.
    exists [], v, v', rest. repeat split; assumption.
  - destruct (update_field name f rest) as [rest'|]; [|discriminate].
    injection U as <-.
    destruct (IH rest' eq_refl) as (pre & v0 & v0' & post & -> & -> & F).
    exists ((k, v) :: pre), v0, v0', post. repeat split; assumption.
Qed.

Lemma assoc_update_field name f fields fields' k :
  update_field name f fields = Some fields' ->
  assoc k fields'
  = if String.eqb k name
    then match assoc k fields with Some v => f v | None => None end
    else assoc k fields.
Proof.
  revert fields'. induction fields as [|[k0 v] rest IH]; intros fields' U;
    [discriminate|].
  cbn [update_field] in U. destruct (String.eqb_spec name k0) as [->|N].
  - destruct (f v) as [v'|] eqn:F; [|discriminate]. injection U as <-.
    cbn [assoc]. destruct (String.eqb k k0); [congruence|reflexivity].
  - destruct (update_field name f rest) as [rest'|]; [|discriminate].
    injection U as <-. cbn [assoc]. rewrite (IH rest' eq_refl).
    destruct (String.eqb_spec k k0) as [->|N']; [|reflexivity].
    destruct (String.eqb_spec k0 name) as [->|]; [congruence|reflexivity].
Qed.

Lemma nth_error_cut {A} (l : list A) (i : nat) (x : A) :
  nth_error l i = Some x ->
  l = firstn i l ++ x :: skipn (S i) l /\ i < length l.
Proof.
  revert i. induction l as [|y l IH]; intros [|i] E; try discriminate.
  - injection E as ->. split; [reflexivity|simpl; lia].
  - cbn [nth_error] in E. destruct (IH i E) as [E' L].
    split; [|simpl; lia].
    cbn [firstn skipn app]. f_equal. exact E'.
Qed.

Lemma insert_statement_AST path field pos stmt tree tree' :
  insert_statement path field pos stmt tree = Some tree' ->
  ast.is_AST tree = true /\ ast.is_AST tree' = true.
Proof.
  destruct path as [|[name i] path], tree as [| | | |cls fields attrs];
    try discriminate; cbn [insert_statement];
    (destruct (update_field _ _ fields); [|discriminate]);
    intros E; injection E as <-; split; reflexivity.
Qed.

Section TreeSum.
Variable g : value -> Z.
Hypothesis g_mono :
  forall cls fields fields' attrs name f,
    field_grows f ->
    update_field name f fields = Some fields' ->
    (g (VNode cls fields attrs) <= g (VNode cls fields' attrs))%Z.

Lemma children_sum_split (pre post : list (string * value)) name v :
  sumZ (map (tree_sum g)
            (flat_map (fun f => ast.field_children (snd f))
                      (pre ++ (name, v) :: post)))
  = (sumZ (map (tree_sum g)
               (flat_map (fun f => ast.field_children (snd f)) pre))
     + sumZ (map (tree_sum g) (ast.field_children v))
     + sumZ (map (tree_sum g)
                 (flat_map (fun f => ast.field_children (snd f)) post)))%Z.
Proof.
  rewrite flat_map_app. cbn [flat_map snd].
  rewrite !map_app, !sumZ_app. lia.
Qed.

Lemma list_children_app (l l' : list value) :
  sumZ (map (tree_sum g) (ast.field_children (VList (l ++ l'))))
  = (sumZ (map (tree_sum g) (ast.field_children (VList l)))
     + sumZ (map (tree_sum g) (ast.field_children (VList l'))))%Z.
Proof.
  cbn [ast.field_children]. rewrite List.filter_app, map_app, sumZ_app.
  reflexivity.
Qed.

Lemma list_children_cons (x : value) (l : list value) :
  ast.is_AST x = true ->
  sumZ (map (tree_sum g) (ast.field_children (VList (x :: l))))
  = (tree_sum g x
     + sumZ (map (tree_sum g) (ast.field_children (VList l))))%Z.
Proof.
  intros A. cbn [ast.field_children List.filter]. rewrite A. reflexivity.
Qed.

(** The sum over a tree with a statement added is at least the sum over
    the tree plus the sum over the statement. *)
Lemma insert_statement_sum path field pos stmt tree tree' :
  insert_statement path field pos stmt tree = Some tree' ->
  ast.is_AST stmt = true ->
  (tree_sum g stmt + tree_sum g tree <= tree_sum g tree')%Z.
Proof.
  intros I A. revert tree tree' I.
  induction path as [|[name i] path IH]; intros tree tree' I;
    destruct tree as [| | | |cls fields attrs]; try discriminate;
    cbn [insert_statement] in I.
  - match type of I with
    | match update_field _ ?f _ with _ => _ end = _ => set (rewrite_ := f) in *
    end.
    destruct (update_field field rewrite_ fields) as [fields'|] eqn:U;
      [|discriminate].
    injection I as <-.
    assert (G : field_grows rewrite_).
    { intros [| | |items|] v' F; try discriminate. injection F as <-.
      exists items, (firstn pos items ++ stmt :: skipn pos items).
      repeat split. rewrite length_app. cbn [length].
      rewrite length_firstn, length_skipn. lia. }
    pose proof (g_mono cls fields fields' attrs field rewrite_ G U) as M.
    destruct (update_field_split _ _ _ _ U) as (pre & v & v' & post & -> & -> & F).
    destruct v as [| | |items|]; try discriminate. injection F as <-.
    rewrite !tree_sum_unfold, !children_sum_split.
    rewrite (list_children_app (firstn pos items) (stmt :: skipn pos items)).
    rewrite (list_children_cons _ _ A).
    pose proof (list_children_app (firstn pos items) (skipn pos items)) as E.
    rewrite firstn_skipn in E. lia.
  - match type of I with
    | match update_field _ ?f _ with _ => _ end = _ => set (rewrite_ := f) in *
    end.
    destruct (update_field name rewrite_ fields) as [fields'|] eqn:U;
      [|discriminate].
    injection I as <-.
    assert (G : field_grows rewrite_).
    { intros [| | |items|] v' F; try discriminate. unfold rewrite_ in F.
      destruct (nth_error items i) as [item|] eqn:N; [|discriminate].
      destruct (insert_statement path field pos stmt item) as [item'|];
        [|discriminate].
      injection F as <-. destruct (nth_error_cut _ _ _ N) as [_ L].
      exists items, (firstn i items ++ item' :: skipn (S i) items).
      repeat split. rewrite length_app. cbn [length].
      rewrite length_firstn, length_skipn. lia. }
    pose proof (g_mono cls fields fields' attrs name rewrite_ G U) as M.
    destruct (update_field_split _ _ _ _ U) as (pre & v & v' & post & -> & -> & F).
    destruct v as [| | |items|]; try discriminate. unfold rewrite_ in F.
    destruct (nth_error items i) as [item|] eqn:N; [|discriminate].
    destruct (insert_statement path field pos stmt item) as [item'|] eqn:R;
      [|discriminate].
    injection F as <-.
    destruct (insert_statement_AST _ _ _ _ _ _ R) as [Ai Ai'].
    specialize (IH _ _ R).
    destruct (nth_error_cut _ _ _ N) as [C _].
    rewrite !tree_sum_unfold, !children_sum_split.
    rewrite (list_children_app (firstn i items) (item' :: skipn (S i) items)).
    rewrite (list_children_cons _ _ Ai').
    pose proof (list_children_app (firstn i items) (item :: skipn (S i) items))
      as E.
    rewrite <- C, (list_children_cons _ _ Ai) in E. lia.
Qed.

End TreeSum.

Lemma update_field_assoc name f fields fields' :
  update_field name f fields = Some fields' ->
  exists v v', assoc name fields = Some v /\ f v = Some v'
               /\ assoc name fields' = Some v'.
Proof.
  revert fields'. induction fields as [|[k v] rest IH]; intros fields' U;
    [discriminate|].
  cbn [update_field] in U. cbn [assoc].
  destruct (String.eqb name k) eqn:E.
  - destruct (f v) as [v'|] eqn:F; [|discriminate]. injection U as <-.
    cbn [assoc]. rewrite E. eauto.
  - destruct (update_field name f rest) as [rest'|]; [|discriminate].
    injection U as <-. cbn [assoc]. rewrite E. apply IH. reflexivity.
Qed.

Lemma values_field_grows cls fields fields' attrs name f :
  field_grows f ->
  update_field name f fields = Some fields' ->
  (operands (VNode cls fields attrs) <= operands (VNode cls fields' attrs))%Z
  /\ (values_ok (VNode cls fields attrs) = true ->
      values_ok (VNode cls fields' attrs) = true).
Proof.
  intros G U. unfold values_ok, operands, branching, boolop,
    ast.isinstance_any, ast.isinstance, ast.getattr.
  destruct (String.eqb_spec "values" name) as [<-|N].
  - destruct (update_field_assoc _ _ _ _ U) as (v & v' & -> & F & ->).
    destruct (G v v' F) as (items & items' & -> & -> & L).
    cbn [obind ast.len]. split; [lia|].
    destruct (existsb _ _), (String.eqb cls "BoolOp"); reflexivity.
  - rewrite (assoc_update_field _ _ _ _ "values" U).
    destruct (String.eqb_spec "values" name); [contradiction|].
    destruct (assoc "values" fields) as [v|]; cbn [obind];
      split; try lia; tauto.
Qed.

Lemma node_weight_grows cls fields fields' attrs name f :
  field_grows f ->
  update_field name f fields = Some fields' ->
  (node_weight (VNode cls fields attrs)
   <= node_weight (VNode cls fields' attrs))%Z.
Proof.
  intros G U.
  destruct (values_field_grows cls _ _ attrs _ _ G U) as [O _].
  unfold node_weight, branching, boolop, operator, ast.isinstance_any,
    ast.isinstance.
  destruct (existsb _ _); [lia|].
  destruct (String.eqb cls "BoolOp"); [lia|].
  destruct (existsb _ _); lia.
Qed.

Lemma raising_grows cls fields fields' attrs name f :
  field_grows f ->
  update_field name f fields = Some fields' ->
  (raising (VNode cls fields attrs) <= raising (VNode cls fields' attrs))%Z.
Proof.
  intros G U.
  destruct (values_field_grows cls _ _ attrs _ _ G U) as [_ V].
  unfold raising.
  destruct (values_ok (VNode cls fields attrs));
    [rewrite (V eq_refl); lia|].
  destruct (values_ok (VNode cls fields' attrs)); lia.
Qed.

Lemma raising_sum (nodes : list value) :
  (sumZ (map raising nodes) <= 0)%Z
  /\ (sumZ (map raising nodes) = 0%Z <-> forallb values_ok nodes = true).
Proof.
  induction nodes as [|node nodes [IH1 IH2]]; [simpl; split; [lia|tauto]|].
  cbn [map sumZ fold_right forallb].
  fold (sumZ (map raising nodes)). unfold raising at 1 3.
  destruct (values_ok node); cbn [andb].
  - split; [lia|]. rewrite <- IH2. split; lia.
  - split; [lia|]. split; [lia|discriminate].
Qed.

Lemma operands_nonneg (node : value) : (0 <= operands node)%Z.
Proof.
  unfold operands. destruct (ast.getattr node "values") as [v|]; cbn [obind];
    [|lia].
  destruct v; cbn [ast.len]; lia.
Qed.

Lemma operands_sum_nonneg (nodes : list value) :
  (0 <= sumZ (map operands nodes))%Z.
Proof.
  induction nodes as [|x l IH]; cbn [map sumZ fold_right]; [lia|].
  fold (sumZ (map operands l)). pose proof (operands_nonneg x). lia.
Qed.

(** Adding a branching statement, shaped as the parser shapes it, to a tree
    on which [_calculate_complexity] returns: it returns on the new tree
    too, and not less. *)
Lemma calculate_complexity_insert path field pos stmt tree tree' c :
  insert_statement path field pos stmt tree = Some tree' ->
  branching stmt = true ->
  parsed_shape stmt = true ->
  _calculate_complexity tree = Returns c ->
  exists c', _calculate_complexity tree' = Returns c' /\ (c <= c')%Z.
Proof.
  intros I B S R.
  assert (A : ast.is_AST stmt = true).
  { unfold parsed_shape in S. rewrite !andb_true_iff in S. tauto. }
  assert (Vs : forallb values_ok (ast.subnodes stmt) = true).
  { apply shape_values_ok. unfold parsed_shape in S.
    rewrite !andb_true_iff in S. tauto. }
  pose proof (calculate_complexity_returns _ _ R) as Vt.
  assert (Vt' : forallb values_ok (ast.subnodes tree') = true).
  { apply raising_sum.
    pose proof (insert_statement_sum raising raising_grows _ _ _ _ _ _ I A).
    unfold tree_sum in *.
    apply raising_sum in Vs, Vt.
    pose proof (proj1 (raising_sum (ast.subnodes tree'))). lia. }
  rewrite (calculate_complexity_total _ Vt) in R. injection R as <-.
  rewrite (calculate_complexity_total _ Vt').
  eexists. split; [reflexivity|].
  pose proof (insert_statement_sum node_weight node_weight_grows
                _ _ _ _ _ _ I A) as W.
  fold (total_weight stmt) (total_weight tree) (total_weight tree') in W.
  assert (1 <= total_weight stmt)%Z.
  { rewrite (total_weight_parsed _ S).
    assert (1 <= branching_count stmt)%Z.
    { unfold branching_count. destruct stmt; try discriminate.
      rewrite subnodes_unfold, count_if_cons, B.
      pose proof (count_if_nonneg branching
                    (flat_map ast.subnodes
                       (ast.iter_child_nodes (VNode cls fields attributes)))).
      lia. }
    pose proof (operands_sum_nonneg (boolop_nodes stmt)). lia. }
  lia.
Qed.



(** ** Entities *)

(** Inverts [obind m k = Returns y] steps in a hypothesis. *)
Ltac returns_inv H :=
  repeat match type of H with
         | obind ?m _ = Returns _ =>
             let E := fresh "E" in
             destruct m eqn:E; cbn [obind] in H; [|discriminate H]
         end.

Lemma omap_map {A B C} (f : A -> outcome B) (g : A -> outcome C)
    (h : B -> C) (l : list A) (ys : list B) :
  (forall x y, f x = Returns y -> g x = Returns (h y)) ->
  omap f l = Returns ys -> omap g l = Returns (map h ys).
Proof.
  intros FG. revert ys. induction l as [|x l IH]; intros ys H; cbn [omap] in *.
  - injection H as <-. reflexivity.
  - returns_inv H. injection H as <-.
    rewrite (FG _ _ E). cbn [obind]. rewrite (IH _ eq_refl). reflexivity.
Qed.

Section PythonEntities.
Context {astlib : ast.Lib}.

Lemma param_of_arg_name (arg : value) (p : Param) :
  param_of_arg arg = Returns p ->
  (let* a := ast.getattr arg "arg" in ast.as_str a) = Returns (p_name p).
Proof.
  unfold param_of_arg. intros H. returns_inv H. injection H as <-.
  cbn [obind p_name]. assumption.
Qed.

Lemma alter_default_names (d : string) (k : nat) (ps : list Param) :
  map p_name (alter (with_default d) k ps) = map p_name ps.
Proof.
  revert k. induction ps as [|p ps IH]; intros [|k]; try reflexivity.
  cbn. f_equal. apply IH.
Qed.

Lemma set_default_names (offset : Z) (ps ps' : list Param) item :
  set_default offset ps item = Returns ps' ->
  map p_name ps' = map p_name ps.
Proof.
  unfold set_default. destruct item as [i d].
  destruct ast.has_unparse; [|intros H; injection H as <-; reflexivity].
  intros H. returns_inv H. injection H as <-.
  apply alter_default_names.
Qed.

Lemma set_defaults_names (offset : Z) items (ps ps' : list Param) :
  ofold (set_default offset) items ps = Returns ps' ->
  map p_name ps' = map p_name ps.
Proof.
  revert ps. induction items as [|item items IH]; intros ps H;
    cbn [ofold] in H.
  - injection H as <-. reflexivity.
  - returns_inv H. rewrite (IH _ H). eapply set_default_names, E.
Qed.

(** What [_extract_python_function] records of a definition. *)
Lemma extract_python_function_spec node lines class_name f :
  _extract_python_function node lines class_name = Returns f ->
  declared_names node = Returns (map p_name (FunctionInfo.parameters f))
  /\ ast.getpos node "lineno" = Returns (FunctionInfo.start_line f)
  /\ ast.getpos node "end_lineno" = Returns (FunctionInfo.end_line f)
  /\ FunctionInfo.is_method f
     = match class_name with Some _ => true | None => false end
  /\ FunctionInfo.class_name f = class_name.
Proof.
  unfold _extract_python_function, declared_names. intros H.
  returns_inv H. injection H as <-.
  cbn [FunctionInfo.parameters FunctionInfo.start_line
       FunctionInfo.end_line FunctionInfo.is_method
       FunctionInfo.class_name obind].
  repeat split; try assumption; try reflexivity.
  repeat match goal with
         | R : ?m = Returns _ |- context [obind ?m _] =>
             rewrite R; cbn [obind]
         end.
  match goal with
  | P : omap param_of_arg _ = Returns ?ps,
    D : (if ?b then _ else _) = Returns ?ps' |- _ =>
      assert (N : map p_name ps' = map p_name ps);
      [destruct b; [returns_inv D; eapply set_defaults_names, D
                   |injection D as <-; reflexivity]|];
      rewrite N; eapply omap_map; [|exact P]; apply param_of_arg_name
  end.
Qed.

End PythonEntities.

Lemma getattr_list_child (node : value) (name : string) (items : list value)
    (item : value) :
  ast.getattr node name = Returns (VList items) ->
  In item items -> ast.is_AST item = true ->
  In item (ast.iter_child_nodes node).
Proof.
  destruct node as [| | | |cls fields attrs]; try discriminate.
  cbn [ast.getattr ast.iter_child_nodes].
  induction fields as [|[k v] fields IH]; [discriminate|].
  cbn [assoc flat_map snd]. intros G I A.
  apply in_or_app. destruct (String.eqb name k).
  - injection G as ->. left. cbn [ast.field_children].
    apply List.filter_In. tauto.
  - right. apply IH; assumption.
Qed.

Lemma isinstance_AST (node : value) (cs : list string) :
  ast.isinstance_any node cs = true -> ast.is_AST node = true.
Proof.
  destruct node; try reflexivity; unfold ast.isinstance_any;
    induction cs; simpl; try discriminate; assumption.
Qed.

Lemma subnodes_self (node : value) :
  ast.is_AST node = true -> In node (ast.subnodes node).
Proof.
  destruct node; try discriminate. intros _. rewrite subnodes_unfold.
  left. reflexivity.
Qed.

Lemma span_ok_le (node : value) (l e : Z) :
  span_ok node = true ->
  ast.getpos node "lineno" = Returns l ->
  ast.getpos node "end_lineno" = Returns e -> (l <= e)%Z.
Proof.
  unfold span_ok. intros S L E. rewrite L, E in S. apply Z.leb_le, S.
Qed.

Lemma omap_returns_in {A B} (f : A -> outcome B) (l : list A)
    (ys : list B) :
  omap f l = Returns ys ->
  List.Forall (fun y => exists x, In x l /\ f x = Returns y) ys.
Proof.
  revert ys. induction l as [|x l IH]; intros ys H; cbn [omap] in H.
  - injection H as <-. constructor.
  - returns_inv H. injection H as <-. constructor.
    + exists x. split; [left; reflexivity|assumption].
    + eapply List.Forall_impl; [|apply IH; reflexivity].
      intros y (x' & I & R). exists x'. split; [right; exact I|exact R].
Qed.

Section PythonClasses.
Context {astlib : ast.Lib}.

(** Every method [_extract_python_class] records comes from a definition in
    the body of the class, extracted under the name of the class. *)
Lemma extract_python_class_methods node lines c :
  _extract_python_class node lines = Returns c ->
  List.Forall
    (fun m => exists item,
        In item (ast.iter_child_nodes node)
        /\ _extract_python_function item lines (Some (ClassInfo.name c))
           = Returns m)
    (ClassInfo.methods c).
Proof.
  unfold _extract_python_class. intros H. returns_inv H. injection H as <-.
  cbn [ClassInfo.methods ClassInfo.name].
  match goal with
  | M : omap _ (List.filter _ ?body) = Returns ?ms |- _ =>
      apply omap_returns_in in M;
      eapply List.Forall_impl; [|exact M]
  end.
  cbn beta. intros m (item & I & R). exists item.
  apply List.filter_In in I as [I C].
  split.
  - match goal with
    | B : ast.as_list ?v = Returns ?l, G : ast.getattr node "body" = Returns ?v,
      I' : In item ?l |- _ =>
        destruct v; try discriminate B; injection B as ->;
        apply (getattr_list_child _ _ _ _ G I')
    end.
    eapply isinstance_AST, C.
  - returns_inv R. congruence.
Qed.

End PythonClasses.

(** *** What the [try] block keeps true of the store *)

Section Preserves.
Variable I : store -> Prop.

Lemma preserves_sret {A} (a : A) : preserves I (sret a).
Proof. intros s H. exact H. Qed.

Lemma preserves_lift {A} (o : outcome A) : preserves I (lift o).
Proof. intros s H. unfold lift. destruct o; exact H. Qed.

Lemma preserves_sbind {A B} (m : M A) (k : A -> M B) :
  preserves I m -> (forall a, preserves I (k a)) -> preserves I (sbind m k).
Proof.
  intros Pm Pk s H. unfold sbind. specialize (Pm s H).
  destruct (m s) as [a s'|e s']; [apply Pk, Pm|exact Pm].
Qed.

Lemma preserves_lift_bind {A B} (o : outcome A) (k : A -> M B) :
  (forall a, o = Returns a -> preserves I (k a)) ->
  preserves I (sbind (lift o) k).
Proof.
  intros Pk s H. unfold sbind, lift.
  destruct o as [a|e]; [apply (Pk a eq_refl), H|exact H].
Qed.

Lemma preserves_for_each {A} (l : list A) (body : A -> M unit) :
  (forall x, In x l -> preserves I (body x)) -> preserves I (for_each l body).
Proof.
  induction l as [|x l IH]; intros P; cbn [for_each].
  - apply preserves_sret.
  - apply preserves_sbind; [apply P; left; reflexivity|].
    intros _. apply IH. intros y Hy. apply P. right. exact Hy.
Qed.

End Preserves.

Lemma subnodes_trans (fuel : nat) (tree node : value) :
  ast.size tree <= fuel ->
  In node (ast.subnodes tree) ->
  incl (ast.subnodes node) (ast.subnodes tree).
Proof.
  revert tree. induction fuel as [|fuel IH]; intros tree L N;
    destruct tree as [| | | |cls fields attrs]; try contradiction.
  - rewrite size_unfold in L. lia.
  - rewrite subnodes_unfold in N. destruct N as [<-|N]; [apply incl_refl|].
    apply in_flat_map in N as (child & C & N).
    pose proof (child_size _ _ C) as S.
    eapply incl_tran; [apply (IH child); [lia|exact N]|].
    apply subnodes_child, C.
Qed.

Section PythonParse.
Context {astlib : ast.Lib}.
Variable tree : value.
Hypothesis tree_positions : positions_ok tree = true.

Lemma extracted_function (node : value) lines class_name f :
  In node (ast.subnodes tree) ->
  _extract_python_function node lines class_name = Returns f ->
  python_function tree f
  /\ FunctionInfo.is_method f
     = match class_name with Some _ => true | None => false end
  /\ FunctionInfo.class_name f = class_name.
Proof.
  intros N X.
  destruct (extract_python_function_spec _ _ _ _ X) as (D & L & E & M & C).
  split; [split|split; assumption].
  - unfold positions_ok in tree_positions.
    rewrite forallb_forall in tree_positions.
    exact (span_ok_le node _ _ (tree_positions _ N) L E).
  - exists node. split; assumption.
Qed.

Lemma extracted_class (node : value) lines c :
  In node (ast.subnodes tree) ->
  _extract_python_class node lines = Returns c ->
  python_class tree c.
Proof.
  intros N X. unfold python_class.
  eapply List.Forall_impl; [|apply (extract_python_class_methods _ _ _ X)].
  cbn beta. intros m (item & Ii & R).
  assert (In item (ast.subnodes tree)) as Ni.
  { pose proof (iter_child_nodes_AST node) as A.
    rewrite List.Forall_forall in A.
    apply (subnodes_trans _ tree node (Nat.le_refl _) N).
    apply (subnodes_child _ _ Ii), subnodes_self, A, Ii. }
  destruct (extracted_function _ _ _ _ Ni R) as (F & M & C).
  split; [exact F|split; assumption].
Qed.

Lemma child_in_tree (node : value) :
  In node (ast.iter_child_nodes tree) -> In node (ast.subnodes tree).
Proof.
  intros C. pose proof (iter_child_nodes_AST tree) as A.
  rewrite List.Forall_forall in A.
  apply (subnodes_child _ _ C), subnodes_self, A, C.
Qed.

Lemma preserves_append_import (i : string) :
  preserves (python_store tree) (append_import i).
Proof. intros s H. exact H. Qed.

Lemma preserves_append_global_var (g : GlobalVar) :
  preserves (python_store tree) (append_global_var g).
Proof. intros s H. exact H. Qed.

Lemma preserves_append_function (f : FunctionInfo.t) :
  python_function tree f -> preserves (python_store tree) (append_function f).
Proof.
  intros F s [Hf Hc]. split; [|exact Hc]. cbn [append_function functions].
  apply List.Forall_app. split; [exact Hf|constructor; [exact F|constructor]].
Qed.

Lemma preserves_append_class (c : ClassInfo.t) :
  python_class tree c -> preserves (python_store tree) (append_class c).
Proof.
  intros C s [Hf Hc]. split; [exact Hf|]. cbn [append_class classes].
  apply List.Forall_app. split; [exact Hc|constructor; [exact C|constructor]].
Qed.

Lemma preserves_collect_imports (node : value) :
  preserves (python_store tree) (collect_imports node).
Proof.
  unfold collect_imports.
  destruct (ast.isinstance node "Import");
    [|destruct (ast.isinstance node "ImportFrom")].
  - apply preserves_sbind; [apply preserves_lift|]. intros names.
    apply preserves_for_each. intros alias _.
    apply preserves_sbind; [apply preserves_lift|]. intros nm.
    apply preserves_append_import.
  - apply preserves_sbind; [apply preserves_lift|]. intros module_field.
    apply preserves_sbind; [apply preserves_lift|]. intros names.
    apply preserves_for_each. intros alias _.
    apply preserves_sbind; [apply preserves_lift|]. intros nm.
    apply preserves_append_import.
  - apply preserves_sret.
Qed.

Lemma preserves_top_level (lines : list string) (node : value) :
  In node (ast.iter_child_nodes tree) ->
  preserves (python_store tree) (top_level lines node).
Proof.
  intros C. apply child_in_tree in C. unfold top_level.
  destruct (ast.isinstance node "FunctionDef"
            || ast.isinstance node "AsyncFunctionDef");
    [|destruct (ast.isinstance node "ClassDef");
      [|destruct (ast.isinstance node "Assign")]].
  - apply preserves_lift_bind. intros f X.
    apply preserves_append_function.
    apply (extracted_function _ _ _ _ C X).
  - apply preserves_lift_bind. intros c X.
    apply preserves_append_class. apply (extracted_class _ _ _ C X).
  - apply preserves_sbind; [apply preserves_lift|]. intros targets.
    apply preserves_for_each. intros target _.
    destruct (ast.isinstance target "Name"); [|apply preserves_sret].
    apply preserves_sbind; [apply preserves_lift|]. intros nm.
    apply preserves_sbind; [apply preserves_lift|]. intros line.
    apply preserves_sbind; [apply preserves_lift|]. intros v.
    apply preserves_append_global_var.
  - apply preserves_sret.
Qed.

End PythonParse.

(** *** Line numbers of the regex extractors *)

Lemma take_take (i j : nat) (s : string) :
  i <= j -> exists r, Py.take j s = Py.take i s +:+ r.
Proof.
  revert j s. induction i as [|i IH]; intros j s L.
  - exists (Py.take j s). destruct s; reflexivity.
  - destruct j as [|j]; [lia|]. destruct s as [|c s]; [exists ""; reflexivity|].
    destruct (IH j s) as [r R]; [lia|]. exists r. simpl. rewrite R.
    reflexivity.
Qed.

Lemma count_append_l (a r sub : string) :
  sub <> "" -> Py.count a sub <= Py.count (a +:+ r) sub.
Proof.
  intros N. rewrite !(count_nonempty _ _ N).
  pose proof (count_from_append_ge sub (length_nonempty _ N) a r 0). lia.
Qed.

Lemma line_of_mono (code : string) (i j : nat) :
  i <= j -> (line_of code i <= line_of code j)%Z.
Proof.
  intros L. unfold line_of. destruct (take_take i j code L) as [r ->].
  assert (N : String Py.LF "" <> "") by discriminate.
  pose proof (count_append_l (Py.take i code) r (String Py.LF "") N). lia.
Qed.

Lemma take_all (s : string) (k : nat) :
  String.length s <= k -> Py.take k s = s.
Proof.
  revert k. induction s as [|c s IH]; intros [|k] L; simpl in *;
    try reflexivity; try lia.
  rewrite IH by lia. reflexivity.
Qed.

Lemma line_of_le_full (code : string) (i : nat) :
  (line_of code i <= line_of code (String.length code))%Z.
Proof.
  destruct (le_lt_dec i (String.length code)) as [L|L].
  - apply line_of_mono, L.
  - unfold line_of. rewrite (take_all code i) by lia.
    rewrite (take_all code (String.length code)) by lia. lia.
Qed.

Lemma find_from_ge (sub s : string) (i start : nat) :
  Py.find_from sub s i start <> (-1)%Z ->
  (Z.of_nat start <= Py.find_from sub s i start)%Z.
Proof.
  revert i. induction s as [|c s IH]; intros i; cbn [Py.find_from].
  - destruct ((start <=? i) && String.prefix sub "") eqn:E; [|congruence].
    apply andb_true_iff in E as [E _]. apply Nat.leb_le in E. lia.
  - destruct ((start <=? i) && String.prefix sub (String c s)) eqn:E.
    + apply andb_true_iff in E as [E _]. apply Nat.leb_le in E. lia.
    + apply IH.
Qed.

Lemma brace_scan_ge (s : string) (i j : nat) (count : Z) :
  brace_scan s i count = Some j -> i <= j.
Proof.
  revert i count. induction s as [|c s IH]; intros i count H;
    cbn [brace_scan] in H; [discriminate|].
  destruct (Ascii.eqb c "{"); [apply IH in H; lia|].
  destruct (Ascii.eqb c "}"); [|apply IH in H; lia].
  destruct (count - 1 =? 0)%Z; [injection H as <-; lia|apply IH in H; lia].
Qed.

Section RegexEntities.
Context {engine : re.Engine}.

Lemma js_function_spec (code : string) (m : re.Match) :
  well_spanned (js_function code m)
  /\ FunctionInfo.parameters (js_function code m) = [].
Proof.
  split; [|unfold js_function;
           destruct (negb _); [destruct (_find_matching_brace _ _)|];
           reflexivity].
  unfold well_spanned, js_function.
  pose proof (find_from_ge "{" code 0 (re.start m)) as G.
  fold (Py.find code "{" (re.start m)) in G.
  destruct (Py.find code "{" (re.start m) =? -1)%Z eqn:F; cbn [negb].
  - cbn [FunctionInfo.start_line FunctionInfo.end_line]. lia.
  - apply Z.eqb_neq in F. specialize (G F).
    unfold _find_matching_brace.
    destruct (brace_scan _ _ 0) as [j|] eqn:B;
      cbn [FunctionInfo.start_line FunctionInfo.end_line].
    + apply brace_scan_ge in B. apply line_of_mono. lia.
    + apply line_of_le_full.
Qed.

Lemma blank_no_comma (s : string) :
  whitespace_only s = true -> Py.split "," s = [s].
Proof.
  unfold Py.split. induction s as [|c s IH]; [reflexivity|].
  cbn [whitespace_only Py.split_at]. intros W.
  apply andb_true_iff in W as [Wc W].
  destruct (Ascii.eqb "," c) eqn:E.
  - apply Ascii.eqb_eq in E. subst c. discriminate Wc.
  - rewrite (IH W). reflexivity.
Qed.

Lemma java_parameters_names (params : string) :
  map p_name (java_parameters params) = java_declared_names params.
Proof.
  unfold java_parameters, java_declared_names.
  destruct (Py.truthy (Py.strip params)) eqn:T.
  - induction (Py.split "," params) as [|d ds IH]; [reflexivity|].
    cbn [flat_map]. rewrite map_app, IH. f_equal.
    unfold java_param. destruct (2 <=? length _); reflexivity.
  - assert (W : whitespace_only params = true).
    { rewrite <- strip_blank, T. reflexivity. }
    rewrite (blank_no_comma _ W). cbn [flat_map].
    destruct (Py.strip params); [reflexivity|discriminate T].
Qed.

Lemma java_method_spec (code : string) (m : re.Match) (f : FunctionInfo.t) :
  In f (java_method code m) ->
  well_spanned f
  /\ map p_name (FunctionInfo.parameters f)
     = java_declared_names (re.group_str m 3).
Proof.
  unfold java_method. destruct (existsb _ _); [contradiction|].
  intros [<-|[]]. split.
  - unfold well_spanned. cbn [FunctionInfo.start_line FunctionInfo.end_line].
    lia.
  - apply java_parameters_names.
Qed.

End RegexEntities.

Section EntityInvariants.
Context {astlib : ast.Lib} {engine : re.Engine}.

Lemma parse_python_store (code : string) (tree : value) :
  ast.parse code = Returns tree ->
  positions_ok tree = true ->
  List.Forall (python_function tree) (ParseResult.functions (_parse_python code))
  /\ List.Forall (python_class tree) (ParseResult.classes (_parse_python code)).
Proof.
  intros P T.
  assert (K : preserves (python_store tree) (_parse_python_try code)).
  { unfold _parse_python_try. apply preserves_lift_bind. intros t Pt.
    assert (t = tree) as -> by congruence.
    apply preserves_sbind.
    { apply preserves_for_each. intros node _.
      apply preserves_collect_imports. }
    intros _. apply preserves_sbind; [|intros _; apply preserves_lift].
    apply preserves_for_each. intros node C.
    apply preserves_top_level; assumption. }
  specialize (K empty_store (conj (List.Forall_nil _) (List.Forall_nil _))).
  unfold _parse_python.
  destruct (_parse_python_try code empty_store) as [c s|[l m|k m] s];
    exact K.
Qed.

Lemma parse_python_raises (code : string) (e : exn) :
  ast.parse code = Raises e ->
  ParseResult.functions (_parse_python code) = []
  /\ ParseResult.classes (_parse_python code) = [].
Proof.
  intros P. unfold _parse_python.
  rewrite (parse_python_try_raises _ _ P). destruct e; split; reflexivity.
Qed.

(** C6.  Every function record [parse] produces, top-level or method and
    for every text and language, ends on or after the line it starts on and
    lists its parameters in the order of the declaration; every method of a
    class record has [is_method] set and the name of the class as
    [class_name].  For Python this relies on what the parser guarantees,
    [lineno <= end_lineno] on every node. *)
Theorem parse_entity_invariants (code language : string) :
  (forall tree, ast.parse code = Returns tree -> positions_ok tree = true) ->
  List.Forall
    (fun f => well_spanned f /\ in_declaration_order code language f)
    (ParseResult.functions (parse code language))
  /\ List.Forall
       (fun c =>
          List.Forall
            (fun m => well_spanned m /\ in_declaration_order code language m
                      /\ owned_by c m)
            (ClassInfo.methods c))
       (ParseResult.classes (parse code language)).
Proof.
  intros T. unfold parse.
  destruct (string_dec (Py.lower language) "python") as [L|N1].
  { rewrite L, parsers_python.
    destruct (ast.parse code) as [tree|e] eqn:P.
    - destruct (parse_python_store code tree P (T tree eq_refl)) as [F C].
      split.
      + eapply List.Forall_impl; [|exact F].
        intros f [W (node & I & D)]. split; [exact W|].
        left. split; [exact L|]. exists tree, node. repeat split; assumption.
      + eapply List.Forall_impl; [|exact C].
        intros c M. eapply List.Forall_impl; [|exact M].
        intros m [[W (node & I & D)] O].
        split; [exact W|split; [|exact O]].
        left. split; [exact L|]. exists tree, node. repeat split; assumption.
    - destruct (parse_python_raises code e P) as [-> ->].
      split; constructor. }
  assert (JS : forall fs cs,
             fs = ParseResult.functions (_parse_javascript code) ->
             cs = ParseResult.classes (_parse_javascript code) ->
             (Py.lower language = "javascript"
              \/ Py.lower language = "typescript") ->
             List.Forall
               (fun f => well_spanned f /\ in_declaration_order code language f)
               fs
             /\ List.Forall
                  (fun c =>
                     List.Forall
                       (fun m => well_spanned m
                                 /\ in_declaration_order code language m
                                 /\ owned_by c m)
                       (ClassInfo.methods c)) cs).
  { intros fs cs -> -> L. cbn [_parse_javascript ParseResult.functions
                               ParseResult.classes]. split.
    - apply List.Forall_forall. intros f I.
      apply in_flat_map in I as (pattern & _ & I).
      apply in_map_iff in I as (m & <- & _).
      destruct (js_function_spec code m) as [W E]. split; [exact W|].
      right. right. split; [exact L|]. cbn zeta. rewrite E. reflexivity.
    - apply List.Forall_forall. intros c I.
      apply in_map_iff in I as (m & <- & _). constructor. }
  destruct (string_dec (Py.lower language) "javascript") as [L|N2].
  { rewrite L, parsers_javascript. apply JS; try reflexivity. left. exact L. }
  destruct (string_dec (Py.lower language) "typescript") as [L|N3].
  { rewrite L, parsers_typescript. apply JS; try reflexivity. right. exact L. }
  destruct (string_dec (Py.lower language) "java") as [L|N4].
  { rewrite L, parsers_java.
    cbn [_parse_java ParseResult.functions ParseResult.classes]. split.
    - apply List.Forall_forall. intros f I.
      apply in_flat_map in I as (m & Im & I).
      destruct (java_method_spec code m f I) as [W E]. split; [exact W|].
      right. left. split; [exact L|]. exists m. split; assumption.
    - apply List.Forall_forall. intros c I.
      apply in_map_iff in I as (m & <- & _). constructor. }
  rewrite parsers_unsupported.
  - split; constructor.
  - simpl. intuition congruence.
Qed.

End EntityInvariants.

Lemma parse_entity_invariants_witness :
  (forall tree, @ast.parse sample.astlib sample.unit_code = Returns tree ->
                positions_ok tree = true)
  /\ List.Forall
       (fun c =>
          List.Forall
            (fun m => well_spanned m
                      /\ in_declaration_order (astlib := sample.astlib)
                           (engine := sample.engine) sample.unit_code
                           "python" m
                      /\ owned_by c m)
            (ClassInfo.methods c))
       (ParseResult.classes
          (parse (astlib := sample.astlib) (engine := sample.engine)
                 sample.unit_code "python")).
Proof.
  assert (T : forall tree,
             @ast.parse sample.astlib sample.unit_code = Returns tree ->
             positions_ok tree = true).
  { intros tree P. injection P as <-. reflexivity. }
  split; [exact T|].
  apply (parse_entity_invariants (astlib := sample.astlib)
           (engine := sample.engine) sample.unit_code "python" T).
Defined.

(** ** Dispatch: unsupported tags, casing variants, parse failures *)

(** [str.count] of a non-empty word counts its occurrences. *)
Lemma count_upto (fuel : nat) (text word : string) :
  word <> "" -> String.length text <= fuel ->
  Py.count_from word 0 text = occurrences_upto fuel text word.
Proof.
  intros N. revert text.
  induction fuel as [|fuel IH]; intros [|c rest] L; cbn [String.length] in L;
    try reflexivity; [lia|].
  cbn [Py.count_from occurrences_upto].
  destruct (String.prefix word (String c rest)) eqn:P.
  - destruct word as [|d w]; [congruence|].
    apply prefix_iff in P as [r R]. cbn [String.append] in R.
    injection R as -> ->.
    change (Py.drop (String.length (String d w)) (String d (w +:+ r)))
      with (Py.drop (String.length w) (w +:+ r)).
    rewrite drop_append. f_equal.
    rewrite count_from_skip by (cbn [String.length]; lia).
    replace (String.length (String d w) - 1 - String.length w) with 0
      by (cbn [String.length]; lia).
    apply IH. rewrite length_append in L. lia.
  - apply IH. lia.
Qed.

Lemma count_occurrences (text word : string) :
  word <> "" -> Py.count text word = occurrences text word.
Proof.
  intros N. unfold Py.count, occurrences.
  destruct word as [|d w]; [congruence|].
  apply count_upto; [exact N|lia].
Qed.

Lemma same_letter_lower (a b : ascii) :
  same_letter a b = true -> Py.lower_char a = Py.lower_char b.
Proof.
  unfold same_letter, Py.lower_char.
  pose proof (ascii_nat_embedding a) as Ea.
  pose proof (ascii_nat_embedding b) as Eb.
  set (m := nat_of_ascii a) in *. set (n := nat_of_ascii b) in *.
  clearbody m n.
  rewrite !orb_true_iff, !andb_true_iff, !Nat.leb_le, !Nat.eqb_eq.
  intros [[E|[[A B] E]]|[[A B] E]].
  - subst n. assert (a = b) as -> by congruence. reflexivity.
  - subst n.
    destruct (Nat.leb_spec 65 m); [|lia].
    destruct (Nat.leb_spec m 90); [|lia].
    destruct (Nat.leb_spec 65 (m + 32)); [|lia].
    destruct (Nat.leb_spec (m + 32) 90); [lia|].
    destruct (Nat.leb_spec 192 (m + 32)); [lia|]. exact Eb.
  - subst m.
    destruct (Nat.leb_spec 65 n); [|lia].
    destruct (Nat.leb_spec n 90); [|lia].
    destruct (Nat.leb_spec 65 (n + 32)); [|lia].
    destruct (Nat.leb_spec (n + 32) 90); [lia|].
    destruct (Nat.leb_spec 192 (n + 32)); [lia|]. symmetry. exact Ea.
Qed.

(** Casing variants have the same lower-case form. *)
Lemma casing_variant_lower (s t : string) :
  casing_variant s t = true -> Py.lower s = Py.lower t.
Proof.
  revert t. induction s as [|a s IH]; intros [|b t] V;
    try discriminate V; [reflexivity|].
  cbn [casing_variant] in V. apply andb_true_iff in V as [L V].
  cbn [Py.lower]. rewrite (same_letter_lower a b L), (IH t V). reflexivity.
Qed.

Section DispatchResults.
Context {astlib : ast.Lib} {engine : re.Engine}.

(** C8.  For every text and every language tag that is none of python,
    javascript, typescript and java once lowercased, [parse] returns (it has
    no raising path) a result with no function, class, import or global, one
    error string that names the lowercased tag, and the heuristic complexity
    [min(100, (1 + count) * 2)], where [count] adds up the occurrences in
    the text of the eleven keywords and operators. *)
Theorem parse_unsupported_language (code language : string) :
  ~ In (Py.lower language) ["python"; "javascript"; "typescript"; "java"] ->
  parse code language =
  {| ParseResult.language := Py.lower language;
     ParseResult.functions := [];
     ParseResult.classes := [];
     ParseResult.imports := [];
     ParseResult.global_variables := [];
     ParseResult.errors :=
       ["No specific parser for " +:+ Py.lower language
        +:+ ", using generic analysis"];
     ParseResult.complexity_score :=
       Z.min 100
         ((1 + Z.of_nat
                 (list_sum
                    (map (occurrences code)
                         ["if"; "else"; "for"; "while"; "switch"; "case";
                          "try"; "catch"; "&&"; "||"; "?"]))) * 2) |}.
Proof.
  intros N. unfold parse. rewrite (parsers_unsupported _ N).
  unfold _parse_generic. rewrite estimate_complexity_spec.
  unfold keyword_count, keywords. cbn [map].
  rewrite !count_occurrences by discriminate. reflexivity.
Qed.

(** C10.  [parse] looks the extractor up under the lowercased tag, so a
    casing variant of a supported tag selects the extractor of that tag,
    and tags that are casing variants of each other give the same result;
    under [typescript] it runs the JavaScript extractor and the result
    carries the language [javascript]. *)
Theorem parse_lowercases_tag (code language : string) :
  parse code language = parse code (Py.lower language)
  /\ (forall other, casing_variant language other = true ->
        parse code language = parse code other)
  /\ (casing_variant language "python" = true ->
        parse code language = _parse_python code)
  /\ (casing_variant language "javascript" = true ->
        parse code language = _parse_javascript code)
  /\ (casing_variant language "java" = true ->
        parse code language = _parse_java code)
  /\ (casing_variant language "typescript" = true ->
        parse code language = _parse_javascript code
        /\ ParseResult.language (parse code language) = "javascript")
  /\ (Py.lower language = "python" -> parse code language = _parse_python code)
  /\ (Py.lower language = "javascript" ->
        parse code language = _parse_javascript code)
  /\ (Py.lower language = "java" -> parse code language = _parse_java code)
  /\ (Py.lower language = "typescript" ->
        parse code language = _parse_javascript code
        /\ ParseResult.language (parse code language) = "javascript").
Proof.
  assert (L : forall tag, casing_variant language tag = true ->
                Py.lower tag = tag -> Py.lower language = tag).
  { intros tag V E. rewrite <- E. apply casing_variant_lower, V. }
  unfold parse. rewrite lower_idempotent.
  split; [reflexivity|].
  split; [intros other V; rewrite (casing_variant_lower _ _ V); reflexivity|].
  split; [intros V; rewrite (L _ V eq_refl); reflexivity|].
  split; [intros V; rewrite (L _ V eq_refl); reflexivity|].
  split; [intros V; rewrite (L _ V eq_refl); reflexivity|].
  split; [intros V; rewrite (L _ V eq_refl); split; reflexivity|].
  split; [intros ->; reflexivity|].
  split; [intros ->; reflexivity|].
  split; [intros ->; reflexivity|].
  intros ->. split; reflexivity.
Qed.

(** C9, as the code has it.  When [ast.parse] rejects the text, the
    exception is caught: [_parse_python] returns a result whose functions,
    classes, imports and globals are empty, whose complexity score is 0 and
    whose only error is "Syntax error at line <lineno>: <msg>" for a
    [SyntaxError], and "Parse error: <msg>", without a line, for any other
    exception. *)
Theorem parse_python_failure (code : string) (e : exn) :
  ast.parse code = Raises e ->
  parse code "python" =
  {| ParseResult.language := "python";
     ParseResult.functions := [];
     ParseResult.classes := [];
     ParseResult.imports := [];
     ParseResult.global_variables := [];
     ParseResult.errors :=
       [match e with
        | SyntaxError lineno msg =>
            "Syntax error at line " +:+ str_lineno lineno +:+ ": " +:+ msg
        | PyException _ msg => "Parse error: " +:+ msg
        end];
     ParseResult.complexity_score := 0 |}.
Proof.
  intros E. change (parse code "python") with (_parse_python code).
  unfold _parse_python. rewrite (parse_python_try_raises _ _ E).
  destruct e; reflexivity.
Qed.

End DispatchResults.

Lemma parse_unsupported_language_witness :
  ~ In (Py.lower "Rust") ["python"; "javascript"; "typescript"; "java"]
  /\ parse (astlib := sample.astlib) (engine := sample.engine)
           "if (a && b) { for }" "Rust"
     = {| ParseResult.language := "rust";
          ParseResult.functions := [];
          ParseResult.classes := [];
          ParseResult.imports := [];
          ParseResult.global_variables := [];
          ParseResult.errors :=
            ["No specific parser for rust, using generic analysis"];
          ParseResult.complexity_score := 8 |}.
Proof.
  assert (N : ~ In (Py.lower "Rust")
                   ["python"; "javascript"; "typescript"; "java"]).
  { simpl. intros [H|[H|[H|[H|[]]]]]; discriminate H. }
  split; [exact N|].
  rewrite (parse_unsupported_language (astlib := sample.astlib)
             (engine := sample.engine) "if (a && b) { for }" "Rust" N).
  reflexivity.
Defined.

Lemma parse_lowercases_tag_witness :
  parse (astlib := sample.astlib) (engine := sample.engine)
        sample.unit_code "PYTHON"
  = _parse_python (astlib := sample.astlib) sample.unit_code
  /\ parse (astlib := sample.astlib) (engine := sample.engine)
           "class A {}" "Java"
     = _parse_java (engine := sample.engine) "class A {}"
  /\ parse (astlib := sample.astlib) (engine := sample.engine)
           "let x = 1;" "JavaScript"
     = _parse_javascript (engine := sample.engine) "let x = 1;"
  /\ parse (astlib := sample.astlib) (engine := sample.engine)
           "let x = 1;" "TypeScript"
     = _parse_javascript (engine := sample.engine) "let x = 1;"
  /\ ParseResult.language
       (parse (astlib := sample.astlib) (engine := sample.engine)
              "let x = 1;" "TypeScript")
     = "javascript"
  /\ parse (astlib := sample.astlib) (engine := sample.engine)
           "let x = 1;" "typeScript"
     = parse (astlib := sample.astlib) (engine := sample.engine)
             "let x = 1;" "TYPESCRIPT".
Proof.
  pose proof (parse_lowercases_tag (astlib := sample.astlib)
                (engine := sample.engine) sample.unit_code "PYTHON")
    as (_ & _ & P & _).
  pose proof (parse_lowercases_tag (astlib := sample.astlib)
                (engine := sample.engine) "class A {}" "Java")
    as (_ & _ & _ & _ & J & _).
  pose proof (parse_lowercases_tag (astlib := sample.astlib)
                (engine := sample.engine) "let x = 1;" "JavaScript")
    as (_ & _ & _ & S & _).
  pose proof (parse_lowercases_tag (astlib := sample.astlib)
                (engine := sample.engine) "let x = 1;" "TypeScript")
    as (_ & _ & _ & _ & _ & T & _).
  pose proof (parse_lowercases_tag (astlib := sample.astlib)
                (engine := sample.engine) "let x = 1;" "typeScript")
    as (_ & V & _).
  split; [exact (P eq_refl)|]. split; [exact (J eq_refl)|].
  split; [exact (S eq_refl)|].
  split; [exact (proj1 (T eq_refl))|].
  split; [exact (proj2 (T eq_refl))|].
  exact (V "TYPESCRIPT" eq_refl).
Defined.

(** C9 as stated fails where the parser raises something else than a
    [SyntaxError]: a text with a null byte is refused with a [ValueError],
    and the diagnostic is "Parse error: <msg>", which carries no line. *)
Lemma parse_python_failure_counterexample :
  @ast.parse sample.astlib sample.null_code
  = Raises (PyException "ValueError"
              "source code string cannot contain null bytes")
  /\ ParseResult.errors
       (parse (astlib := sample.astlib) (engine := sample.engine)
              sample.null_code "python")
     = ["Parse error: source code string cannot contain null bytes"]
  /\ ~ (exists lineno msg,
          ParseResult.errors
            (parse (astlib := sample.astlib) (engine := sample.engine)
                   sample.null_code "python")
          = ["Syntax error at line " +:+ str_lineno lineno +:+ ": " +:+ msg]).
Proof.
  split; [reflexivity|]. split; [reflexivity|].
  intros (lineno & msg & E). vm_compute in E. discriminate E.
Qed.

Lemma parse_python_failure_witness :
  @ast.parse sample.astlib sample.broken_code
  = Raises (SyntaxError (Some 1%Z) "invalid syntax")
  /\ parse (astlib := sample.astlib) (engine := sample.engine)
           sample.broken_code "python"
     = {| ParseResult.language := "python";
          ParseResult.functions := [];
          ParseResult.classes := [];
          ParseResult.imports := [];
          ParseResult.global_variables := [];
          ParseResult.errors := ["Syntax error at line 1: invalid syntax"];
          ParseResult.complexity_score := 0 |}
  /\ ParseResult.errors
       (parse (astlib := sample.astlib) (engine := sample.engine)
              sample.null_code "python")
     = ["Parse error: source code string cannot contain null bytes"].
Proof.
  split; [reflexivity|]. split.
  - rewrite (parse_python_failure (astlib := sample.astlib)
               (engine := sample.engine) sample.broken_code _ eq_refl).
    reflexivity.
  - rewrite (parse_python_failure (astlib := sample.astlib)
               (engine := sample.engine) sample.null_code _ eq_refl).
    reflexivity.
Defined.

(** ** Runs on the sample trees and texts *)

Section Runs.
Import sample.

(** [ast.walk] is breadth first. *)
Example walk_and_tree :
  map (fun node => match node with VNode cls _ _ => cls | _ => "" end)
      (ast.walk and_tree)
  = ["Module"; "Expr"; "BoolOp"; "And"; "Name"; "Name"; "Load"; "Load"].
Proof. reflexivity. Qed.

Example parse_unit_code :
  let r := parse unit_code "Python" in
  map FunctionInfo.signature (ParseResult.functions r) = ["def f(x, y = 1)"]
  /\ map FunctionInfo.body (ParseResult.functions r)
     = ["def f(x, y=1):" +:+ String Py.LF "" +:+ "    return x"]
  /\ map ClassInfo.name (ParseResult.classes r) = ["C"]
  /\ ParseResult.errors r = []
  /\ ParseResult.complexity_score r = 5%Z.
Proof. repeat split. Qed.

(** Valid Python on which the extraction of the defaults raises: the
    handler reports it and the score is 0. *)
Example parse_posonly_code :
  parse posonly_code "python"
  = {| ParseResult.language := "python";
       ParseResult.functions := [];
       ParseResult.classes := [];
       ParseResult.imports := [];
       ParseResult.global_variables := [];
       ParseResult.errors := ["Parse error: list index out of range"];
       ParseResult.complexity_score := 0 |}.
Proof. reflexivity. Qed.

Example metrics_three_lines :
  let m := get_code_metrics
             ("# note" +:+ String Py.LF "" +:+ "  " +:+ String Py.LF ""
              +:+ "x = 1") "ruby" in
  (total_lines m, code_lines m, blank_lines m, comment_lines m)
  = (3, 1, 1, 1)%Z.
Proof. reflexivity. Qed.

Example find_matching_brace_nested :
  _find_matching_brace "f() { if (a) { b } } c" 4 = ("{ if (a) { b } }", 19).
Proof. reflexivity. Qed.

Example find_matching_brace_open :
  _find_matching_brace "f() { if (a) {" 4 = ("{ if (a) {", 14).
Proof. reflexivity. Qed.

(** [str.count] takes occurrences from the left, without overlap, and
    [str.lower] touches upper-case letters only. *)
Example count_without_overlap :
  Py.count "aaaa" "aa" = 2 /\ Py.count "if (a && b) { for }" "&&" = 1
  /\ Py.count "elif x: else" "if" = 1 /\ occurrences "a?b?c" "?" = 2.
Proof. repeat split. Qed.

Example lower_tags :
  Py.lower "TypeScript" = "typescript" /\ Py.lower "C++ 17" = "c++ 17"
  /\ casing_variant "JAVA" "java" = true
  /\ casing_variant "java" "javascript" = false.
Proof. repeat split. Qed.

(** A severity outside the table weighs 0.2. *)
Example fuse_unknown_severity :
  binary64.fuse [section_of "critical"] (binary64.of_Q 0.5)
  = (binary64.of_Q 0.224, "low").
Proof. vm_compute. reflexivity. Qed.

(** A score just under 0.4 is "low" and is returned as 0.4. *)
Example binary64_rounding :
  binary64.fuse [] (binary64.of_Q 0.999) = (binary64.of_Q 0.4, "low").
Proof. vm_compute. reflexivity. Qed.

Example binary64_three_sections :
  binary64.fuse (map section_of ["error"; "security"; "info"])
                (binary64.of_Q 0.5)
  = (binary64.of_Q 0.452, "medium").
Proof. vm_compute. reflexivity. Qed.

(** The products and sums round: [0.4 * 0.00125] is the double above
    0.0005 and goes up to 0.001, and [0.4 * 0.7 + 0.6 * 0.2] is the double
    below 0.4, so the level is "low" where the exact sum 0.4 would be
    "medium". *)
Example binary64_above_tie :
  binary64.fuse [] (binary64.of_Q 0.00125) = (binary64.of_Q 0.001, "low").
Proof. vm_compute. reflexivity. Qed.

Example binary64_below_threshold :
  binary64.fuse [section_of "error"] (binary64.of_Q 0.7)
  = (binary64.of_Q 0.4, "low").
Proof. vm_compute. reflexivity. Qed.

(** Without a fitted model and with nothing flagged: [0.4 * 0.5] is the
    double 0.2. *)
Example binary64_neutral :
  binary64.fuse [] (binary64.of_Q 0.5) = (binary64.of_Q 0.2, "low").
Proof. vm_compute. reflexivity. Qed.

(** A classifier score that is not a number is clamped to 0.0:
    [max(0.0, nan)] keeps its first argument. *)
Example binary64_nan :
  binary64.fuse [section_of "error"] PrimFloat.nan = (binary64.of_Q 0, "low").
Proof. vm_compute. reflexivity. Qed.

End Runs.

(** * Further properties of the services *)

(** ** The severity summary *)

Lemma summary_fold (sections : list FlaggedSection) (m : gmap string Z)
    (k : string) :
  fold_left (fun summary section =>
               let sev := severity section in
               <[ sev := (default 0 (summary !! sev) + 1)%Z ]> summary)
            sections m !! k
  = if bool_decide (is_Some (m !! k)) || existsb (with_severity k) sections
    then Some (default 0 (m !! k) + count_if (with_severity k) sections)%Z
    else None.
Proof.
  revert m. induction sections as [|section sections IH]; intros m.
  - cbn [fold_left existsb]. rewrite orb_false_r.
    unfold count_if. cbn [List.filter length].
    destruct (m !! k) as [z|] eqn:E.
    + rewrite bool_decide_eq_true_2 by eauto. cbn [default from_option id]. f_equal. lia.
    + rewrite bool_decide_eq_false_2; [reflexivity|].
      intros [z Hz]. discriminate Hz.
  - cbn [fold_left existsb]. rewrite IH, count_if_cons.
    destruct (with_severity k section) eqn:W; unfold with_severity in W.
    + apply String.eqb_eq in W. rewrite W, lookup_insert_eq.
      cbn [default from_option id orb].
      rewrite bool_decide_eq_true_2 by eauto. rewrite orb_true_r.
      f_equal. lia.
    + apply String.eqb_neq in W. rewrite lookup_insert_ne by exact W.
      cbn [orb].
      destruct (bool_decide (is_Some (m !! k))
                || existsb (with_severity k) sections); [f_equal; lia|].
      reflexivity.
Qed.

(** X1: the entry of the summary for a severity is the number of sections
    that carry it; the five documented severities always have an entry,
    another severity has one as soon as a section carries it. *)
Theorem severity_summary_counts (flagged_sections : list FlaggedSection)
    (k : string) :
  get_severity_summary flagged_sections !! k
  = if existsb (String.eqb k) severity_tags
       || existsb (with_severity k) flagged_sections
    then Some (count_if (with_severity k) flagged_sections)
    else None.
Proof.
  unfold get_severity_summary. rewrite summary_fold.
  set (m := ({[ "error" := 0%Z; "security" := 0%Z; "warning" := 0%Z;
                "info" := 0%Z; "suggestion" := 0%Z ]} : gmap string Z)).
  assert (L : m !! k = if existsb (String.eqb k) severity_tags
                       then Some 0%Z else None).
  { unfold m, severity_tags. cbn [existsb].
    repeat match goal with
    | |- context [String.eqb k ?t] =>
        destruct (String.eqb_spec k t) as [->|?];
        [vm_compute; reflexivity|]
    end.
    cbn [orb].
    repeat (rewrite lookup_insert_ne by congruence).
    rewrite lookup_singleton_ne by congruence. reflexivity. }
  rewrite L.
  destruct (existsb (String.eqb k) severity_tags).
  - rewrite bool_decide_eq_true_2 by eauto. cbn [default from_option id orb]. f_equal; lia.
  - rewrite bool_decide_eq_false_2 by (intros [z Hz]; discriminate Hz).
    cbn [default from_option id orb].
    destruct (existsb (with_severity k) flagged_sections); [f_equal; lia|].
    reflexivity.
Qed.

Lemma analyze_severities `{engine : re.Engine} (self : DefectClassifier)
    (code language : string) :
  List.Forall (fun section => exists sev, severity section = tag sev)
              (flagged_sections (analyze self code language)).
Proof.
  apply List.Forall_forall. intros section I.
  unfold analyze, fuse in I. cbn [flagged_sections] in I.
  apply in_flat_map in I as (rule & R & I).
  apply rule_hits_severity in I.
  assert (C : In rule catalog).
  { apply in_app_or in R as [R|R]; eapply anti_patterns_catalog; exact R. }
  pose proof catalog_severities as S. rewrite forallb_forall in S.
  specialize (S rule C).
  destruct (severity_of_tag (snd rule)) as [sev|] eqn:T; [|discriminate S].
  exists sev. rewrite I. apply severity_of_tag_sound, T.
Qed.

Lemma severity_counts_total (sections : list FlaggedSection) :
  List.Forall (fun section => exists sev, severity section = tag sev)
              sections ->
  sumZ (map (fun k => count_if (with_severity k) sections) severity_tags)
  = Z.of_nat (length sections).
Proof.
  induction 1 as [|section sections [sev E] _ IH].
  - reflexivity.
  - unfold severity_tags in *. cbn [map sumZ fold_right] in *.
    rewrite !count_if_cons. unfold with_severity at 1 3 5 7 9.
    rewrite E. cbn [length]. destruct sev; cbn; lia.
Qed.

(** X2: the summary of the sections [analyze] flags has the five
    documented severities as its only keys, and its counts add up to the
    number of flagged sections. *)
Theorem analyze_severity_summary `{engine : re.Engine}
    (self : DefectClassifier) (code language : string) :
  let r := analyze self code language in
  let summary := get_severity_summary (flagged_sections r) in
  (forall k, is_Some (summary !! k) <-> In k severity_tags)
  /\ sumZ (map (fun k => default 0%Z (summary !! k)) severity_tags)
     = Z.of_nat (length (flagged_sections r)).
Proof.
  intros r summary.
  pose proof (analyze_severities self code language) as F. fold r in F.
  split.
  - intros k. unfold summary. rewrite severity_summary_counts.
    destruct (existsb (String.eqb k) severity_tags) eqn:T.
    + cbn [orb]. split; [intros _|eauto].
      apply existsb_exists in T as (t & I & T).
      apply String.eqb_eq in T. subst t. exact I.
    + cbn [orb].
      destruct (existsb (with_severity k) (flagged_sections r)) eqn:W.
      * exfalso. apply existsb_exists in W as (section & I & W).
        rewrite List.Forall_forall in F. destruct (F section I) as [sev E].
        unfold with_severity in W. apply String.eqb_eq in W.
        rewrite E in W. subst k. destruct sev; discriminate T.
      * split; [intros [z Hz]; discriminate Hz|].
        intros I. exfalso.
        assert (X : existsb (String.eqb k) severity_tags = true)
          by (apply existsb_exists; exists k; split;
              [exact I|apply String.eqb_refl]).
        congruence.
  - rewrite <- (severity_counts_total _ F). f_equal.
    apply map_ext_in. intros k I. unfold summary.
    rewrite severity_summary_counts.
    assert (X : existsb (String.eqb k) severity_tags = true)
      by (apply existsb_exists; exists k; split;
          [exact I|apply String.eqb_refl]).
    rewrite X. reflexivity.
Qed.

(** ** The pattern scan of [analyze] *)

Lemma in_combine_seq {A} (l : list A) (a i : nat) (x : A) :
  In (i, x) (combine (seq a (length l)) l)
  <-> a <= i /\ nth_error l (i - a) = Some x.
Proof.
  revert a. induction l as [|y l IH]; intros a; cbn [length seq combine].
  - split; [intros []|]. intros [_ H]. destruct (i - a); discriminate H.
  - cbn [In]. rewrite IH. split.
    + intros [E|[L H]].
      * injection E as <- <-. split; [lia|].
        replace (a - a) with 0 by lia. reflexivity.
      * split; [lia|]. replace (i - a) with (S (i - S a)) by lia. exact H.
    + intros [L H]. destruct (i - a) as [|k] eqn:D.
      * left. injection H as <-. f_equal. lia.
      * right. split; [lia|]. replace (i - S a) with k by lia. exact H.
Qed.

Lemma in_enumerate {A} (l : list A) (i : nat) (x : A) :
  In (i, x) (enumerate l) <-> nth_error l i = Some x.
Proof.
  unfold enumerate. rewrite in_combine_seq, Nat.sub_0_r.
  split; [tauto|]. intros H. split; [lia|exact H].
Qed.

(** X3: [analyze] flags exactly the pairs of a rule of the language's table
    or of the general table and a line the rule's pattern is found in; the
    section records the line number (from 1), the stripped line and the
    rule.  The language tag is looked up as given. *)
Theorem analyze_flags_exactly `{engine : re.Engine} (self : DefectClassifier)
    (code language : string) (section : FlaggedSection) :
  let lines := Py.split Py.LF code in
  (In section (flagged_sections (analyze self code language))
   <-> exists pattern message sev i text,
         In (pattern, message, sev)
            (default [] (anti_patterns !! language) ++ general_rules)
         /\ nth_error lines i = Some text
         /\ re.search_ignorecase pattern text = true
         /\ section = {| line := Z.of_nat i + 1;
                         code := Py.strip text;
                         issue := message;
                         severity := sev;
                         pattern := pattern |})
  /\ (In section (flagged_sections (analyze self code language)) ->
        (1 <= line section <= Z.of_nat (length lines))%Z).
Proof.
  intros lines.
  assert (G : default [] (anti_patterns !! "general") = general_rules)
    by reflexivity.
  assert (C : In section (flagged_sections (analyze self code language))
              <-> exists pattern message sev i text,
                    In (pattern, message, sev)
                       (default [] (anti_patterns !! language)
                        ++ general_rules)
                    /\ nth_error lines i = Some text
                    /\ re.search_ignorecase pattern text = true
                    /\ section = {| line := Z.of_nat i + 1;
                                    code := Py.strip text;
                                    issue := message;
                                    severity := sev;
                                    pattern := pattern |}).
  { unfold analyze, fuse. cbn [flagged_sections]. rewrite G.
    fold lines. rewrite in_flat_map. split.
    - intros ([[p m] s] & R & I). unfold rule_hits in I.
      apply in_flat_map in I as ([i text] & E & I).
      apply in_enumerate in E.
      destruct (re.search_ignorecase p text) eqn:S; [|contradiction].
      destruct I as [<-|[]]. exists p, m, s, i, text. tauto.
    - intros (p & m & s & i & text & R & E & S & ->).
      exists (p, m, s). split; [exact R|]. unfold rule_hits.
      apply in_flat_map. exists (i, text). split.
      + apply in_enumerate, E.
      + rewrite S. left. reflexivity. }
  split; [exact C|].
  intros I. apply C in I as (p & m & s & i & text & _ & E & _ & ->).
  cbn [line]. assert (i < length lines) by (apply nth_error_Some; congruence).
  lia.
Qed.

(** X4: the rule tables are looked up with the tag as given, without
    folding its case: a tag other than the four keys of the table gets the
    general rules only, and the tag "general" gets them twice. *)
Theorem analyze_rule_tables `{engine : re.Engine} (self : DefectClassifier)
    (code : string) :
  let general := flat_map (rule_hits (Py.split Py.LF code)) general_rules in
  (forall language,
     ~ In language ["python"; "javascript"; "java"; "general"] ->
     flagged_sections (analyze self code language) = general)
  /\ flagged_sections (analyze self code "general") = general ++ general.
Proof.
  intros general. split.
  - intros language N. unfold analyze, fuse. cbn [flagged_sections].
    assert (L : anti_patterns !! language = None).
    { unfold anti_patterns. cbn [In] in N.
      repeat (rewrite lookup_insert_ne by (intros <-; tauto)).
      apply lookup_singleton_ne. intros <-. tauto. }
    rewrite L. reflexivity.
  - unfold analyze, fuse. cbn [flagged_sections].
    change (default [] (anti_patterns !! "general")) with general_rules.
    apply flat_map_app.
Qed.

Lemma analyze_rule_tables_witness :
  ~ In "Python" ["python"; "javascript"; "java"; "general"]
  /\ map issue
       (flagged_sections
          (analyze (engine := literal.engine) (untrained failing_model)
                   "pwd = input()  # TODO" "Python"))
     = ["Potential password handling"; "Unfinished code marker"].
Proof.
  split.
  - cbn [In]. intros [H|[H|[H|[H|[]]]]]; discriminate H.
  - rewrite (proj1 (analyze_rule_tables (engine := literal.engine)
                      (untrained failing_model) "pwd = input()  # TODO")
               "Python").
    + reflexivity.
    + cbn [In]. intros [H|[H|[H|[H|[]]]]]; discriminate H.
Defined.

(** ** The fusion is monotone *)



(** The weight a section adds to the pattern score. *)
Lemma section_weight_positive (sev : string) :
  (0 < default 0.2 (severity_weights !! sev))%Q.
Proof.
  unfold severity_weights.
  repeat match goal with
  | |- context [<[ ?t := _ ]> _ !! sev] =>
      destruct (decide (sev = t)) as [->|?];
      [vm_compute; reflexivity|rewrite lookup_insert_ne by congruence]
  end.
  destruct (decide (sev = "suggestion")) as [->|?];
    [vm_compute; reflexivity|rewrite lookup_singleton_ne by congruence].
  reflexivity.
Qed.

Lemma pattern_fold_acc (sections : list FlaggedSection) (acc : Q) :
  fold_left (fun pattern_score section =>
               pattern_score
               + default 0.2 (severity_weights !! severity section))%Q
            sections acc
  == acc + fold_left (fun pattern_score section =>
                        pattern_score
                        + default 0.2 (severity_weights !! severity section))%Q
                     sections 0%Q.
Proof.
  revert acc. induction sections as [|s l IH]; intros acc; cbn [fold_left].
  - lra.
  - rewrite (IH (acc + _)%Q), (IH (0 + _)%Q). lra.
Qed.

Lemma pattern_fold_nonneg (sections : list FlaggedSection) :
  (0 <= fold_left (fun pattern_score section =>
                     pattern_score
                     + default 0.2 (severity_weights !! severity section))%Q
                  sections 0%Q)%Q.
Proof.
  induction sections as [|s l IH]; cbn [fold_left]; [lra|].
  rewrite pattern_fold_acc.
  pose proof (section_weight_positive (severity s)). lra.
Qed.



(** ** Code smells *)

Lemma lstrip_length_le (s : string) :
  String.length (Py.lstrip s) <= String.length s.
Proof.
  induction s as [|c s IH]; cbn [Py.lstrip String.length]; [lia|].
  destruct (Py.isspace c); cbn [String.length]; lia.
Qed.

Lemma leading_space (n : nat) (s : string) :
  n <= String.length s - String.length (Py.lstrip s)
  <-> indented_by n s = true.
Proof.
  unfold indented_by. revert n.
  induction s as [|c s IH]; intros n.
  - cbn [Py.lstrip String.length]. destruct n; cbn; [|split; [lia|discriminate]].
    split; [reflexivity|lia].
  - pose proof (lstrip_length_le s) as L.
    destruct n as [|n].
    + cbn [Py.take whitespace_only Nat.leb andb]. split; [reflexivity|lia].
    + cbn [Py.lstrip Py.take whitespace_only String.length Nat.leb].
      specialize (IH n).
      destruct (Py.isspace c); cbn [andb String.length].
      * rewrite <- IH. lia.
      * rewrite andb_false_r. split; [lia|discriminate].
Qed.

Lemma flat_map_nil {A B} (f : A -> list B) (l : list A) :
  flat_map f l = [] <-> List.Forall (fun x => f x = []) l.
Proof.
  induction l as [|x l IH]; cbn [flat_map].
  - split; [constructor|reflexivity].
  - split.
    + intros E. apply app_eq_nil in E as [E1 E2].
      constructor; [exact E1|apply IH, E2].
    + intros F. inversion F as [|? ? E1 E2]; subst.
      rewrite E1. apply IH, E2.
Qed.

Lemma forall_enumerate {A} (P : nat -> A -> Prop) (l : list A) :
  List.Forall (fun '(i, x) => P i x) (enumerate l)
  <-> (forall i x, nth_error l i = Some x -> P i x).
Proof.
  rewrite List.Forall_forall. split.
  - intros H i x E. apply (H (i, x)), in_enumerate, E.
  - intros H [i x] I. apply H, in_enumerate, I.
Qed.

(** X7: [_detect_code_smells] reports nothing exactly when every line has
    at most 120 characters, starts with fewer than 20 white-space
    characters (a tab counts as one) and holds at most 3 matches of the
    operator pattern. *)
Theorem detect_code_smells_clean `{engine : re.Engine} (code : string)
    (lines : list string) :
  _detect_code_smells code lines = []
  <-> List.Forall
        (fun text =>
           String.length text <= 120
           /\ indented_by 20 text = false
           /\ length (re.findall complex_pattern true text) <= 3)
        lines.
Proof.
  unfold _detect_code_smells.
  change (fst (code_smell "long_line")) with 120%Z.
  change (fst (code_smell "deep_nesting")) with 4%Z.
  change (fst (code_smell "complex_condition")) with 3%Z.
  split.
  - intros E. apply app_eq_nil in E as [E1 E]. apply app_eq_nil in E as [E2 E3].
    rewrite flat_map_nil in E1, E2, E3.
    apply List.Forall_forall. intros text I.
    apply In_nth_error in I as [i I].
    rewrite List.Forall_forall in E1, E2, E3.
    apply in_enumerate in I.
    specialize (E1 _ I). specialize (E2 _ I). specialize (E3 _ I).
    cbn beta iota in E1, E2, E3.
    repeat split.
    + destruct (120 <? Z.of_nat (String.length text))%Z eqn:C;
        [discriminate E1|]. apply Z.ltb_ge in C. lia.
    + destruct (indented_by 20 text) eqn:D; [|reflexivity].
      apply leading_space in D. pose proof (lstrip_length_le text) as L.
      match type of E2 with
      | (if ?b then _ else _) = _ => destruct b eqn:C; [discriminate E2|]
      end.
      apply Z.ltb_ge in C. exfalso.
      assert (20 <= Z.of_nat (String.length text)
                    - Z.of_nat (String.length (Py.lstrip text)))%Z by lia.
      assert (5 <= (Z.of_nat (String.length text)
                    - Z.of_nat (String.length (Py.lstrip text))) / 4)%Z
        by (apply Z.div_le_lower_bound; lia).
      lia.
    + match type of E3 with
      | (if ?b then _ else _) = _ => destruct b eqn:C; [discriminate E3|]
      end.
      apply Z.ltb_ge in C. lia.
  - intros F. rewrite List.Forall_forall in F.
    assert (N : forall (f : nat * string -> list string),
               (forall i text, In text lines -> f (i, text) = []) ->
               flat_map f (enumerate lines) = []).
    { intros f H. apply flat_map_nil, List.Forall_forall.
      intros [i text] I. apply H. apply in_enumerate in I.
      eapply nth_error_In, I. }
    rewrite !N; [reflexivity| | |].
    + intros i text I. destruct (F _ I) as (_ & _ & C).
      destruct (Z.ltb_spec 3 (Z.of_nat
                  (length (re.findall complex_pattern true text))));
        [lia|reflexivity].
    + intros i text I. destruct (F _ I) as (_ & D & _).
      pose proof (lstrip_length_le text) as L.
      match goal with
      | |- (if ?b then _ else _) = _ => destruct b eqn:C; [|reflexivity]
      end.
      apply Z.ltb_lt in C. exfalso.
      assert (X : indented_by 20 text = true); [|congruence].
      apply leading_space.
      assert ((Z.of_nat (String.length text)
               - Z.of_nat (String.length (Py.lstrip text))) / 4 < 5
              \/ 20 <= Z.of_nat (String.length text)
                       - Z.of_nat (String.length (Py.lstrip text)))%Z
        as [Y|Y]; [|lia|lia].
      destruct (Z.lt_ge_cases
                  (Z.of_nat (String.length text)
                   - Z.of_nat (String.length (Py.lstrip text))) 20);
        [left; apply Z.div_lt_upper_bound; lia|right; lia].
    + intros i text I. destruct (F _ I) as (C & _ & _).
      destruct (Z.ltb_spec 120 (Z.of_nat (String.length text)));
        [lia|reflexivity].
Qed.

(** ** Matching braces *)

Lemma count_char_cons (c d : ascii) (s : string) :
  Py.count (String c s) (String d "")
  = (if Ascii.eqb d c then 1 else 0) + Py.count s (String d "").
Proof.
  unfold Py.count. cbn [Py.count_from String.prefix String.length Nat.sub].
  destruct (Ascii.ascii_dec d c) as [->|N].
  - rewrite Ascii.eqb_refl. destruct s; reflexivity.
  - apply Ascii.eqb_neq in N. rewrite N. reflexivity.
Qed.

(** Opening minus closing braces. *)
Local Abbreviation depth s :=
  (Z.of_nat (Py.count s "{") - Z.of_nat (Py.count s "}"))%Z.

Lemma depth_cons (c : ascii) (s : string) :
  depth (String c s)
  = ((if Ascii.eqb c "{" then 1 else if Ascii.eqb c "}" then -1 else 0)
     + depth s)%Z.
Proof.
  rewrite !count_char_cons.
  rewrite (Ascii.eqb_sym "{" c), (Ascii.eqb_sym "}" c).
  destruct (Ascii.eqb_spec c "{") as [->|N1]; [cbn; lia|].
  destruct (Ascii.eqb c "}"); lia.
Qed.

Lemma brace_scan_spec (s : string) (i : nat) (count : Z) :
  match brace_scan s i count with
  | Some j =>
      i <= j /\ String.get (j - i) s = Some "}"%char
      /\ (count + depth (Py.take (j - i + 1) s) = 0)%Z
      /\ (forall k, k < j - i -> String.get k s = Some "}"%char ->
            (count + depth (Py.take (k + 1) s) <> 0)%Z)
  | None =>
      forall k, String.get k s = Some "}"%char ->
        (count + depth (Py.take (k + 1) s) <> 0)%Z
  end.
Proof.
  revert i count. induction s as [|c s IH]; intros i count.
  - cbn [brace_scan]. intros k H. destruct k; discriminate H.
  - cbn [brace_scan].
    assert (R : forall count' : Z,
               (count' = count
                         + (if Ascii.eqb c "{" then 1
                            else if Ascii.eqb c "}" then -1 else 0))%Z ->
               (Ascii.eqb c "}" = true -> count' <> 0%Z) ->
               match brace_scan s (S i) count' with
               | Some j =>
                   i <= j /\ String.get (j - i) (String c s) = Some "}"%char
                   /\ (count + depth (Py.take (j - i + 1) (String c s)) = 0)%Z
                   /\ (forall k, k < j - i ->
                         String.get k (String c s) = Some "}"%char ->
                         (count + depth (Py.take (k + 1) (String c s)) <> 0)%Z)
               | None =>
                   forall k, String.get k (String c s) = Some "}"%char ->
                     (count + depth (Py.take (k + 1) (String c s)) <> 0)%Z
               end).
    { intros count' E N. specialize (IH (S i) count').
      assert (Z0 : Ascii.eqb c "}" = true ->
                   (count + depth (Py.take 1 (String c s)) <> 0)%Z).
      { intros C. specialize (N C). cbn [Py.take].
        replace (Py.take 0 s) with EmptyString by (destruct s; reflexivity).
        rewrite depth_cons. cbn [Py.count Py.count_from] in *. lia. }
      destruct (brace_scan s (S i) count') as [j|].
      - destruct IH as (L & G & D & M).
        replace (j - i) with (S (j - S i)) by lia.
        split; [lia|]. split; [exact G|]. split.
        + cbn [Nat.add Py.take]. rewrite depth_cons. lia.
        + intros [|k] Hk Hg.
          * apply Z0. cbn [String.get] in Hg. injection Hg as ->. reflexivity.
          * cbn [Nat.add Py.take]. rewrite depth_cons.
            cbn [String.get] in Hg.
            specialize (M k ltac:(lia) Hg). lia.
      - intros [|k] Hg.
        + apply Z0. cbn [String.get] in Hg. injection Hg as ->. reflexivity.
        + cbn [Nat.add Py.take]. rewrite depth_cons.
          cbn [String.get] in Hg. specialize (IH k Hg). lia. }
    destruct (Ascii.eqb_spec c "{") as [->|N1].
    + apply R; [reflexivity|discriminate].
    + destruct (Ascii.eqb_spec c "}") as [->|N2].
      * destruct (Z.eqb_spec (count - 1) 0) as [E|N].
        -- replace (i - i) with 0 by lia. split; [lia|].
           split; [reflexivity|]. split; [|intros k Hk; lia].
           cbn [Nat.add Py.take].
           replace (Py.take 0 s) with EmptyString by (destruct s; reflexivity).
           rewrite depth_cons. cbn. lia.
        -- apply R; [reflexivity|intros _; exact N].
      * apply R; [cbn; lia|discriminate].
Qed.

Lemma get_drop (n k : nat) (s : string) :
  String.get k (Py.drop n s) = String.get (n + k) s.
Proof.
  revert s. induction n as [|n IH]; intros s; [reflexivity|].
  destruct s as [|c s]; cbn [Py.drop Nat.add String.get].
  - destruct k; reflexivity.
  - apply IH.
Qed.

Lemma get_some_length (k : nat) (s : string) (c : ascii) :
  String.get k s = Some c -> k < String.length s.
Proof.
  revert k. induction s as [|d s IH]; intros k H.
  - destruct k; discriminate H.
  - destruct k as [|k]; cbn [String.length]; [lia|].
    cbn [String.get] in H. apply IH in H. lia.
Qed.

(** X8: [_find_matching_brace] stops at the first closing brace after
    which the braces met since [start] balance, and returns the text from
    [start] up to and including it; when there is no such brace it returns
    the rest of the text and the length of the text. *)
Theorem find_matching_brace_spec (code : string) (start : nat) :
  let body := fst (_find_matching_brace code start) in
  let e := snd (_find_matching_brace code start) in
  let closes j :=
    String.get j code = Some "}"%char
    /\ balanced (str.slice code start (j + 1)) in
  (e < String.length code
   /\ start <= e /\ body = str.slice code start (e + 1)
   /\ closes e /\ (forall j, start <= j < e -> ~ closes j))
  \/ (e = String.length code
      /\ body = Py.drop start code
      /\ (forall j, start <= j -> ~ closes j)).
Proof.
  unfold _find_matching_brace, balanced, str.slice.
  pose proof (brace_scan_spec (Py.drop start code) start 0) as H.
  destruct (brace_scan (Py.drop start code) start 0) as [j|];
    cbn [fst snd].
  - left. destruct H as (L & G & D & M).
    rewrite get_drop in G. replace (start + (j - start)) with j in G by lia.
    split; [eapply get_some_length, G|]. split; [exact L|].
    replace (j + 1 - start) with (j - start + 1) by lia.
    split; [reflexivity|]. split.
    + split; [exact G|]. lia.
    + intros k [Lk Uk] [Gk Bk].
      apply (M (k - start)); [lia| |].
      * rewrite get_drop. replace (start + (k - start)) with k by lia.
        exact Gk.
      * replace (k - start + 1) with (k + 1 - start) by lia. lia.
  - right. split; [reflexivity|]. split; [reflexivity|].
    intros k Lk [Gk Bk].
    apply (H (k - start)).
    + rewrite get_drop. replace (start + (k - start)) with k by lia.
      exact Gk.
    + replace (k - start + 1) with (k + 1 - start) by lia. lia.
Qed.

(** ** What every parse result satisfies *)

Section ParseResults.
Context {astlib : ast.Lib} {engine : re.Engine}.

Lemma parse_cases (code language : string) :
  (Py.lower language = "python"
   /\ parse code language = _parse_python code)
  \/ ((Py.lower language = "javascript" \/ Py.lower language = "typescript")
      /\ parse code language = _parse_javascript code)
  \/ (Py.lower language = "java"
      /\ parse code language = _parse_java code)
  \/ (~ In (Py.lower language) supported_tags
      /\ parse code language = _parse_generic code (Py.lower language)).
Proof.
  unfold parse.
  destruct (decide (Py.lower language = "python")) as [E|N1];
    [left; rewrite E, parsers_python; tauto|].
  destruct (decide (Py.lower language = "javascript")) as [E|N2];
    [right; left; rewrite E, parsers_javascript; tauto|].
  destruct (decide (Py.lower language = "typescript")) as [E|N3];
    [right; left; rewrite E, parsers_typescript; tauto|].
  destruct (decide (Py.lower language = "java")) as [E|N4];
    [right; right; left; rewrite E, parsers_java; tauto|].
  right; right; right.
  assert (U : ~ In (Py.lower language) supported_tags).
  { unfold supported_tags. cbn [In]. intros [H|[H|[H|[H|[]]]]]; congruence. }
  rewrite (parsers_unsupported _ U). tauto.
Qed.

Lemma estimate_complexity_range (code : string) :
  (2 <= _estimate_complexity code <= 100)%Z.
Proof.
  rewrite estimate_complexity_spec. unfold keyword_count. lia.
Qed.

(** X9: a parse reports at most one error.  The JavaScript,
    TypeScript and Java extractors report none, an unsupported language
    reports exactly the fallback notice, and a Python parse that reports an
    error has the complexity score 0.  The score never exceeds 100. *)
Theorem parse_errors_invariant (code language : string) :
  let r := parse code language in
  length (ParseResult.errors r) <= 1
  /\ (In (Py.lower language) ["javascript"; "typescript"; "java"] ->
        ParseResult.errors r = [])
  /\ (~ In (Py.lower language) supported_tags ->
        length (ParseResult.errors r) = 1)
  /\ (Py.lower language = "python" -> ParseResult.errors r <> [] ->
        ParseResult.complexity_score r = 0%Z)
  /\ (ParseResult.complexity_score r <= 100)%Z.
Proof.
  intros r. unfold r.
  pose proof (estimate_complexity_range code) as R.
  assert (NP : In "python" ["javascript"; "typescript"; "java"] -> False)
    by (cbn [In]; intros [H|[H|[H|[]]]]; discriminate H).
  assert (SP : In "python" supported_tags) by (cbn; tauto).
  destruct (parse_cases code language)
    as [[L ->]|[[L ->]|[[L ->]|[L ->]]]].
  - rewrite L. unfold _parse_python.
    destruct (_parse_python_try code empty_store) as [c s|[l m|k m] s] eqn:T;
      cbn [python_result ParseResult.errors ParseResult.complexity_score
           length];
      (split; [lia|]); (split; [intros I; destruct (NP I)|]);
      (split; [intros U; destruct (U SP)|]);
      (split; [intros _ N; try reflexivity; contradiction N; reflexivity|]);
      try lia.
    revert T. unfold _parse_python_try, sbind, lift.
    destruct (ast.parse code) as [tree|]; [|discriminate].
    destruct (for_each (ast.walk tree) collect_imports empty_store)
      as [[] s1|]; [|discriminate].
    destruct (for_each (ast.iter_child_nodes tree) _ s1) as [[] s2|];
      [|discriminate].
    unfold _calculate_complexity.
    destruct (ofold complexity_step (ast.walk tree) 1%Z) as [z|];
      [|discriminate].
    cbn [obind]. intros E. injection E as <- _. lia.
  - cbn [_parse_javascript ParseResult.errors ParseResult.complexity_score
         length].
    split; [lia|]. split; [reflexivity|]. split.
    + intros U. exfalso. apply U. unfold supported_tags. cbn [In].
      destruct L as [->| ->]; tauto.
    + split; [intros _ N; contradiction N; reflexivity|lia].
  - cbn [_parse_java ParseResult.errors ParseResult.complexity_score length].
    split; [lia|]. split; [reflexivity|]. split.
    + intros U. exfalso. apply U. unfold supported_tags. cbn [In].
      rewrite L. tauto.
    + split; [intros _ N; contradiction N; reflexivity|lia].
  - cbn [_parse_generic ParseResult.errors ParseResult.complexity_score
         length].
    split; [lia|]. split.
    + intros I. exfalso. apply L. unfold supported_tags. cbn [In] in *.
      tauto.
    + split; [reflexivity|]. split; [|lia].
      intros P. exfalso. apply L. rewrite P. exact SP.
Qed.

End ParseResults.

Lemma parse_errors_invariant_witness :
  In (Py.lower "Java") ["javascript"; "typescript"; "java"]
  /\ ParseResult.errors
       (parse (astlib := sample.astlib) (engine := sample.engine)
              "class A { }" "Java") = [].
Proof.
  assert (I : In (Py.lower "Java") ["javascript"; "typescript"; "java"])
    by (cbn; tauto).
  split; [exact I|].
  apply (parse_errors_invariant (astlib := sample.astlib)
           (engine := sample.engine) "class A { }" "Java"), I.
Defined.

Section ComplexityRange.
Context {astlib : ast.Lib} {engine : re.Engine}.

Lemma python_complexity_range (code : string) (c : Z) (s : store) :
  (forall tree, ast.parse code = Returns tree -> parsed_shape tree = true) ->
  _parse_python_try code empty_store = Done c s ->
  (5 <= c <= 100)%Z.
Proof.
  intros S T.
  destruct (ast.parse code) as [tree|e] eqn:P.
  - pose proof (parse_python_try_complexity _ _ _ _ _ P T) as C.
    specialize (S tree eq_refl).
    rewrite calculate_complexity_total in C.
    + injection C as <-. rewrite (total_weight_parsed _ S).
      pose proof (count_if_nonneg branching (ast.subnodes tree)).
      pose proof (operands_sum_nonneg (boolop_nodes tree)).
      unfold branching_count. lia.
    + apply shape_values_ok. unfold parsed_shape in S.
      apply andb_true_iff in S. tauto.
  - rewrite (parse_python_try_raises _ _ P) in T. discriminate T.
Qed.

(** X10: for trees as the Python parser builds them the complexity score
    of every parse lies between 0 and 100; it is 0 exactly when a Python
    parse reported an error, and at least 2 otherwise. *)
Theorem parse_complexity_range (code language : string) :
  (forall tree, ast.parse code = Returns tree -> parsed_shape tree = true) ->
  let r := parse code language in
  (0 <= ParseResult.complexity_score r <= 100)%Z
  /\ (ParseResult.complexity_score r = 0%Z
      <-> Py.lower language = "python" /\ ParseResult.errors r <> [])
  /\ (ParseResult.complexity_score r <> 0%Z ->
        (2 <= ParseResult.complexity_score r)%Z).
Proof.
  intros S r. unfold r.
  pose proof (estimate_complexity_range code) as R.
  destruct (parse_cases code language)
    as [[L ->]|[[L ->]|[[L ->]|[L ->]]]].
  - unfold _parse_python.
    destruct (_parse_python_try code empty_store) as [c s|[l m|k m] s] eqn:T;
      cbn [python_result ParseResult.errors ParseResult.complexity_score].
    + pose proof (python_complexity_range _ _ _ S T) as C.
      split; [lia|]. split; [|lia].
      split; [lia|]. intros [_ N]. contradiction N. reflexivity.
    + split; [lia|]. split; [|lia].
      split; [|reflexivity]. intros _. split; [exact L|discriminate].
    + split; [lia|]. split; [|lia].
      split; [|reflexivity]. intros _. split; [exact L|discriminate].
  - cbn [_parse_javascript ParseResult.errors ParseResult.complexity_score].
    split; [lia|]. split; [|lia].
    split; [lia|]. intros [_ N]. contradiction N. reflexivity.
  - cbn [_parse_java ParseResult.errors ParseResult.complexity_score].
    split; [lia|]. split; [|lia].
    split; [lia|]. intros [_ N]. contradiction N. reflexivity.
  - cbn [_parse_generic ParseResult.errors ParseResult.complexity_score].
    split; [lia|]. split; [|lia].
    split; [lia|]. intros [P _]. exfalso. apply L. rewrite P. cbn. tauto.
Qed.

End ComplexityRange.

Lemma parse_complexity_range_witness :
  (forall tree, @ast.parse sample.astlib sample.and_code = Returns tree ->
                parsed_shape tree = true)
  /\ (0 <= ParseResult.complexity_score
             (parse (astlib := sample.astlib) (engine := sample.engine)
                    sample.and_code "python") <= 100)%Z.
Proof.
  assert (S : forall tree,
             @ast.parse sample.astlib sample.and_code = Returns tree ->
             parsed_shape tree = true).
  { intros tree E. injection E as <-. reflexivity. }
  split; [exact S|].
  apply (parse_complexity_range (astlib := sample.astlib)
           (engine := sample.engine) sample.and_code "python" S).
Defined.

(** ** The top level of a Python module *)

Lemma omap_snoc {A B} (f : A -> outcome B) (l : list A) (x : A)
    (ys : list B) (y : B) :
  omap f l = Returns ys -> f x = Returns y ->
  omap f (l ++ [x]) = Returns (ys ++ [y]).
Proof.
  revert ys. induction l as [|a l IH]; intros ys E F; cbn [omap app] in *.
  - injection E as <-. rewrite F. reflexivity.
  - destruct (f a) as [b|]; [|discriminate E]. cbn [obind] in *.
    destruct (omap f l) as [bs|]; [|discriminate E]. cbn [obind] in *.
    injection E as <-. rewrite (IH bs eq_refl F). reflexivity.
Qed.

Lemma def_not_class (node : value) : is_def node = true -> is_class node = false.
Proof.
  unfold is_def, is_class, ast.isinstance.
  destruct node as [| | | |cls fields attrs]; try discriminate.
  intros H. apply orb_true_iff in H as [H|H];
    apply String.eqb_eq in H; subst cls; reflexivity.
Qed.

Section TopLevel.
Context {astlib : ast.Lib}.
Variable lines : list string.

Local Abbreviation read_from := (read_from lines).

Lemma read_from_ext (done : list value) (s s' : store) :
  functions s' = functions s -> classes s' = classes s ->
  read_from done s -> read_from done s'.
Proof. unfold read_from. intros -> ->. tauto. Qed.

Lemma top_level_step (done : list value) (node : value) (s : store) :
  read_from done s ->
  match top_level lines node s with
  | Done _ s' => read_from (done ++ [node]) s'
  | Failed _ s' => read_from done s'
  end.
Proof.
  intros [F C]. unfold top_level. fold (is_def node). fold (is_class node).
  destruct (is_def node) eqn:D.
  - pose proof (def_not_class _ D) as NC.
    unfold sbind, lift, append_function.
    destruct (_extract_python_function node lines None) as [f|e] eqn:X;
      [|split; assumption].
    unfold read_from. rewrite !List.filter_app. cbn [List.filter].
    rewrite D, NC, app_nil_r. cbn [functions classes].
    split; [apply omap_snoc; assumption|exact C].
  - destruct (is_class node) eqn:K.
    + unfold sbind, lift, append_class.
      destruct (_extract_python_class node lines) as [c|e] eqn:X;
        [|split; assumption].
      unfold read_from. rewrite !List.filter_app. cbn [List.filter].
      rewrite D, K, app_nil_r. cbn [functions classes].
      split; [exact F|apply omap_snoc; assumption].
    + assert (R : forall s', functions s' = functions s ->
                             classes s' = classes s ->
                             read_from (done ++ [node]) s'
                             /\ read_from done s').
      { intros s' Ef Ec. unfold read_from.
        rewrite !List.filter_app. cbn [List.filter].
        rewrite D, K, !app_nil_r, Ef, Ec. tauto. }
      set (I := fun s' => functions s' = functions s
                          /\ classes s' = classes s).
      match goal with
      | |- match ?m s with _ => _ end => assert (P : preserves I m)
      end.
      { destruct (ast.isinstance node "Assign"); [|apply preserves_sret].
        apply preserves_sbind; [apply preserves_lift|]. intros targets.
        apply preserves_for_each. intros target _.
        destruct (ast.isinstance target "Name"); [|apply preserves_sret].
        apply preserves_sbind; [apply preserves_lift|]. intros nm.
        apply preserves_sbind; [apply preserves_lift|]. intros line.
        apply preserves_sbind; [apply preserves_lift|]. intros v.
        intros s0 H. exact H. }
      specialize (P s (conj eq_refl eq_refl)).
      match goal with
      | |- match ?m with _ => _ end =>
          destruct m as [u s'|e s']; destruct P as [Ef Ec];
          apply (R s' Ef Ec)
      end.
Qed.

Lemma top_level_loop (nodes done : list value) (s : store) :
  read_from done s ->
  match for_each nodes (top_level lines) s with
  | Done _ s' => read_from (done ++ nodes) s'
  | Failed _ s' =>
      exists k, k < length nodes /\ read_from (done ++ firstn k nodes) s'
  end.
Proof.
  revert done s. induction nodes as [|node nodes IH]; intros done s R.
  - cbn [for_each sret]. rewrite app_nil_r. exact R.
  - cbn [for_each]. unfold sbind.
    pose proof (top_level_step done node s R) as St.
    destruct (top_level lines node s) as [u s1|e s1].
    + specialize (IH (done ++ [node]) s1 St).
      destruct (for_each nodes (top_level lines) s1) as [u' s2|e s2].
      * rewrite <- app_assoc in IH. exact IH.
      * destruct IH as (k & L & IH). exists (S k). cbn [length firstn].
        split; [lia|]. rewrite <- app_assoc in IH. exact IH.
    + exists 0. cbn [length firstn]. split; [lia|].
      rewrite app_nil_r. exact St.
Qed.

Lemma collect_imports_keeps (node : value) (fs : list FunctionInfo.t)
    (cs : list ClassInfo.t) :
  preserves (fun s => functions s = fs /\ classes s = cs)
            (collect_imports node).
Proof.
  unfold collect_imports.
  destruct (ast.isinstance node "Import");
    [|destruct (ast.isinstance node "ImportFrom")].
  - apply preserves_sbind; [apply preserves_lift|]. intros names.
    apply preserves_for_each. intros alias _.
    apply preserves_sbind; [apply preserves_lift|]. intros nm.
    intros s H. exact H.
  - apply preserves_sbind; [apply preserves_lift|]. intros module_field.
    apply preserves_sbind; [apply preserves_lift|]. intros names.
    apply preserves_for_each. intros alias _.
    apply preserves_sbind; [apply preserves_lift|]. intros nm.
    intros s H. exact H.
  - apply preserves_sret.
Qed.

End TopLevel.



Lemma python_functions_extracted `{astlib : ast.Lib} (code : string)
    (f : FunctionInfo.t) :
  In f (ParseResult.functions (_parse_python code)) ->
  exists node,
    _extract_python_function node (Py.split Py.LF code) None = Returns f.
Proof.
  set (lines := Py.split Py.LF code).
  assert (G : forall s,
             (exists done, read_from lines done s) ->
             In f (functions s) ->
             exists node,
               _extract_python_function node lines None = Returns f).
  { intros s (done & Rf & _) I.
    pose proof (omap_returns_in _ _ _ Rf) as A.
    rewrite List.Forall_forall in A.
    destruct (A f I) as (node & _ & X). exists node. exact X. }
  assert (S : exists done,
             read_from lines done
               match _parse_python_try code empty_store with
               | Done _ s => s
               | Failed _ s => s
               end).
  { unfold _parse_python_try, sbind, lift. fold lines.
    destruct (ast.parse code) as [tree|e];
      [|exists []; split; reflexivity].
    assert (I1 : preserves (fun s => functions s = [] /\ classes s = [])
                   (for_each (ast.walk tree) collect_imports)).
    { apply preserves_for_each. intros node _. apply collect_imports_keeps. }
    specialize (I1 empty_store (conj eq_refl eq_refl)).
    destruct (for_each (ast.walk tree) collect_imports empty_store)
      as [[] s1|e s1]; destruct I1 as [Ef Ec];
      [|exists []; unfold read_from; cbn [List.filter omap];
        rewrite Ef, Ec; tauto].
    assert (R0 : read_from lines [] s1).
    { unfold read_from. cbn [List.filter omap]. rewrite Ef, Ec. tauto. }
    pose proof (top_level_loop lines (ast.iter_child_nodes tree) [] s1 R0)
      as L.
    destruct (for_each (ast.iter_child_nodes tree) (top_level lines) s1)
      as [[] s2|e s2].
    - exists ([] ++ ast.iter_child_nodes tree).
      destruct (_calculate_complexity tree); exact L.
    - destruct L as (k & _ & L). eexists. exact L. }
  unfold _parse_python.
  destruct (_parse_python_try code empty_store) as [c s|[l m|k m] s];
    cbn [python_result ParseResult.functions]; apply G, S.
Qed.

(** X12: no record among the functions of a parse result is a method:
    [is_method] is false and [class_name] is [None] for every language, so
    the methods of a class are found under the class only. *)
Theorem parse_functions_not_methods `{astlib : ast.Lib} `{engine : re.Engine}
    (code language : string) (f : FunctionInfo.t) :
  In f (ParseResult.functions (parse code language)) ->
  FunctionInfo.is_method f = false /\ FunctionInfo.class_name f = None.
Proof.
  destruct (parse_cases code language)
    as [[L ->]|[[L ->]|[[L ->]|[L ->]]]].
  - intros I. apply python_functions_extracted in I as (node & X).
    destruct (extract_python_function_spec _ _ _ _ X) as (_ & _ & _ & M & C).
    split; assumption.
  - cbn [_parse_javascript ParseResult.functions]. intros I.
    apply in_flat_map in I as (p & _ & I).
    apply in_map_iff in I as (m & <- & _). unfold js_function.
    destruct (negb _); [destruct (_find_matching_brace _ _)|];
      split; reflexivity.
  - cbn [_parse_java ParseResult.functions]. intros I.
    apply in_flat_map in I as (m & _ & I). unfold java_method in I.
    destruct (existsb _ _); [contradiction|].
    destruct I as [<-|[]]. split; reflexivity.
  - intros [].
Qed.

Lemma parse_functions_not_methods_witness :
  exists f,
    In f (ParseResult.functions
            (parse (astlib := sample.astlib) (engine := sample.engine)
                   sample.unit_code "python"))
    /\ FunctionInfo.is_method f = false.
Proof.
  destruct (ParseResult.functions
              (parse (astlib := sample.astlib) (engine := sample.engine)
                     sample.unit_code "python")) as [|f fs] eqn:E;
    [discriminate E|].
  exists f. split; [left; reflexivity|].
  apply (parse_functions_not_methods (astlib := sample.astlib)
           (engine := sample.engine) sample.unit_code "python" f).
  rewrite E. left. reflexivity.
Defined.

(** ** Function lengths *)

Lemma zsum_acc (l : list Z) (acc : Z) :
  fold_left Z.add l acc = (acc + zsum l)%Z.
Proof.
  unfold zsum. revert acc. induction l as [|x l IH]; intros acc;
    cbn [fold_left]; [lia|].
  rewrite (IH (acc + x)%Z), (IH (0 + x)%Z). lia.
Qed.

Lemma zsum_lengths_ge (fs : list FunctionInfo.t) :
  List.Forall well_spanned fs ->
  (Z.of_nat (length fs) <= zsum (map function_length fs))%Z.
Proof.
  induction 1 as [|f fs W _ IH]; [cbn; lia|].
  unfold zsum in *. cbn [map fold_left length].
  rewrite zsum_acc. unfold zsum, function_length, well_spanned in *. lia.
Qed.

Lemma zsum_lengths_one (fs : list FunctionInfo.t) :
  List.Forall (fun f => FunctionInfo.end_line f = FunctionInfo.start_line f)
              fs ->
  zsum (map function_length fs) = Z.of_nat (length fs).
Proof.
  induction 1 as [|f fs W _ IH]; [reflexivity|].
  unfold zsum in *. cbn [map fold_left length].
  rewrite zsum_acc. unfold zsum, function_length in *. lia.
Qed.

Lemma avg_ge_one (total n : Z) :
  (0 < n)%Z -> (n <= total)%Z -> (1 <= inject_Z total / inject_Z n)%Q.
Proof.
  intros P L.
  assert (PQ : (0 < inject_Z n)%Q)
    by (change 0%Q with (inject_Z 0); rewrite <- Zlt_Qlt; exact P).
  apply Qle_shift_div_l; [exact PQ|].
  rewrite Qmult_1_l, <- Zle_Qle. exact L.
Qed.

Section FunctionLengths.
Context {astlib : ast.Lib} {engine : re.Engine}.

Lemma parse_well_spanned (code language : string) :
  (forall tree, ast.parse code = Returns tree -> positions_ok tree = true) ->
  List.Forall well_spanned (ParseResult.functions (parse code language)).
Proof.
  intros S.
  destruct (parse_cases code language)
    as [[L ->]|[[L ->]|[[L ->]|[L ->]]]].
  - destruct (ast.parse code) as [tree|e] eqn:P.
    + destruct (parse_python_store code tree P (S tree eq_refl)) as [F _].
      eapply List.Forall_impl; [|exact F]. intros f [W _]. exact W.
    + destruct (parse_python_raises code e P) as [-> _]. constructor.
  - cbn [_parse_javascript ParseResult.functions].
    apply List.Forall_forall. intros f I.
    apply in_flat_map in I as (p & _ & I).
    apply in_map_iff in I as (m & <- & _). apply js_function_spec.
  - cbn [_parse_java ParseResult.functions].
    apply List.Forall_forall. intros f I.
    apply in_flat_map in I as (m & _ & I).
    apply (java_method_spec _ _ _ I).
  - constructor.
Qed.

(** X13: the average function length of the metrics is 0 when the parse
    found no function and at least 1 otherwise, for syntax trees whose
    nodes end no earlier than they start. *)
Theorem metrics_avg_function_length (code language : string) :
  (forall tree, ast.parse code = Returns tree -> positions_ok tree = true) ->
  let m := get_code_metrics code language in
  (functions_count m = 0%Z -> avg_function_length m == 0)
  /\ ((0 < functions_count m)%Z -> (1 <= avg_function_length m)%Q).
Proof.
  intros S m. unfold m, get_code_metrics.
  cbn [functions_count avg_function_length].
  pose proof (parse_well_spanned code language S) as W.
  destruct (ParseResult.functions (parse code language)) as [|f fs].
  - split; [reflexivity|]. cbn [length]. lia.
  - split; [cbn [length]; lia|]. intros _.
    unfold _avg_function_length. rewrite length_map.
    apply avg_ge_one; [cbn [length]; lia|].
    apply zsum_lengths_ge, W.
Qed.

(** X14: the Java extractor gives every method one line: the end line is
    the start line and the body is empty, whatever the method spans; no
    record is named after a control keyword; classes have no methods.  So
    the average function length of Java code is exactly 1 as soon as one
    method is found. *)
Theorem java_entities_one_line (code language : string) :
  Py.lower language = "java" ->
  let r := parse code language in
  List.Forall
    (fun f =>
       FunctionInfo.end_line f = FunctionInfo.start_line f
       /\ FunctionInfo.body f = ""
       /\ ~ In (FunctionInfo.name f)
               ["if"; "while"; "for"; "switch"; "try"; "catch"])
    (ParseResult.functions r)
  /\ List.Forall
       (fun c =>
          ClassInfo.end_line c = ClassInfo.start_line c
          /\ ClassInfo.methods c = [])
       (ParseResult.classes r)
  /\ (ParseResult.functions r <> [] ->
        avg_function_length (get_code_metrics code language) == 1).
Proof.
  intros L r.
  assert (E : parse code language = _parse_java code).
  { destruct (parse_cases code language)
      as [[L' _]|[[[L'|L'] _]|[[_ E]|[L' _]]]];
      try congruence.
    exfalso. apply L'. rewrite L. cbn. tauto. }
  assert (F : List.Forall
                (fun f =>
                   FunctionInfo.end_line f = FunctionInfo.start_line f
                   /\ FunctionInfo.body f = ""
                   /\ ~ In (FunctionInfo.name f)
                           ["if"; "while"; "for"; "switch"; "try"; "catch"])
                (ParseResult.functions r)).
  { unfold r. rewrite E. cbn [_parse_java ParseResult.functions].
    apply List.Forall_forall. intros f I.
    apply in_flat_map in I as (m & _ & I). unfold java_method in I.
    destruct (existsb (String.eqb (re.group_str m 2)) _) eqn:K;
      [contradiction|].
    destruct I as [<-|[]]. cbn [FunctionInfo.end_line FunctionInfo.start_line
                                FunctionInfo.body FunctionInfo.name].
    split; [reflexivity|]. split; [reflexivity|].
    intros I. assert (X : existsb (String.eqb (re.group_str m 2))
                            ["if"; "while"; "for"; "switch"; "try"; "catch"]
                          = true); [|congruence].
    apply existsb_exists. eexists. split; [exact I|apply String.eqb_refl]. }
  split; [exact F|]. split.
  - unfold r. rewrite E. cbn [_parse_java ParseResult.classes].
    apply List.Forall_forall. intros c I.
    apply in_map_iff in I as (m & <- & _). split; reflexivity.
  - intros N. unfold get_code_metrics. cbn [avg_function_length].
    fold r. destruct (ParseResult.functions r) as [|f fs] eqn:Fs;
      [contradiction N; reflexivity|].
    unfold _avg_function_length. rewrite length_map, zsum_lengths_one.
    + apply Qmult_inv_r. cbn [length]. intros Z0.
      apply (Qeq_bool_neq (inject_Z (Z.of_nat (S (length fs)))) 0);
        [|exact Z0].
      unfold Qeq_bool, inject_Z. cbn [Qnum Qden].
      apply Z.eqb_neq. lia.
    + eapply List.Forall_impl; [|exact F]. intros g (G & _). exact G.
Qed.

End FunctionLengths.

Lemma metrics_avg_function_length_witness :
  (forall tree, @ast.parse sample.astlib sample.unit_code = Returns tree ->
                positions_ok tree = true)
  /\ (1 <= avg_function_length
             (get_code_metrics (astlib := sample.astlib)
                (engine := sample.engine) sample.unit_code "python"))%Q.
Proof.
  assert (S : forall tree,
             @ast.parse sample.astlib sample.unit_code = Returns tree ->
             positions_ok tree = true).
  { intros tree E. injection E as <-. reflexivity. }
  split; [exact S|].
  apply (metrics_avg_function_length (astlib := sample.astlib)
           (engine := sample.engine) sample.unit_code "python" S).
  reflexivity.
Defined.

Lemma java_entities_one_line_witness :
  Py.lower "Java" = "java"
  /\ map FunctionInfo.name
       (ParseResult.functions
          (parse (astlib := sample.astlib) (engine := java_sample.engine)
                 java_sample.code "Java")) = ["f"]
  /\ avg_function_length
       (get_code_metrics (astlib := sample.astlib)
          (engine := java_sample.engine) java_sample.code "Java") == 1.
Proof.
  split; [reflexivity|]. split; [reflexivity|].
  apply (java_entities_one_line (astlib := sample.astlib)
           (engine := java_sample.engine) java_sample.code "Java" eq_refl).
  discriminate.
Defined.

(** ** File extensions *)

Lemma take_drop (n : nat) (s : string) : Py.take n s +:+ Py.drop n s = s.
Proof.
  revert s. induction n as [|n IH]; intros [|c s]; cbn; try reflexivity.
  rewrite IH. reflexivity.
Qed.

Lemma drop_length (n : nat) (s : string) :
  String.length (Py.drop n s) = String.length s - n.
Proof.
  revert s. induction n as [|n IH]; intros [|c s]; cbn [Py.drop String.length];
    try lia. apply IH.
Qed.

Lemma endswith_iff (s p : string) :
  str.endswith s p = true <-> exists x, s = x +:+ p.
Proof.
  unfold str.endswith. rewrite andb_true_iff, Nat.leb_le, String.eqb_eq.
  split.
  - intros [L E]. exists (Py.take (String.length s - String.length p) s).
    transitivity (Py.take (String.length s - String.length p) s
                  +:+ Py.drop (String.length s - String.length p) s);
      [symmetry; apply take_drop|f_equal; exact E].
  - intros [x ->]. rewrite length_append. split; [lia|].
    replace (String.length x + String.length p - String.length p)
      with (String.length x) by lia.
    apply drop_append.
Qed.

Lemma endswith_both (s a b : string) :
  str.endswith s a = true -> str.endswith s b = true ->
  String.length a <= String.length b -> str.endswith b a = true.
Proof.
  rewrite !endswith_iff. intros [x Ex] [y Ey] L. subst s.
  assert (Ly : String.length y <= String.length x).
  { apply (f_equal String.length) in Ey. rewrite !length_append in Ey. lia. }
  destruct (append_split y b x a (eq_sym Ey) Ly) as (q & _ & ->).
  exists q. reflexivity.
Qed.

(** X15: the extensions of the table exclude one another, so the language
    [_detect_language] returns does not depend on the order of the table:
    it is the language of the one extension the file name ends with, and
    "unknown" when it ends with none.  The comparison is case-sensitive. *)
Theorem detect_language_spec (filename : string) :
  (forall ext lang,
      In (ext, lang) extension_map ->
      str.endswith filename ext = true ->
      _detect_language filename = lang)
  /\ ((forall ext lang, In (ext, lang) extension_map ->
                        str.endswith filename ext = false) ->
      _detect_language filename = "unknown")
  /\ (_detect_language filename = "unknown"
      \/ In (_detect_language filename) (map snd extension_map)).
Proof.
  assert (X : extensions_exclusive = true) by (vm_compute; reflexivity).
  unfold extensions_exclusive in X. rewrite forallb_forall in X.
  unfold _detect_language.
  destruct (List.find (fun '(ext, lang) => str.endswith filename ext)
                      extension_map) as [[e0 l0]|] eqn:F.
  - apply List.find_some in F as [I0 M0]. split; [|split].
    + intros ext lang I M.
      pose proof (X _ I0) as X0. pose proof (X _ I) as X1.
      cbn beta iota in X0, X1. rewrite forallb_forall in X0, X1.
      specialize (X0 _ I). specialize (X1 _ I0). cbn beta iota in X0, X1.
      destruct (Nat.le_ge_cases (String.length e0) (String.length ext))
        as [L|L].
      * rewrite (endswith_both _ _ _ M0 M L) in X0. cbn [negb orb] in X0.
        apply andb_true_iff in X0 as [_ E]. apply String.eqb_eq, E.
      * rewrite (endswith_both _ _ _ M M0 L) in X1. cbn [negb orb] in X1.
        apply andb_true_iff in X1 as [_ E]. symmetry.
        apply String.eqb_eq, E.
    + intros N. rewrite (N _ _ I0) in M0. discriminate M0.
    + right. apply in_map_iff. exists (e0, l0). split; [reflexivity|exact I0].
  - split; [|split].
    + intros ext lang I M.
      pose proof (List.find_none _ _ F _ I) as N. cbn beta iota in N.
      congruence.
    + reflexivity.
    + left. reflexivity.
Qed.

Lemma detect_language_spec_witness :
  In (".tsx", "typescript") extension_map
  /\ str.endswith "src/App.tsx" ".tsx" = true
  /\ _detect_language "src/App.tsx" = "typescript".
Proof.
  assert (I : In (".tsx", "typescript") extension_map)
    by (cbn; tauto).
  split; [exact I|]. split; [reflexivity|].
  apply (proj1 (detect_language_spec "src/App.tsx") _ _ I). reflexivity.
Defined.

(** ** Patches *)

Lemma added_not_removed (text : string) :
  is_added text = true -> is_removed text = false.
Proof.
  unfold is_added, is_removed, Py.startswith.
  destruct text as [|ch text]; [discriminate|]. cbn [String.prefix].
  destruct (Ascii.ascii_dec "+" ch) as [<-|]; [|discriminate].
  reflexivity.
Qed.

Lemma hunk_not_marked (text : string) :
  Py.startswith text "@@" = true ->
  is_added text = false /\ is_removed text = false.
Proof.
  unfold is_added, is_removed, Py.startswith.
  destruct text as [|ch text]; [discriminate|]. cbn [String.prefix].
  destruct (Ascii.ascii_dec "@" ch) as [<-|]; [|discriminate].
  intros _. split; reflexivity.
Qed.

Lemma diff_fold (lines a r c : list string) :
  fold_left diff_step lines (a, r, c)
  = (a ++ map (Py.drop 1) (List.filter is_added lines),
     r ++ map (Py.drop 1) (List.filter is_removed lines),
     c ++ List.filter is_context lines).
Proof.
  revert a r c. induction lines as [|text lines IH]; intros a r c.
  - cbn. rewrite !app_nil_r. reflexivity.
  - cbn [fold_left List.filter]. unfold diff_step at 2, is_context at 1.
    pose proof (added_not_removed text) as X.
    pose proof (hunk_not_marked text) as Y.
    destruct (is_added text) eqn:A.
    + rewrite (X eq_refl). cbn [negb andb map].
      rewrite IH, <- app_assoc. reflexivity.
    + destruct (is_removed text) eqn:R.
      * cbn [negb andb map]. rewrite IH, <- app_assoc. reflexivity.
      * destruct (Py.startswith text "@@") eqn:H; cbn [negb andb map];
          rewrite IH, <- ?app_assoc; reflexivity.
Qed.

(** X16: every line of a patch goes to exactly one of the three texts or is
    a hunk header: lines marked [+] (but not [+++]) go to "added" and lines
    marked [-] (but not [---]) to "removed", both without the mark; the
    lines starting with [@@] are dropped; all others, the file headers
    [+++] and [---] among them, go to "context", in the order of the patch. *)
Theorem parse_diff_to_code_partition (patch : string) :
  let lines := Py.split Py.LF patch in
  let r := parse_diff_to_code patch in
  added r = Py.join (String Py.LF "")
              (map (Py.drop 1) (List.filter is_added lines))
  /\ removed r = Py.join (String Py.LF "")
                   (map (Py.drop 1) (List.filter is_removed lines))
  /\ context r = Py.join (String Py.LF "") (List.filter is_context lines)
  /\ length (List.filter is_added lines)
     + length (List.filter is_removed lines)
     + length (List.filter is_context lines)
     + length (List.filter (fun text => Py.startswith text "@@") lines)
     = length lines
  /\ (forall text,
        Py.startswith text "+++" = true \/ Py.startswith text "---" = true ->
        is_context text = true).
Proof.
  intros lines r. unfold r, parse_diff_to_code. fold lines.
  rewrite diff_fold. cbn [app added removed context].
  split; [reflexivity|]. split; [reflexivity|]. split; [reflexivity|].
  split.
  - induction lines as [|text lines IH]; [reflexivity|].
    cbn [List.filter length]. unfold is_context at 1.
    pose proof (added_not_removed text) as X.
    pose proof (hunk_not_marked text) as Y.
    destruct (is_added text) eqn:A.
    + rewrite (X eq_refl).
      destruct (Py.startswith text "@@") eqn:H;
        [destruct (Y eq_refl); discriminate|].
      cbn [negb andb length]. lia.
    + destruct (is_removed text) eqn:R;
        destruct (Py.startswith text "@@") eqn:H;
        cbn [negb andb length]; try lia;
        try (destruct (Y eq_refl); discriminate).
  - intros text [H|H]; unfold Py.startswith in H;
      apply prefix_iff in H as [rest ->]; destruct rest; reflexivity.
Qed.

(** *** Lines and texts *)

Lemma concat_cons_char (sep : string) (c : ascii) (h : string)
    (t : list string) :
  String.concat sep (String c h :: t) = String c (String.concat sep (h :: t)).
Proof. destruct t; reflexivity. Qed.

Lemma split_at_cons (p : ascii -> bool) (s : string) :
  exists h t, Py.split_at p s = h :: t.
Proof.
  destruct s as [|c s]; cbn [Py.split_at]; [eauto|].
  destruct (p c); [eauto|]. destruct (Py.split_at p s); eauto.
Qed.

(** Joining the lines of a text gives the text back. *)
Lemma join_split (s : string) :
  Py.join (String Py.LF "") (Py.split Py.LF s) = s.
Proof.
  unfold Py.join, Py.split. induction s as [|c s IH]; [reflexivity|].
  cbn [Py.split_at].
  destruct (split_at_cons (Ascii.eqb Py.LF) s) as (h & t & E).
  rewrite E in *. destruct (Ascii.eqb_spec Py.LF c) as [<-|N].
  - transitivity (String Py.LF (String.concat (String Py.LF "") (h :: t)));
      [reflexivity|rewrite IH; reflexivity].
  - rewrite concat_cons_char, IH. reflexivity.
Qed.

Lemma split_single_line (s : string) :
  single_line s = true -> Py.split Py.LF s = [s].
Proof.
  unfold Py.split. induction s as [|c s IH]; [reflexivity|].
  cbn [single_line Py.split_at]. intros H.
  apply andb_true_iff in H as [N S].
  destruct (Ascii.eqb Py.LF c); [discriminate N|].
  rewrite (IH S). reflexivity.
Qed.

Lemma split_append_line (s t : string) :
  single_line s = true ->
  Py.split Py.LF (s +:+ String Py.LF t) = s :: Py.split Py.LF t.
Proof.
  unfold Py.split. induction s as [|c s IH]; intros S.
  - cbn [String.append Py.split_at]. rewrite Ascii.eqb_refl. reflexivity.
  - cbn [single_line] in S. apply andb_true_iff in S as [N S].
    cbn [String.append Py.split_at].
    destruct (Ascii.eqb Py.LF c); [discriminate N|].
    rewrite (IH S). reflexivity.
Qed.

Lemma join_cons (x y : string) (l : list string) :
  Py.join (String Py.LF "") (x :: y :: l)
  = x +:+ String Py.LF (Py.join (String Py.LF "") (y :: l)).
Proof. reflexivity. Qed.

(** Splitting the join of lines gives the lines back. *)
Lemma split_join (l : list string) :
  l <> [] -> forallb single_line l = true ->
  Py.split Py.LF (Py.join (String Py.LF "") l) = l.
Proof.
  induction l as [|x l IH]; [congruence|].
  intros _ F. cbn [forallb] in F. apply andb_true_iff in F as [Sx F].
  destruct l as [|y l].
  - apply split_single_line, Sx.
  - rewrite join_cons, split_append_line by exact Sx.
    rewrite IH; [reflexivity|discriminate|exact F].
Qed.

Lemma split_at_single (s : string) :
  forallb single_line (Py.split Py.LF s) = true.
Proof.
  unfold Py.split. induction s as [|c s IH]; [reflexivity|].
  cbn [Py.split_at].
  destruct (split_at_cons (Ascii.eqb Py.LF) s) as (h & t & E).
  rewrite E in *. destruct (Ascii.eqb Py.LF c) eqn:C.
  - cbn [forallb single_line]. exact IH.
  - cbn [forallb single_line] in *. rewrite C. exact IH.
Qed.

Lemma single_line_drop (n : nat) (s : string) :
  single_line s = true -> single_line (Py.drop n s) = true.
Proof.
  revert s. induction n as [|n IH]; intros [|c s] S; cbn [Py.drop];
    try exact S.
  cbn [single_line] in S. apply andb_true_iff in S as [_ S]. apply IH, S.
Qed.

Lemma filter_all {A} (p : A -> bool) (l : list A) :
  (forall x, In x l -> p x = true) -> List.filter p l = l.
Proof.
  induction l as [|x l IH]; intros H; [reflexivity|].
  cbn [List.filter]. rewrite (H x (or_introl eq_refl)).
  f_equal. apply IH. intros y I. apply H. right. exact I.
Qed.

Lemma filter_none {A} (p : A -> bool) (l : list A) :
  (forall x, In x l -> p x = false) -> List.filter p l = [].
Proof.
  induction l as [|x l IH]; intros H; [reflexivity|].
  cbn [List.filter]. rewrite (H x (or_introl eq_refl)).
  apply IH. intros y I. apply H. right. exact I.
Qed.

(** X17: a patch whose lines are all context comes back unchanged as the
    "context" text, with empty "added" and "removed" texts; and when the
    patch adds lines, the lines of the "added" text are exactly the added
    lines of the patch without their mark, in order (likewise for the
    removed lines). *)
Theorem parse_diff_to_code_round_trip (patch : string) :
  let lines := Py.split Py.LF patch in
  let r := parse_diff_to_code patch in
  ((forall text, In text lines -> is_context text = true) ->
     context r = patch /\ added r = "" /\ removed r = "")
  /\ (List.filter is_added lines <> [] ->
        Py.split Py.LF (added r)
        = map (Py.drop 1) (List.filter is_added lines))
  /\ (List.filter is_removed lines <> [] ->
        Py.split Py.LF (removed r)
        = map (Py.drop 1) (List.filter is_removed lines)).
Proof.
  intros lines r. unfold r, parse_diff_to_code. fold lines.
  rewrite diff_fold. cbn [app added removed context].
  assert (S : forall p, forallb single_line
                          (map (Py.drop 1) (List.filter p lines)) = true).
  { intros p. apply forallb_forall. intros x I.
    apply in_map_iff in I as (y & <- & I). apply filter_In in I as [I _].
    apply single_line_drop.
    pose proof (split_at_single patch) as F. rewrite forallb_forall in F.
    apply F, I. }
  split; [|split].
  - intros C. rewrite (filter_all is_context) by exact C.
    unfold lines at 1. rewrite join_split.
    rewrite !filter_none; [tauto| |].
    + intros x I. specialize (C x I). unfold is_context in C.
      destruct (is_removed x); [|reflexivity].
      rewrite andb_false_r in C. discriminate C.
    + intros x I. specialize (C x I). unfold is_context in C.
      destruct (is_added x); [discriminate C|reflexivity].
  - intros N. apply split_join; [|apply S].
    destruct (List.filter is_added lines); [congruence|discriminate].
  - intros N. apply split_join; [|apply S].
    destruct (List.filter is_removed lines); [congruence|discriminate].
Qed.

Lemma parse_diff_to_code_round_trip_witness :
  let patch := "@@ -1 +1 @@" +:+ String Py.LF ""
               +:+ "-x = 1" +:+ String Py.LF ""
               +:+ "+x = 2" +:+ String Py.LF ""
               +:+ "+y = 3" in
  List.filter is_added (Py.split Py.LF patch) <> []
  /\ Py.split Py.LF (added (parse_diff_to_code patch)) = ["x = 2"; "y = 3"].
Proof.
  intros patch.
  assert (N : List.filter is_added (Py.split Py.LF patch) <> [])
    by (vm_compute; discriminate).
  split; [exact N|].
  rewrite (proj1 (proj2 (parse_diff_to_code_round_trip patch)) N).
  reflexivity.
Defined.

Lemma parse_diff_to_code_partition_witness :
  Py.startswith "+++ b/app.py" "+++" = true
  /\ is_context "+++ b/app.py" = true
  /\ context (parse_diff_to_code
                ("+++ b/app.py" +:+ String Py.LF "" +:+ "+x = 2"))
     = "+++ b/app.py".
Proof.
  split; [reflexivity|]. split; [|reflexivity].
  apply (parse_diff_to_code_partition "+++ b/app.py").
  left. reflexivity.
Defined.

(** ** The review agent *)

Lemma count_issues_fold (issues : list Issue) (m : gmap string Z)
    (k : string) :
  fold_left (fun counts issue =>
               let severity := i_severity issue in
               match counts !! severity with
               | Some n => <[ severity := (n + 1)%Z ]> counts
               | None => counts
               end)
            issues m !! k
  = match m !! k with
    | Some n =>
        Some (n + count_if (fun i => String.eqb (i_severity i) k) issues)%Z
    | None => None
    end.
Proof.
  revert m. induction issues as [|i issues IH]; intros m.
  - cbn [fold_left]. unfold count_if. cbn [List.filter length].
    destruct (m !! k); [f_equal; lia|reflexivity].
  - cbn [fold_left]. rewrite IH, count_if_cons.
    destruct (String.eqb_spec (i_severity i) k) as [E|N].
    + rewrite E. destruct (m !! k) as [n|] eqn:L.
      * rewrite lookup_insert_eq. f_equal. lia.
      * rewrite L. reflexivity.
    + destruct (m !! i_severity i) as [n|].
      * rewrite lookup_insert_ne by exact N.
        destruct (m !! k); [f_equal; lia|reflexivity].
      * destruct (m !! k); [f_equal; lia|reflexivity].
Qed.

(** X18: [_count_issues] counts, for each of the five severities, the
    issues that carry it; an issue of any other severity is ignored and adds
    no key. *)
Theorem count_issues_spec (issues : list Issue) (k : string) :
  _count_issues issues !! k
  = if existsb (String.eqb k) severity_tags
    then Some (count_if (fun i => String.eqb (i_severity i) k) issues)
    else None.
Proof.
  unfold _count_issues. rewrite count_issues_fold.
  set (m := ({[ "error" := 0%Z; "warning" := 0%Z; "info" := 0%Z;
                "suggestion" := 0%Z; "security" := 0%Z ]} : gmap string Z)).
  assert (L : m !! k = if existsb (String.eqb k) severity_tags
                       then Some 0%Z else None).
  { unfold m, severity_tags. cbn [existsb].
    repeat match goal with
    | |- context [String.eqb k ?t] =>
        destruct (String.eqb_spec k t) as [->|?];
        [vm_compute; reflexivity|]
    end.
    cbn [orb].
    repeat (rewrite lookup_insert_ne by congruence).
    rewrite lookup_singleton_ne by congruence. reflexivity. }
  rewrite L. destruct (existsb (String.eqb k) severity_tags);
    [f_equal; lia|reflexivity].
Qed.

Lemma split_from_length (sep : string) (skip : nat) (s : string) :
  1 <= length (str.split_from sep skip s).
Proof.
  revert skip. induction s as [|c s IH]; intros skip;
    cbn [str.split_from length]; [lia|].
  destruct skip as [|k]; [|apply IH].
  destruct (String.prefix sep (String c s)); [cbn [length]; lia|].
  specialize (IH 0). destruct (str.split_from sep 0 s); cbn [length] in *; lia.
Qed.

(** Where the separator occurs, [split] gives two parts or more. *)
Lemma split_contains (sep s : string) :
  sep <> "" -> Py.contains sep s = true -> 2 <= length (str.split s sep).
Proof.
  intros N. unfold str.split. induction s as [|c s IH].
  - cbn. destruct sep; [congruence|discriminate].
  - cbn [Py.contains str.split_from]. intros C.
    destruct (String.prefix sep (String c s)) eqn:P.
    + pose proof (split_from_length sep (String.length sep - 1) s).
      cbn [length]. lia.
    + cbn [orb] in C. specialize (IH C).
      destruct (str.split_from sep 0 s); cbn [length] in *; lia.
Qed.

Lemma slice_length {A} (l : list A) (lo hi : Z) :
  (0 <= lo <= hi)%Z -> (Z.of_nat (length (Py.slice l lo hi)) <= hi - lo)%Z.
Proof.
  intros H. unfold Py.slice. rewrite length_firstn.
  destruct (Z.ltb_spec hi 0), (Z.ltb_spec lo 0); lia.
Qed.

(** X20: [_extract_issues] never raises.  It returns one issue per flagged
    section, in order and with the section's severity, followed by at most
    four issues of severity "error" read from the lines after the first
    "CRITICAL" of the upper-cased output, and by none when the output does
    not name "CRITICAL". *)
Theorem extract_issues_spec (upper : string -> string)
    (agent_result : gmap string string) (defect_result : DefectPrediction) :
  exists critical,
    _extract_issues upper agent_result defect_result
    = Returns (map defect_issue (flagged_sections defect_result) ++ critical)
    /\ length critical <= 4
    /\ List.Forall
         (fun i => i_severity i = "error" /\ i_category i = "critical"
                   /\ i_line i = None)
         critical
    /\ (Py.contains "CRITICAL"
          (upper (default "" (agent_result !! "raw_output"))) = false ->
        critical = [])
    /\ map i_severity (map defect_issue (flagged_sections defect_result))
       = map severity (flagged_sections defect_result).
Proof.
  unfold _extract_issues.
  set (output := default "" (agent_result !! "raw_output")).
  assert (M : map i_severity
                (map defect_issue (flagged_sections defect_result))
              = map severity (flagged_sections defect_result)).
  { rewrite map_map. apply map_ext. reflexivity. }
  destruct (Py.contains "CRITICAL" (upper output)) eqn:C.
  - pose proof (split_contains "CRITICAL" (upper output)
                  ltac:(discriminate) C) as L.
    unfold item.
    destruct (nth_error (str.split (upper output) "CRITICAL") 1)
      as [part|] eqn:E.
    + cbn [obind].
      exists (flat_map critical_issue
                (Py.slice (Py.split Py.LF part) 1 5)).
      split; [reflexivity|]. split; [|split; [|split]].
      * pose proof (slice_length (Py.split Py.LF part) 1 5 ltac:(lia)) as S.
        assert (F : forall l : list string,
                   length (flat_map critical_issue l) <= length l).
        { induction l as [|x l IH]; [cbn; lia|].
          cbn [flat_map length]. rewrite length_app.
          unfold critical_issue at 1.
          destruct (_ && _); cbn [length]; lia. }
        specialize (F (Py.slice (Py.split Py.LF part) 1 5)). lia.
      * apply List.Forall_forall. intros i I.
        apply in_flat_map in I as (text & _ & I). unfold critical_issue in I.
        destruct (_ && _); [|contradiction].
        destruct I as [<-|[]]. repeat split.
      * discriminate.
      * exact M.
    + apply nth_error_None in E. lia.
  - exists []. rewrite app_nil_r. split; [reflexivity|].
    split; [cbn; lia|]. split; [constructor|]. split; [reflexivity|exact M].
Qed.

(** ** The response of a review *)

Lemma omap_all_return {A B} (f : A -> outcome B) (l : list A) :
  (exists ys, omap f l = Returns ys)
  <-> List.Forall (fun x => exists y, f x = Returns y) l.
Proof.
  induction l as [|x l IH]; cbn [omap].
  - split; [constructor|eauto].
  - split.
    + intros [ys E]. destruct (f x) as [y|e] eqn:F; [|discriminate E].
      cbn [obind] in E. destruct (omap f l) as [zs|e]; [|discriminate E].
      constructor; [eauto|]. apply IH. eauto.
    + intros H. inversion H as [|? ? [y F] T]; subst.
      apply IH in T as [zs E]. rewrite F, E. cbn [obind]. eauto.
Qed.

Lemma omap_raises {A B} (f : A -> outcome B) (l : list A) (e : exn) :
  List.Forall (fun x => (exists y, f x = Returns y) \/ f x = Raises e) l ->
  List.Exists (fun x => f x = Raises e) l ->
  omap f l = Raises e.
Proof.
  induction 1 as [|x l [[y F]|F] _ IH]; intros X.
  - inversion X.
  - cbn [omap]. rewrite F. cbn [obind].
    inversion X as [? ? G|? ? G]; subst; [congruence|].
    rewrite (IH G). reflexivity.
  - cbn [omap]. rewrite F. reflexivity.
Qed.

Lemma severity_of_tag_cases (sev : Severity) :
  (exists m, schemas.Severity_of (tag sev) = Returns m /\ sev <> security)
  \/ (schemas.Severity_of (tag sev)
      = Raises (PyException "ValueError" "'security' is not a valid Severity")
      /\ sev = security).
Proof.
  destruct sev; cbn.
  - left. exists schemas.ERROR. split; [reflexivity|discriminate].
  - right. split; reflexivity.
  - left. exists schemas.WARNING. split; [reflexivity|discriminate].
  - left. exists schemas.INFO. split; [reflexivity|discriminate].
  - left. exists schemas.SUGGESTION. split; [reflexivity|discriminate].
Qed.

Lemma extract_issues_parts (upper : string -> string)
    (agent_result : gmap string string) (defect_result : DefectPrediction) :
  exists critical,
    _extract_issues upper agent_result defect_result
    = Returns (map defect_issue (flagged_sections defect_result) ++ critical)
    /\ List.Forall (fun i => i_severity i = "error") critical.
Proof.
  unfold _extract_issues.
  destruct (Py.contains "CRITICAL" _) eqn:C;
    [|exists []; rewrite app_nil_r; split; [reflexivity|constructor]].
  pose proof (split_contains "CRITICAL" _ ltac:(discriminate) C) as L.
  unfold item.
  destruct (nth_error _ 1) as [part|] eqn:E;
    [|apply nth_error_None in E; lia].
  cbn [obind]. eexists. split; [reflexivity|].
  apply List.Forall_forall. intros i I.
  apply in_flat_map in I as (text & _ & I). unfold critical_issue in I.
  destruct (_ && _); [|contradiction].
  destruct I as [<-|[]]. reflexivity.
Qed.

(** X21: the issues of a review can be turned into the response model
    exactly when [analyze] flagged no section of severity "security": the
    enumeration of the response has no such member, so one security finding
    makes the conversion raise [ValueError]. *)
Theorem review_response_security `{engine : re.Engine}
    (upper : string -> string) (agent_result : gmap string string)
    (self : DefectClassifier) (code language : string) :
  let defect_result := analyze self code language in
  exists issues,
    _extract_issues upper agent_result defect_result = Returns issues
    /\ ((exists l, response_issues issues = Returns l)
        <-> List.Forall (fun section => severity section <> "security")
                        (flagged_sections defect_result))
    /\ (List.Exists (fun section => severity section = "security")
                    (flagged_sections defect_result) ->
        response_issues issues
        = Raises (PyException "ValueError"
                    "'security' is not a valid Severity")).
Proof.
  intros defect_result.
  destruct (extract_issues_parts upper agent_result defect_result)
    as (critical & E & K).
  exists (map defect_issue (flagged_sections defect_result) ++ critical).
  split; [exact E|].
  pose proof (analyze_severities self code language) as T.
  fold defect_result in T. rewrite List.Forall_forall in T, K.
  set (conv := fun issue =>
                 let* sev := schemas.Severity_of (i_severity issue) in
                 Returns {| schemas.line := i_line issue;
                            schemas.column := i_column issue;
                            schemas.severity := sev;
                            schemas.category := i_category issue;
                            schemas.message := i_message issue;
                            schemas.suggestion := i_suggestion issue;
                            schemas.code_snippet := i_code_snippet issue |}).
  assert (Cd : forall section,
             In section (flagged_sections defect_result) ->
             ((exists y, conv (defect_issue section) = Returns y)
              /\ severity section <> "security")
             \/ (conv (defect_issue section)
                 = Raises (PyException "ValueError"
                             "'security' is not a valid Severity")
                 /\ severity section = "security")).
  { intros section I. destruct (T section I) as [sev S].
    unfold conv. cbn [defect_issue i_severity]. rewrite S.
    destruct (severity_of_tag_cases sev) as [(m & -> & N)|[-> ->]].
    - left. cbn [obind]. split; [eauto|]. destruct sev; try discriminate.
      congruence.
    - right. split; reflexivity. }
  assert (Cc : forall i, In i critical -> exists y, conv i = Returns y).
  { intros i I. unfold conv. rewrite (K i I). cbn. eauto. }
  unfold response_issues. fold conv. split.
  - rewrite omap_all_return, List.Forall_app, !List.Forall_forall. split.
    + intros [D _] section I.
      destruct (Cd section I) as [[_ N]|[R _]]; [exact N|].
      destruct (D (defect_issue section)) as [y Y];
        [apply in_map, I|congruence].
    + intros N. split.
      * intros i I. apply in_map_iff in I as (section & <- & I).
        destruct (Cd section I) as [[Y _]|[_ S]]; [exact Y|].
        destruct (N section I S).
      * exact Cc.
  - intros X. apply omap_raises.
    + apply List.Forall_app. split; apply List.Forall_forall.
      * intros i I. apply in_map_iff in I as (section & <- & I).
        destruct (Cd section I) as [[Y _]|[R _]]; tauto.
      * intros i I. left. apply Cc, I.
    + apply List.Exists_app. left.
      apply List.Exists_exists in X as (section & I & S).
      apply List.Exists_exists. exists (defect_issue section).
      split; [apply in_map, I|].
      destruct (Cd section I) as [[_ N]|[R _]]; [contradiction|exact R].
Qed.

Lemma review_response_security_witness :
  exists issues,
    _extract_issues ascii_text.upper ascii_text.agent_result
      (analyze (engine := literal.engine) (untrained failing_model)
               "pwd = 1" "python")
    = Returns issues
    /\ response_issues issues
       = Raises (PyException "ValueError"
                   "'security' is not a valid Severity").
Proof.
  destruct (review_response_security (engine := literal.engine)
              ascii_text.upper ascii_text.agent_result
              (untrained failing_model) "pwd = 1" "python")
    as (issues & E & _ & R).
  exists issues. split; [exact E|]. apply R.
  apply List.Exists_exists. eexists. split; [left; reflexivity|reflexivity].
Defined.

Section ReviewRuns.

(** The issues read from an answer: the flagged section first, then the
    lines after "CRITICAL", upper-cased. *)
Example extract_issues_run :
  option_map (map (fun i => (i_severity i, i_category i, i_message i)))
    (match _extract_issues ascii_text.upper ascii_text.agent_result
             (analyze (engine := literal.engine) (untrained failing_model)
                      "pwd = 1" "python") with
     | Returns issues => Some issues
     | Raises _ => None
     end)
  = Some [("security", "defect", "Potential password handling");
          ("error", "critical", "EVAL ON USER INPUT")].
Proof. vm_compute. reflexivity. Qed.

End ReviewRuns.
